(** * Habit scheduling, streaks and adherence statistics

    A shallow embedding of the scheduling and statistics code that the
    habit tracker repeats in its React components, and the properties of
    that code.

    Conventions of the embedding.

    - A JavaScript [Date] is an instant.  It is modelled as an integer
      number of milliseconds on the local time line, that is
      [getTime()] shifted by the offset of the local zone.  The zone is
      taken to have a fixed offset (no daylight-saving switch inside the
      windows looked at), so [subDays] and [addDays] of date-fns move an
      instant by exact multiples of 86 400 000 ms and differences of
      [getTime()] values are differences of these integers.
    - [created_at] is the instant obtained by [parseISO] or [new Date]
      from the stored timestamp.
    - Counters are JavaScript numbers holding integers; they are
      modelled in [Z].  Percentages are quotients of such counters and
      are modelled exactly in [Q].
    - [frequency_type] is kept as the string stored in the database, so
      that the [default] arm of the [switch] can be reached. *)

From Stdlib Require Import ZArith QArith Qround Lia List Ascii String Bool
  Permutation Sorted.
From Equations Require Import Equations.
From stdpp Require Import gmap strings list pretty.

Local Open Scope Z_scope.

(** ** Dates (date-fns and the built-in [Date]) *)

Module DateFns.

Definition Date := Z.

(** [1000 * 60 * 60 * 24] *)
Definition msPerDay : Z := 1000 * 60 * 60 * 24.

Definition subDays (date : Date) (amount : Z) : Date :=
  date - amount * msPerDay.

Definition addDays (date : Date) (amount : Z) : Date :=
  date + amount * msPerDay.

(** Number of the local calendar day an instant falls on; day 0 is
    1970-01-01. *)
Definition dayNumber (date : Date) : Z := date / msPerDay.

(** Proleptic Gregorian date [(year, month, day)] of a day number. *)
Definition civil_from_days (z : Z) : Z * Z * Z :=
  let z := z + 719468 in
  let era := z / 146097 in
  let doe := z - era * 146097 in
  let yoe := (doe - doe / 1460 + doe / 36524 - doe / 146096) / 365 in
  let y := yoe + era * 400 in
  let doy := doe - (365 * yoe + yoe / 4 - yoe / 100) in
  let mp := (5 * doy + 2) / 153 in
  let d := doy - (153 * mp + 2) / 5 + 1 in
  let m := if mp <? 10 then mp + 3 else mp - 9 in
  (if m <=? 2 then y + 1 else y, m, d).

Definition days_from_civil (y m d : Z) : Z :=
  let y := if m <=? 2 then y - 1 else y in
  let era := y / 400 in
  let yoe := y - era * 400 in
  let doy := (153 * (if 2 <? m then m - 3 else m + 9) + 2) / 5 + d - 1 in
  let doe := yoe * 365 + yoe / 4 - yoe / 100 + doy in
  era * 146097 + doe - 719468.

(** Decimal rendering, left-padded with zeros to [width] characters. *)
Fixpoint zeros (n : nat) : string :=
  match n with
  | O => ""%string
  | S n' => ("0" ++ zeros n')%string
  end.

Definition padded (width : nat) (n : Z) : string :=
  let s := pretty (Z.to_N n) in
  (zeros (width - String.length s) ++ s)%string.

(** [format(date, 'yyyy-MM-dd')], for years from 1 on. *)
Definition format_yyyyMMdd (date : Date) : string :=
  let '(y, m, d) := civil_from_days (dayNumber date) in
  (padded 4 y ++ "-" ++ padded 2 m ++ "-" ++ padded 2 d)%string.

(** [format(date, 'MMM dd')] *)
Definition format_MMMdd (date : Date) : string :=
  let '(_, m, d) := civil_from_days (dayNumber date) in
  let name :=
    nth (Z.to_nat (m - 1))
      ["Jan"; "Feb"; "Mar"; "Apr"; "May"; "Jun";
       "Jul"; "Aug"; "Sep"; "Oct"; "Nov"; "Dec"]%string ""%string in
  (name ++ " " ++ padded 2 d)%string.

(** [format(date, 'EEEE')]: 1970-01-01 was a Thursday. *)
Definition format_EEEE (date : Date) : string :=
  let wd := (dayNumber date + 3) mod 7 in
  (if (wd =? 0)%Z then "Monday"
   else if (wd =? 1)%Z then "Tuesday"
   else if (wd =? 2)%Z then "Wednesday"
   else if (wd =? 3)%Z then "Thursday"
   else if (wd =? 4)%Z then "Friday"
   else if (wd =? 5)%Z then "Saturday"
   else "Sunday")%string.

Definition lower_ascii (c : ascii) : ascii :=
  let n := nat_of_ascii c in
  if ((65 <=? n)%nat && (n <=? 90)%nat)%bool
  then ascii_of_nat (n + 32) else c.

(** [String.prototype.toLowerCase], on ASCII letters. *)
Fixpoint toLowerCase (s : string) : string :=
  match s with
  | EmptyString => EmptyString
  | String c s' => String (lower_ascii c) (toLowerCase s')
  end.

Definition digit_of_ascii (c : ascii) : option Z :=
  let n := nat_of_ascii c in
  if ((48 <=? n)%nat && (n <=? 57)%nat)%bool
  then Some (Z.of_nat (n - 48)) else None.

Fixpoint digits_value (acc : Z) (s : string) : option Z :=
  match s with
  | EmptyString => Some acc
  | String c s' =>
      match digit_of_ascii c with
      | Some d => digits_value (10 * acc + d) s'
      | None => None
      end
  end.

(** [new Date(s).getTime()] for a date-only string [yyyy-MM-dd]; [None]
    stands for the [NaN] of an invalid date.  Only differences of two
    results are used, so the zone shift is left out. *)
Definition Date_parse (s : string) : option Z :=
  if negb (String.length s =? 10)%nat then None
  else if negb (String.eqb (substring 4 1 s) "-"
                && String.eqb (substring 7 1 s) "-")%bool then None
  else
    match digits_value 0 (substring 0 4 s),
          digits_value 0 (substring 5 2 s),
          digits_value 0 (substring 8 2 s) with
    | Some y, Some m, Some d =>
        if ((1 <=? m) && (m <=? 12) && (1 <=? d) && (d <=? 31))%bool
        then Some (days_from_civil y m d * msPerDay)
        else None
    | _, _, _ => None
    end.

End DateFns.

Import DateFns.

(** ** Rows of the store ([src/lib/supabase.ts]) *)

Record Habit := {
  id : string;
  frequency_type : string;
  custom_days : option (list string);
  is_active : bool;
  created_at : Date
}.

Record HabitCompletion := {
  habit_id : string;
  completion_date : string
}.

(** ** Small pieces of JavaScript *)

Module JS.

(** [Array.prototype.includes] on strings. *)
Definition includes (x : string) (l : list string) : bool :=
  existsb (String.eqb x) l.

(** [Array.prototype.some] *)
Definition some {A} (p : A -> bool) (l : list A) : bool := existsb p l.

(** The [%] operator on integers truncates towards zero. *)
Definition rem (a b : Z) : Z := Z.rem a b.

(** [Array.prototype.sort] with a comparator.  The comparator's sign is
    given as a [comparison]: [Lt] for a negative result (first argument
    goes first), [Gt] for a positive one, [Eq] for zero and for [NaN].
    The sort is stable, as the language requires. *)
Fixpoint sort_insert {A} (cmp : A -> A -> comparison) (x : A)
    (l : list A) : list A :=
  match l with
  | [] => [x]
  | y :: l' =>
      match cmp x y with
      | Gt => y :: sort_insert cmp x l'
      | _ => x :: l
      end
  end.

Fixpoint sort {A} (cmp : A -> A -> comparison) (l : list A) : list A :=
  match l with
  | [] => []
  | x :: l' => sort_insert cmp x (sort cmp l')
  end.

End JS.

(** ** Schedule evaluator *)

(** [shouldShowHabitOnDate(habit, date)] as it stands in [App.tsx],
    [WeeklyCalendar.tsx], [MonthlyCalendar.tsx], [ExportAnalytics.tsx],
    [MostAbandonedHabits.tsx], [EnhancedAnalyticsDashboard.tsx], the
    chart component, and, under the name [shouldHaveHabitOnDate], in the
    shared page. *)
Definition shouldShowHabitOnDate (habit : Habit) (date : Date) : bool :=
  let dayName := toLowerCase (format_EEEE date) in
  if String.eqb (frequency_type habit) "daily" then true
  else if String.eqb (frequency_type habit) "alternate" then
    let createdDate := created_at habit in
    let daysSinceCreation := (date - createdDate) / msPerDay in
    (0 <=? daysSinceCreation) && (JS.rem daysSinceCreation 2 =? 0)
  else if String.eqb (frequency_type habit) "custom" then
    match custom_days habit with
    | Some days => JS.includes dayName days
    | None => false
    end
  else false.

(** ** Loops

    The two loop shapes of the code.  [while (true) { ... break ... }]
    has no bound in the source, so its model takes an amount of fuel and
    answers [None] when the fuel is used up.  The loop over the days of a
    window, [let d = new Date(start); while (d <= end) { ...; d =
    addDays(d, 1) }], always ends and is defined by well-founded
    recursion on the number of days left. *)

Lemma forEachDay_decreases (endDate currentDate : Date) :
  currentDate <= endDate ->
  (Z.to_nat ((endDate - addDays currentDate 1) / msPerDay + 1)
   < Z.to_nat ((endDate - currentDate) / msPerDay + 1))%nat.
Proof.
  intros Hle. unfold addDays.
  replace (endDate - (currentDate + 1 * msPerDay))
    with ((endDate - currentDate) + (-1) * msPerDay) by ring.
  rewrite Z.div_add by (unfold msPerDay; lia).
  assert (0 <= (endDate - currentDate) / msPerDay)
    by (apply Z.div_pos; unfold msPerDay; lia).
  lia.
Qed.

Equations forEachDay {S : Type} (endDate : Date) (body : Date -> S -> S)
    (currentDate : Date) (acc : S) : S
    by wf (Z.to_nat ((endDate - currentDate) / msPerDay + 1)) lt :=
  forEachDay endDate body currentDate acc with Z_le_dec currentDate endDate => {
    | left Hle => forEachDay endDate body (addDays currentDate 1)
                    (body currentDate acc);
    | right _ => acc }.
Next Obligation. intros. apply forEachDay_decreases; assumption. Qed.

(** ** Window aggregator *)

Record Stats := { completed : Z; planned : Z }.

(** The body run for one habit on one day: [planned++], and [completed++]
    when [completions.some(c => c.habit_id === habit.id &&
    c.completion_date === dateStr)]. *)
Definition countHabit (completions : list HabitCompletion) (date : Date)
    (dateStr : string) (acc : Stats) (habit : Habit) : Stats :=
  if shouldShowHabitOnDate habit date then
    let planned' := planned acc + 1 in
    let hasCompletion :=
      JS.some (fun c => String.eqb (habit_id c) (id habit)
                        && String.eqb (completion_date c) dateStr)
        completions in
    if hasCompletion
    then {| completed := completed acc + 1; planned := planned' |}
    else {| completed := completed acc; planned := planned' |}
  else acc.

(** [planned > 0 ? (completed / planned) * 100 : 0] *)
Definition completionRate (st : Stats) : Q :=
  if 0 <? planned st
  then (inject_Z (completed st) / inject_Z (planned st)) * inject_Z 100
  else 0%Q.

(** ** Streak calculator *)

(** Comparator of the sort in [calculateCurrentStreak]:
    [new Date(b.completion_date).getTime() -
     new Date(a.completion_date).getTime()]. *)
Definition byDateDesc (a b : HabitCompletion) : comparison :=
  match Date_parse (completion_date b), Date_parse (completion_date a) with
  | Some tb, Some ta => (tb - ta) ?= 0
  | _, _ => Eq
  end.

(** The [while (true)] loop of [calculateCurrentStreak].  The three copies
    differ in the bound of the last test only ([streak > 365] in the
    enhanced dashboard, [streak > 100] in the older dashboard and in the
    shared page). *)
Fixpoint streakLoop (cap : Z) (fuel : nat) (habit : Habit)
    (habitCompletions : list HabitCompletion) (checkDate : Date)
    (streak : Z) : option Z :=
  match fuel with
  | O => None
  | S fuel' =>
      let dateStr := format_yyyyMMdd checkDate in
      let hasCompletion :=
        JS.some (fun c => String.eqb (completion_date c) dateStr)
          habitCompletions in
      let shouldHaveHabit := shouldShowHabitOnDate habit checkDate in
      let next (streak : Z) :=
        let checkDate := subDays checkDate 1 in
        if cap <? streak then Some streak
        else streakLoop cap fuel' habit habitCompletions checkDate streak in
      if shouldHaveHabit then
        if hasCompletion then next (streak + 1)
        else Some streak
      else next streak
  end.

Definition calculateCurrentStreak_cap (cap : Z) (fuel : nat) (habit : Habit)
    (completions : list HabitCompletion) (today : Date) : option Z :=
  let habitCompletions :=
    JS.sort byDateDesc
      (List.filter (fun c => String.eqb (habit_id c) (id habit)) completions) in
  if (length habitCompletions =? 0)%nat then Some 0
  else streakLoop cap fuel habit habitCompletions today 0.

Module Dashboard.

(** [calculateCurrentStreak(habit, completions)] of
    [EnhancedAnalyticsDashboard.tsx]; [today] is the [new Date()] it
    reads. *)
Definition calculateCurrentStreak := calculateCurrentStreak_cap 365.

(** [getCompletionStats(habits, completions, days)]; [endDate] is the
    [new Date()] it reads. *)
Definition getCompletionStats (habits : list Habit)
    (completions : list HabitCompletion) (days : Z) (endDate : Date)
    : Stats :=
  fold_left
    (fun acc i =>
       let date := subDays endDate i in
       let dateStr := format_yyyyMMdd date in
       fold_left (countHabit completions date dateStr) habits acc)
    (seqZ 0 days)
    {| completed := 0; planned := 0 |}.

End Dashboard.

Module SharedPage.

(** [calculateCurrentStreak] of the shared page and of the older
    dashboard. *)
Definition calculateCurrentStreak := calculateCurrentStreak_cap 100.

End SharedPage.

(** The copies of [HabitCard.tsx]. *)
Module HabitCard.

(** [shouldHaveHabitOnDate(date, habit)] of [HabitCard.tsx]: the
    [alternate] arm has no test on the sign of [daysSinceCreation]. *)
Definition shouldHaveHabitOnDate (date : Date) (habit : Habit) : bool :=
  let dayName := toLowerCase (format_EEEE date) in
  if String.eqb (frequency_type habit) "daily" then true
  else if String.eqb (frequency_type habit) "alternate" then
    let createdDate := created_at habit in
    let daysSinceCreation := (date - createdDate) / msPerDay in
    JS.rem daysSinceCreation 2 =? 0
  else if String.eqb (frequency_type habit) "custom" then
    match custom_days habit with
    | Some days => JS.includes dayName days
    | None => false
    end
  else false.

Fixpoint streakLoop (fuel : nat) (completions : list HabitCompletion)
    (habit : Habit) (currentDate : Date) (streak : Z) : option Z :=
  match fuel with
  | O => None
  | S fuel' =>
      let dateStr := format_yyyyMMdd currentDate in
      let hasCompletion :=
        JS.some (fun c => String.eqb (completion_date c) dateStr)
          completions in
      let next (streak : Z) :=
        let currentDate := subDays currentDate 1 in
        if 100 <? streak then Some streak
        else streakLoop fuel' completions habit currentDate streak in
      if hasCompletion then next (streak + 1)
      else
        let shouldHaveHabit :=
          shouldHaveHabitOnDate currentDate habit in
        if shouldHaveHabit then Some streak
        else next streak
  end.

(** [calculateStreak(completions, habit)]; the caller passes the
    completions of this habit only. *)
Definition calculateStreak (fuel : nat)
    (completions : list HabitCompletion) (habit : Habit) (today : Date)
    : option Z :=
  if (length completions =? 0)%nat then Some 0
  else streakLoop fuel completions habit today 0.

End HabitCard.

(** ** Adherence ranker ([MostAbandonedHabits.tsx]) *)

Module MostAbandoned.

Record AbandonedHabit := {
  habit : Habit;
  missedDays : Z;
  plannedDays : Z;
  failureRate : Q
}.

Inductive Period := P7 | P30 | P90 | PCustom.

(** The [switch (period)] that fixes the window; [None] is the early
    [return] taken when a custom bound is missing. *)
Definition window (period : Period)
    (customStartDate customEndDate : option Date) (now : Date)
    : option (Date * Date) :=
  let endDate := now in
  match period with
  | P7 => Some (subDays endDate 7, endDate)
  | P30 => Some (subDays endDate 30, endDate)
  | P90 => Some (subDays endDate 90, endDate)
  | PCustom =>
      match customStartDate, customEndDate with
      | Some startDate, Some endDate => Some (startDate, endDate)
      | _, _ => None
      end
  end.

(** The counting loop run for one habit; the pair is
    [(plannedDays, completedDays)]. *)
Definition countDay (habit : Habit) (completions : list HabitCompletion)
    (currentDate : Date) (acc : Z * Z) : Z * Z :=
  let '(plannedDays, completedDays) := acc in
  if shouldShowHabitOnDate habit currentDate then
    let plannedDays := plannedDays + 1 in
    let dateStr := format_yyyyMMdd currentDate in
    let hasCompletion :=
      JS.some (fun c => String.eqb (habit_id c) (id habit)
                        && String.eqb (completion_date c) dateStr)
        completions in
    if hasCompletion then (plannedDays, completedDays + 1)
    else (plannedDays, completedDays)
  else (plannedDays, completedDays).

Definition countDays (startDate endDate : Date) (habit : Habit)
    (completions : list HabitCompletion) : Z * Z :=
  forEachDay endDate (countDay habit completions) startDate (0, 0).

(** The body of [activeHabits.forEach]: a row is pushed when
    [plannedDays > 0]. *)
Definition pushStats (startDate endDate : Date)
    (completions : list HabitCompletion)
    (habitStats : list AbandonedHabit) (h : Habit) : list AbandonedHabit :=
  let '(plannedDays, completedDays) :=
    countDays startDate endDate h completions in
  if 0 <? plannedDays then
    let missedDays := plannedDays - completedDays in
    let failureRate :=
      ((inject_Z missedDays / inject_Z plannedDays) * inject_Z 100)%Q in
    (habitStats ++ [ {| habit := h; missedDays := missedDays;
                        plannedDays := plannedDays;
                        failureRate := failureRate |} ])%list
  else habitStats.

(** Comparator of the final sort. *)
Definition byFailure (a b : AbandonedHabit) : comparison :=
  if negb (Qeq_bool (failureRate a) (failureRate b))
  then (failureRate b - failureRate a ?= 0)%Q
  else (missedDays b - missedDays a ?= 0)%Z.

Definition hasFailures (h : AbandonedHabit) : bool :=
  match (0 ?= failureRate h)%Q with
  | Lt => true
  | _ => false
  end.

(** The part of [calculateAbandonedHabits] after the window is fixed. *)
Definition rankWindow (startDate endDate : Date) (habits : list Habit)
    (completions : list HabitCompletion) : list AbandonedHabit :=
  let activeHabits := List.filter is_active habits in
  let habitStats :=
    fold_left (pushStats startDate endDate completions) activeHabits [] in
  JS.sort byFailure (List.filter hasFailures habitStats).

(** [calculateAbandonedHabits()]: the list handed to
    [setAbandonedHabits], or [None] when it returns before. *)
Definition calculateAbandonedHabits (period : Period)
    (customStartDate customEndDate : option Date) (now : Date)
    (habits : list Habit) (completions : list HabitCompletion)
    : option (list AbandonedHabit) :=
  match window period customStartDate customEndDate now with
  | Some (startDate, endDate) =>
      Some (rankWindow startDate endDate habits completions)
  | None => None
  end.

End MostAbandoned.

(** ** Period bucketizer (the chart component) *)

Module AnalyticsChart.

Inductive ViewMode := Total | PerHabit.

(** A chart point is a JavaScript object whose fields hold a number or
    a string. *)
Inductive JSValue :=
| JSNum (q : Q)
| JSStr (s : string).

(** [getWeekStats(weekStart, weekEnd, habits, completions)] *)
Definition getWeekStats (weekStart weekEnd : Date) (habits : list Habit)
    (completions : list HabitCompletion) : Stats :=
  forEachDay weekEnd
    (fun currentDate acc =>
       let dateStr := format_yyyyMMdd currentDate in
       fold_left (countHabit completions currentDate dateStr) habits acc)
    weekStart {| completed := 0; planned := 0 |}.

(** [getWeekStatsForHabit(weekStart, weekEnd, habit, completions)] *)
Definition getWeekStatsForHabit (weekStart weekEnd : Date) (habit : Habit)
    (completions : list HabitCompletion) : Stats :=
  forEachDay weekEnd
    (fun currentDate acc =>
       let dateStr := format_yyyyMMdd currentDate in
       countHabit completions currentDate dateStr acc habit)
    weekStart {| completed := 0; planned := 0 |}.

(** [startOfWeek(d, { weekStartsOn: 1 })] and
    [endOfWeek(d, { weekStartsOn: 1 })] *)
Definition startOfWeek (date : Date) : Date :=
  (dayNumber date - (dayNumber date + 3) mod 7) * msPerDay.

Definition endOfWeek (date : Date) : Date :=
  startOfWeek date + 7 * msPerDay - 1.

(** The per-habit arm of the day view: [dataPoint[habit.id] =
    hasCompletion ? 100 : 0] for a selected habit that is due. *)
Definition setHabitPoint (selectedHabits : gset string)
    (completions : list HabitCompletion) (date : Date) (dateStr : string)
    (dataPoint : gmap string JSValue) (habit : Habit)
    : gmap string JSValue :=
  if bool_decide (id habit ∈ selectedHabits)
     && shouldShowHabitOnDate habit date then
    let hasCompletion :=
      JS.some (fun c => String.eqb (habit_id c) (id habit)
                        && String.eqb (completion_date c) dateStr)
        completions in
    <[ id habit := JSNum (if hasCompletion then inject_Z 100 else inject_Z 0) ]>
      dataPoint
  else dataPoint.

(** One pass of the day-view loop: the point for [date]. *)
Definition dayPoint (viewMode : ViewMode) (selectedHabits : gset string)
    (activeHabits : list Habit) (completions : list HabitCompletion)
    (date : Date) : gmap string JSValue :=
  let dateStr := format_yyyyMMdd date in
  let dateLabel := format_MMMdd date in
  let dataPoint : gmap string JSValue :=
    <[ "dateLabel"%string := JSStr dateLabel ]>
      (<[ "date"%string := JSStr dateStr ]> ∅) in
  match viewMode with
  | Total =>
      let dayHabits :=
        List.filter (fun h => shouldShowHabitOnDate h date) activeHabits in
      let dayCompletions :=
        List.filter
          (fun c => String.eqb (completion_date c) dateStr
                    && JS.some (fun h => String.eqb (id h) (habit_id c))
                         dayHabits)
          completions in
      <[ "total"%string :=
           JSNum (if (0 <? length dayHabits)%nat
                  then (inject_Z (Z.of_nat (length dayCompletions))
                        / inject_Z (Z.of_nat (length dayHabits))
                        * inject_Z 100)%Q
                  else 0%Q) ]> dataPoint
  | PerHabit =>
      fold_left (setHabitPoint selectedHabits completions date dateStr)
        activeHabits dataPoint
  end.

(** [chartData] for [periodView === 'day']. *)
Definition chartData_day (viewMode : ViewMode)
    (selectedHabits : gset string) (dateRange : Z) (endDate : Date)
    (habits : list Habit) (completions : list HabitCompletion)
    : list (gmap string JSValue) :=
  let activeHabits := List.filter is_active habits in
  fold_left
    (fun data i =>
       let date := subDays endDate (dateRange - i) in
       (data ++ [dayPoint viewMode selectedHabits activeHabits
                   completions date])%list)
    (seqZ 0 (dateRange + 1)) [].

(** The per-habit arm of the week view. *)
Definition setHabitWeek (selectedHabits : gset string)
    (completions : list HabitCompletion) (weekStart weekEndActual : Date)
    (dataPoint : gmap string JSValue) (habit : Habit)
    : gmap string JSValue :=
  if bool_decide (id habit ∈ selectedHabits) then
    let habitStats :=
      getWeekStatsForHabit weekStart weekEndActual habit completions in
    <[ id habit := JSNum (completionRate habitStats) ]> dataPoint
  else dataPoint.

(** One pass of the week-view loop: the point of the week [i] weeks
    back. *)
Definition weekPoint (viewMode : ViewMode) (selectedHabits : gset string)
    (activeHabits : list Habit) (completions : list HabitCompletion)
    (endDate : Date) (i : Z) : gmap string JSValue :=
  let weekEnd := subDays endDate (i * 7) in
  let weekStart := startOfWeek weekEnd in
  let weekEndActual := endOfWeek weekEnd in
  let dateLabel :=
    (format_MMMdd weekStart ++ " - " ++ format_MMMdd weekEndActual)%string in
  let dataPoint : gmap string JSValue :=
    <[ "dateLabel"%string := JSStr dateLabel ]>
      (<[ "date"%string := JSStr (format_yyyyMMdd weekStart) ]> ∅) in
  match viewMode with
  | Total =>
      let weekStats :=
        getWeekStats weekStart weekEndActual activeHabits completions in
      <[ "total"%string := JSNum (completionRate weekStats) ]> dataPoint
  | PerHabit =>
      fold_left (setHabitWeek selectedHabits completions weekStart
                   weekEndActual)
        activeHabits dataPoint
  end.

(** [Math.ceil(dateRange / 7)] *)
Definition weeksToShow (dateRange : Z) : Z := - ((- dateRange) / 7).

(** [chartData] for [periodView === 'week']; the list is built newest
    week first and reversed at the end. *)
Definition chartData_week (viewMode : ViewMode)
    (selectedHabits : gset string) (dateRange : Z) (endDate : Date)
    (habits : list Habit) (completions : list HabitCompletion)
    : list (gmap string JSValue) :=
  let activeHabits := List.filter is_active habits in
  rev (fold_left
         (fun data i =>
            (data ++ [weekPoint viewMode selectedHabits activeHabits
                        completions endDate i])%list)
         (seqZ 0 (weeksToShow dateRange)) []).

End AnalyticsChart.

(** ** The components as programs over a store

    The functions above take their arrays as values.  In the source the
    arrays are objects, [filter] and [map] make new ones, and [sort],
    [push] and [reverse] change one in place.  Here the same code is
    written over a store of arrays, so that it can be said what a call
    leaves behind for the next one. *)

Module Store.

Definition loc := nat.

Inductive Cell :=
| Habits (l : list Habit)
| Completions (l : list HabitCompletion)
| Rows (l : list MostAbandoned.AbandonedHabit)
| Points (l : list (gmap string AnalyticsChart.JSValue)).

(** A computation on the store; [None] is a run-time type error. *)
Definition M (A : Type) : Type :=
  gmap loc Cell -> option (A * gmap loc Cell).

#[export] Instance M_ret : MRet M := fun A a σ => Some (a, σ).

#[export] Instance M_bind : MBind M := fun A B k m σ =>
  match m σ with
  | Some (a, σ') => k a σ'
  | None => None
  end.

(** A new array. *)
Definition alloc (c : Cell) : M loc := fun σ =>
  let l := fresh (dom σ) in Some (l, <[ l := c ]> σ).

Definition write (l : loc) (c : Cell) : M unit := fun σ =>
  Some (tt, <[ l := c ]> σ).

Definition readHabits (l : loc) : M (list Habit) := fun σ =>
  match σ !! l with
  | Some (Habits hs) => Some (hs, σ)
  | _ => None
  end.

Definition readCompletions (l : loc) : M (list HabitCompletion) := fun σ =>
  match σ !! l with
  | Some (Completions cs) => Some (cs, σ)
  | _ => None
  end.

Definition readRows (l : loc) : M (list MostAbandoned.AbandonedHabit) :=
  fun σ =>
    match σ !! l with
    | Some (Rows rs) => Some (rs, σ)
    | _ => None
    end.

Definition readPoints (l : loc)
  : M (list (gmap string AnalyticsChart.JSValue)) :=
  fun σ =>
    match σ !! l with
    | Some (Points ps) => Some (ps, σ)
    | _ => None
    end.

(** [arr.sort(cmp)], [arr.push(x)], [arr.reverse()]: in place. *)
Definition sortCompletions
    (cmp : HabitCompletion -> HabitCompletion -> comparison) (l : loc)
  : M unit :=
  arr ← readCompletions l; write l (Completions (JS.sort cmp arr)).

Definition sortRows
    (cmp : MostAbandoned.AbandonedHabit -> MostAbandoned.AbandonedHabit
           -> comparison) (l : loc) : M unit :=
  arr ← readRows l; write l (Rows (JS.sort cmp arr)).

Definition pushRow (l : loc) (r : MostAbandoned.AbandonedHabit) : M unit :=
  arr ← readRows l; write l (Rows (arr ++ [r])).

Definition pushPoint (l : loc) (p : gmap string AnalyticsChart.JSValue)
  : M unit :=
  arr ← readPoints l; write l (Points (arr ++ [p])).

Definition reversePoints (l : loc) : M unit :=
  arr ← readPoints l; write l (Points (rev arr)).

(** [list.forEach(body)] and [for] loops over a known range. *)
Fixpoint forEach {A : Type} (l : list A) (body : A -> M unit) : M unit :=
  match l with
  | [] => mret tt
  | a :: l' => body a ;; forEach l' body
  end.

(** [calculateCurrentStreak]: the filtered copy is sorted in place. *)
Definition calculateCurrentStreak (cap : Z) (fuel : nat) (habit : Habit)
    (completions : loc) (today : Date) : M (option Z) :=
  cs ← readCompletions completions;
  habitCompletions ←
    alloc (Completions
             (List.filter (fun c => String.eqb (habit_id c) (id habit)) cs));
  sortCompletions byDateDesc habitCompletions;;
  hc ← readCompletions habitCompletions;
  mret (if (length hc =? 0)%nat then Some 0
        else streakLoop cap fuel habit hc today 0).

(** [getWeekStats] and [getCompletionStats] only read. *)
Definition getWeekStats (weekStart weekEnd : Date) (habits completions : loc)
  : M Stats :=
  hs ← readHabits habits;
  cs ← readCompletions completions;
  mret (AnalyticsChart.getWeekStats weekStart weekEnd hs cs).

Definition getCompletionStats (habits completions : loc) (days : Z)
    (endDate : Date) : M Stats :=
  hs ← readHabits habits;
  cs ← readCompletions completions;
  mret (Dashboard.getCompletionStats hs cs days endDate).

(** [calculateAbandonedHabits] after the window is fixed: rows are
    pushed on [habitStats], the filtered copy is sorted in place. *)
Definition rankWindow (startDate endDate : Date) (habits completions : loc)
  : M (list MostAbandoned.AbandonedHabit) :=
  hs ← readHabits habits;
  activeHabits ← alloc (Habits (List.filter is_active hs));
  habitStats ← alloc (Rows []);
  act ← readHabits activeHabits;
  forEach act (fun h =>
    cs ← readCompletions completions;
    let '(plannedDays, completedDays) :=
      MostAbandoned.countDays startDate endDate h cs in
    if 0 <? plannedDays then
      let missedDays := plannedDays - completedDays in
      let failureRate :=
        ((inject_Z missedDays / inject_Z plannedDays) * inject_Z 100)%Q in
      pushRow habitStats
        {| MostAbandoned.habit := h;
           MostAbandoned.missedDays := missedDays;
           MostAbandoned.plannedDays := plannedDays;
           MostAbandoned.failureRate := failureRate |}
    else mret tt);;
  rows ← readRows habitStats;
  sorted ← alloc (Rows (List.filter MostAbandoned.hasFailures rows));
  sortRows MostAbandoned.byFailure sorted;;
  readRows sorted.

(** [chartData]: points are pushed on [data]; the week view reverses it
    in place at the end. *)
Definition chartData_day (viewMode : AnalyticsChart.ViewMode)
    (selectedHabits : gset string) (dateRange : Z) (endDate : Date)
    (habits completions : loc)
  : M (list (gmap string AnalyticsChart.JSValue)) :=
  hs ← readHabits habits;
  activeHabits ← alloc (Habits (List.filter is_active hs));
  data ← alloc (Points []);
  forEach (seqZ 0 (dateRange + 1)) (fun i =>
    act ← readHabits activeHabits;
    cs ← readCompletions completions;
    pushPoint data
      (AnalyticsChart.dayPoint viewMode selectedHabits act cs
         (subDays endDate (dateRange - i))));;
  readPoints data.

Definition chartData_week (viewMode : AnalyticsChart.ViewMode)
    (selectedHabits : gset string) (dateRange : Z) (endDate : Date)
    (habits completions : loc)
  : M (list (gmap string AnalyticsChart.JSValue)) :=
  hs ← readHabits habits;
  activeHabits ← alloc (Habits (List.filter is_active hs));
  data ← alloc (Points []);
  forEach (seqZ 0 (AnalyticsChart.weeksToShow dateRange)) (fun i =>
    act ← readHabits activeHabits;
    cs ← readCompletions completions;
    pushPoint data
      (AnalyticsChart.weekPoint viewMode selectedHabits act cs endDate i));;
  reversePoints data;;
  readPoints data.

(** A call of one of the components on the snapshot held at [habits]
    and [completions]; the current date is an argument of the call. *)
Inductive Call :=
| IsDue (h : Habit) (date : Date)
| Streak (fuel : nat) (h : Habit) (today : Date)
| WeekStats (weekStart weekEnd : Date)
| RecentStats (days : Z) (now : Date)
| Rank (startDate endDate : Date)
| ChartDay (viewMode : AnalyticsChart.ViewMode) (selectedHabits : gset string)
    (dateRange : Z) (now : Date)
| ChartWeek (viewMode : AnalyticsChart.ViewMode) (selectedHabits : gset string)
    (dateRange : Z) (now : Date).

Inductive Answer :=
| Due (b : bool)
| StreakIs (s : option Z)
| StatsAre (st : Stats)
| Ranking (rows : list MostAbandoned.AbandonedHabit)
| Series (points : list (gmap string AnalyticsChart.JSValue)).

Definition call (habits completions : loc) (c : Call) : M Answer :=
  match c with
  | IsDue h date => mret (Due (shouldShowHabitOnDate h date))
  | Streak fuel h today =>
      s ← calculateCurrentStreak 365 fuel h completions today;
      mret (StreakIs s)
  | WeekStats weekStart weekEnd =>
      st ← getWeekStats weekStart weekEnd habits completions;
      mret (StatsAre st)
  | RecentStats days now =>
      st ← getCompletionStats habits completions days now;
      mret (StatsAre st)
  | Rank startDate endDate =>
      rows ← rankWindow startDate endDate habits completions;
      mret (Ranking rows)
  | ChartDay viewMode selectedHabits dateRange now =>
      points ← chartData_day viewMode selectedHabits dateRange now
                 habits completions;
      mret (Series points)
  | ChartWeek viewMode selectedHabits dateRange now =>
      points ← chartData_week viewMode selectedHabits dateRange now
                 habits completions;
      mret (Series points)
  end.

(** Calls made one after the other. *)
Fixpoint calls (habits completions : loc) (cs : list Call)
  : M (list Answer) :=
  match cs with
  | [] => mret []
  | c :: cs' =>
      a ← call habits completions c;
      rest ← calls habits completions cs';
      mret (a :: rest)
  end.

(** What the functions on values give for a call. *)
Definition answer (hs : list Habit) (cs : list HabitCompletion) (c : Call)
  : Answer :=
  match c with
  | IsDue h date => Due (shouldShowHabitOnDate h date)
  | Streak fuel h today =>
      StreakIs (Dashboard.calculateCurrentStreak fuel h cs today)
  | WeekStats weekStart weekEnd =>
      StatsAre (AnalyticsChart.getWeekStats weekStart weekEnd hs cs)
  | RecentStats days now =>
      StatsAre (Dashboard.getCompletionStats hs cs days now)
  | Rank startDate endDate =>
      Ranking (MostAbandoned.rankWindow startDate endDate hs cs)
  | ChartDay viewMode selectedHabits dateRange now =>
      Series (AnalyticsChart.chartData_day viewMode selectedHabits dateRange
                now hs cs)
  | ChartWeek viewMode selectedHabits dateRange now =>
      Series (AnalyticsChart.chartData_week viewMode selectedHabits dateRange
                now hs cs)
  end.

End Store.

(** ** Notions used in the statements *)

(** [completions.some(c => c.completion_date === dateStr)] *)
Definition doneOn (completions : list HabitCompletion) (dateStr : string)
  : bool :=
  JS.some (fun c => String.eqb (completion_date c) dateStr) completions.

(** The completions a streak is computed from. *)
Definition ofHabit (h : Habit) (completions : list HabitCompletion)
  : list HabitCompletion :=
  List.filter (fun c => String.eqb (habit_id c) (id h)) completions.

Definition zeroStats : Stats := {| completed := 0; planned := 0 |}.

(** What every aggregate satisfies. *)
Definition boundedStats (st : Stats) : Prop :=
  0 <= completed st <= planned st.

(** The rows of [calculateAbandonedHabits] before the filter and the
    sort, in the order of the habits. *)
Definition habitStatsOf (startDate endDate : Date) (habits : list Habit)
    (completions : list HabitCompletion) : list MostAbandoned.AbandonedHabit :=
  fold_left (MostAbandoned.pushStats startDate endDate completions)
    (List.filter is_active habits) [].

(** [a] may stand before [b] in the ranking: a higher failure rate, or
    the same rate and at least as many missed days. *)
Definition ranksNoLower (a b : MostAbandoned.AbandonedHabit) : Prop :=
  (MostAbandoned.failureRate b < MostAbandoned.failureRate a)%Q
  \/ ((MostAbandoned.failureRate a == MostAbandoned.failureRate b)%Q
      /\ MostAbandoned.missedDays b <= MostAbandoned.missedDays a).

(** Same failure rate and same number of missed days. *)
Definition tied (a b : MostAbandoned.AbandonedHabit) : bool :=
  Qeq_bool (MostAbandoned.failureRate a) (MostAbandoned.failureRate b)
  && (MostAbandoned.missedDays a =? MostAbandoned.missedDays b).

(** A row of the ranking agrees with the counting loop run for its
    habit. *)
Definition rowFacts (startDate endDate : Date)
    (completions : list HabitCompletion)
    (r : MostAbandoned.AbandonedHabit) : Prop :=
  let counts :=
    MostAbandoned.countDays startDate endDate (MostAbandoned.habit r)
      completions in
  MostAbandoned.plannedDays r = fst counts
  /\ MostAbandoned.missedDays r = fst counts - snd counts
  /\ MostAbandoned.failureRate r
     = (inject_Z (MostAbandoned.missedDays r)
        / inject_Z (MostAbandoned.plannedDays r) * inject_Z 100)%Q
  /\ 0 < MostAbandoned.plannedDays r
  /\ 0 <= MostAbandoned.missedDays r <= MostAbandoned.plannedDays r.

(** The value the day view writes for a habit, and the test under which
    it writes it. *)
Definition habitValue (completions : list HabitCompletion) (date : Date)
    (h : Habit) : AnalyticsChart.JSValue :=
  AnalyticsChart.JSNum
    (if JS.some (fun c => String.eqb (habit_id c) (id h)
                          && String.eqb (completion_date c)
                               (format_yyyyMMdd date))
          completions
     then inject_Z 100 else inject_Z 0).

Definition plotted (selectedHabits : gset string) (date : Date) (h : Habit)
  : bool :=
  bool_decide (id h ∈ selectedHabits) && shouldShowHabitOnDate h date.

(** The store holds the snapshot: the habit array at [habits] and the
    completion array at [completions]. *)
Definition holdsSnapshot (habits completions : Store.loc) (hs : list Habit)
    (cs : list HabitCompletion) (σ : gmap Store.loc Store.Cell) : Prop :=
  σ !! habits = Some (Store.Habits hs)
  /\ σ !! completions = Some (Store.Completions cs).

(** ** Sample rows used in the examples *)

Module Sample.

(** 2024-01-15, a Monday, at 00:00. *)
Definition monday : Date := 19737 * msPerDay.

(** A never-due habit: [custom] with an empty day list. *)
Definition noDays : Habit :=
  {| id := "h0"; frequency_type := "custom"; custom_days := Some [];
     is_active := true; created_at := monday |}.

Definition mondays : Habit :=
  {| id := "h1"; frequency_type := "custom";
     custom_days := Some ["monday"%string];
     is_active := true; created_at := monday - 60 * msPerDay |}.

Definition everyDay : Habit :=
  {| id := "h2"; frequency_type := "daily"; custom_days := None;
     is_active := true; created_at := monday - 60 * msPerDay |}.

(** Created on Monday at 14:30. *)
Definition everyOtherDay : Habit :=
  {| id := "h3"; frequency_type := "alternate"; custom_days := None;
     is_active := true; created_at := monday + 52200000 |}.

Definition unknownKind : Habit :=
  {| id := "h4"; frequency_type := "weekly"; custom_days := None;
     is_active := true; created_at := monday |}.

Definition done (h : Habit) (day : string) : HabitCompletion :=
  {| habit_id := id h; completion_date := day |}.

Definition habits : list Habit := [mondays; everyDay; noDays].

Definition completions : list HabitCompletion :=
  [done everyDay "2024-01-15"; done everyDay "2024-01-16"].

(** A store with the habit array at 0 and the completion array at 1. *)
Definition store : gmap Store.loc Store.Cell :=
  <[ 0%nat := Store.Habits habits ]>
    (<[ 1%nat := Store.Completions completions ]> ∅).

End Sample.

(** ** The schedule rule in the words of the specification

    "True iff the integer number of whole days between [habit.createdAt]
    (truncated to a calendar date) and [date] is non-negative and even."
    Kept apart from the code above, to be compared with it. *)
Definition alternate_rule_by_calendar_days (createdAt date : Date) : bool :=
  let days := dayNumber date - dayNumber createdAt in
  (0 <=? days) && Z.even days.

(** * More of the code

    The functions around the ones above: the other copy of the schedule
    test in the habit card, the state updates of [App.tsx], the day
    statistics of the calendars, the dashboard's summary, the export
    rows, the controls of the chart and of the habit form, and the header
    of the shared page. *)

Module JSMath.

(** [Math.round]: the nearest integer, halves upwards. *)
Definition round (q : Q) : Z := Qfloor (q + (1 # 2)).

(** [Math.max(0, ...xs)] *)
Definition max0 (xs : list Z) : Z := fold_right Z.max 0 xs.

(** [differenceInDays(a, b)] of date-fns: whole days, towards zero. *)
Definition differenceInDays (a b : Date) : Z := Z.quot (a - b) msPerDay.

(** [format(date, 'MMM dd, yyyy')] *)
Definition format_MMMddyyyy (date : Date) : string :=
  let '(y, _, _) := civil_from_days (dayNumber date) in
  (format_MMMdd date ++ ", " ++ padded 4 y)%string.

(** [s.split(sep)] for a one-character separator. *)
Fixpoint split (sep : ascii) (s : string) : list string :=
  match s with
  | EmptyString => [EmptyString]
  | String c s' =>
      if Ascii.eqb c sep then EmptyString :: split sep s'
      else
        match split sep s' with
        | [] => [String c EmptyString]
        | part :: parts => String c part :: parts
        end
  end.

Definition upper_ascii (c : ascii) : ascii :=
  let n := nat_of_ascii c in
  if ((97 <=? n)%nat && (n <=? 122)%nat)%bool
  then ascii_of_nat (n - 32) else c.

(** [String.prototype.toUpperCase], on ASCII letters. *)
Fixpoint toUpperCase (s : string) : string :=
  match s with
  | EmptyString => EmptyString
  | String c s' => String (upper_ascii c) (toUpperCase s')
  end.

End JSMath.

(** [HabitCard.tsx]: the test behind "Not scheduled for today". *)
Module HabitCardToday.

(** [shouldShowForToday(habit)]; [today] is the [new Date()] it reads. *)
Definition shouldShowForToday (habit : Habit) (today : Date) : bool :=
  let dayName := toLowerCase (format_EEEE today) in
  if String.eqb (frequency_type habit) "daily" then true
  else if String.eqb (frequency_type habit) "alternate" then
    let createdDate := created_at habit in
    let daysSinceCreation := (today - createdDate) / msPerDay in
    JS.rem daysSinceCreation 2 =? 0
  else if String.eqb (frequency_type habit) "custom" then
    match custom_days habit with
    | Some days => JS.includes dayName days
    | None => false
    end
  else false.

(** [completions.find(c => c.completion_date === today)], then [!!]. *)
Definition isCompleted (completions : list HabitCompletion) (today : Date)
  : bool :=
  match List.find
          (fun c => String.eqb (completion_date c) (format_yyyyMMdd today))
          completions with
  | Some _ => true
  | None => false
  end.

End HabitCardToday.

(** [App.tsx]: the updates of the two lists held in state, as they are
    applied once the request to the store has succeeded. *)
Module App.

(** [setHabits(prev => [newHabit, ...prev])] *)
Definition handleHabitCreated (newHabit : Habit) (prev : list Habit)
  : list Habit :=
  newHabit :: prev.

(** [setHabits(prev => prev.map(h => h.id === updatedHabit.id ?
    updatedHabit : h))] *)
Definition handleHabitUpdated (updatedHabit : Habit) (prev : list Habit)
  : list Habit :=
  map (fun h => if String.eqb (id h) (id updatedHabit) then updatedHabit
                else h) prev.

(** [setHabits(prev => prev.filter(h => h.id !== habitId))] *)
Definition handleDeleteHabit (habitId : string) (prev : list Habit)
  : list Habit :=
  List.filter (fun h => negb (String.eqb (id h) habitId)) prev.

(** [handleToggleCompletion(habitId, date, completed)]: the row the
    store returns is put in front, or every row of that habit and date
    is taken out. *)
Definition handleToggleCompletion (habitId date : string) (completed : bool)
    (prev : list HabitCompletion) : list HabitCompletion :=
  if completed then
    {| habit_id := habitId; completion_date := date |} :: prev
  else
    List.filter
      (fun c => negb (String.eqb (habit_id c) habitId
                      && String.eqb (completion_date c) date))
      prev.

Record TodayStats := {
  total : Z;
  completed : Z;
  percentage : Z
}.

(** [getTodayStats()]; [now] is the [new Date()] it reads. *)
Definition getTodayStats (habits : list Habit)
    (completions : list HabitCompletion) (now : Date) : TodayStats :=
  let today := format_yyyyMMdd now in
  let todayHabits :=
    List.filter (fun h => shouldShowHabitOnDate h now) habits in
  let todayCompletions :=
    List.filter (fun c => String.eqb (completion_date c) today) completions in
  {| total := Z.of_nat (length todayHabits);
     completed := Z.of_nat (length todayCompletions);
     percentage :=
       if (0 <? length todayHabits)%nat
       then JSMath.round
              (inject_Z (Z.of_nat (length todayCompletions))
               / inject_Z (Z.of_nat (length todayHabits)) * inject_Z 100)
       else 0 |}.

End App.

Module MonthlyCalendar.

Record DayStats := {
  total : Z;
  completed : Z;
  percentage : Q
}.

(** [getDayStats(date)] *)
Definition getDayStats (habits : list Habit)
    (completions : list HabitCompletion) (date : Date) : DayStats :=
  let dateStr := format_yyyyMMdd date in
  let activeHabits :=
    List.filter (fun h => shouldShowHabitOnDate h date) habits in
  let completedCount :=
    length
      (List.filter
         (fun c => String.eqb (completion_date c) dateStr
                   && JS.some (fun h => String.eqb (id h) (habit_id c))
                        activeHabits)
         completions) in
  {| total := Z.of_nat (length activeHabits);
     completed := Z.of_nat completedCount;
     percentage :=
       if (0 <? length activeHabits)%nat
       then (inject_Z (Z.of_nat completedCount)
             / inject_Z (Z.of_nat (length activeHabits)) * inject_Z 100)%Q
       else 0%Q |}.

End MonthlyCalendar.

Module WeeklyCalendar.

(** [Array.from({ length: 7 }, (_, i) => addDays(startDate, i))] with
    [startDate = startOfWeek(currentWeek, { weekStartsOn: 1 })] *)
Definition weekDays (currentWeek : Date) : list Date :=
  let startDate := AnalyticsChart.startOfWeek currentWeek in
  map (fun i => addDays startDate i) (seqZ 0 7).

Definition goToPreviousWeek (currentWeek : Date) : Date :=
  addDays currentWeek (-7).

Definition goToNextWeek (currentWeek : Date) : Date :=
  addDays currentWeek 7.

(** One cell of the grid: whether the button is there, and whether it is
    ticked. *)
Definition cell (habit : Habit) (completions : list HabitCompletion)
    (day : Date) : bool * bool :=
  let dateStr := format_yyyyMMdd day in
  let completion :=
    List.find (fun c => String.eqb (habit_id c) (id habit)
                        && String.eqb (completion_date c) dateStr)
      completions in
  let isCompleted := match completion with Some _ => true | None => false end in
  let shouldShow := shouldShowHabitOnDate habit day in
  (shouldShow, isCompleted).

End WeeklyCalendar.

(** The older dashboard kept in [EnhancedAnalyticsDashboard.tsx]. *)
Module OldDashboard.

(** [calculateExpectedCompletions(habits, days)]; [endDate] is the
    [new Date()] it reads. *)
Definition calculateExpectedCompletions (habits : list Habit) (days : Z)
    (endDate : Date) : Z :=
  fold_left
    (fun expected i =>
       let date := subDays endDate i in
       fold_left
         (fun expected habit =>
            if shouldShowHabitOnDate habit date then expected + 1
            else expected)
         habits expected)
    (seqZ 0 days) 0.

End OldDashboard.

(** [calculateStats] of [EnhancedAnalyticsDashboard.tsx]. *)
Module DashboardStats.

Record HabitStats := {
  totalHabits : Z;
  activeHabits : Z;
  todayCompletionRate : Q;
  weekCompletionRate : Q;
  monthCompletionRate : Q;
  longestStreak : Z;
  currentStreaks : list (Habit * Z);
  totalCompletions : Z;
  averageDailyCompletions : Q;
  todayCompleted : Z;
  todayPlanned : Z;
  weekCompleted : Z;
  weekPlanned : Z;
  monthCompleted : Z;
  monthPlanned : Z
}.

(** [activeHabits.map(habit => ({ habit, streak:
    calculateCurrentStreak(habit, completions) }))]; no list comes back
    when one of the walks does not end. *)
Fixpoint streaksOf (fuel : nat) (habits : list Habit)
    (completions : list HabitCompletion) (today : Date)
  : option (list (Habit * Z)) :=
  match habits with
  | [] => Some []
  | h :: habits' =>
      match Dashboard.calculateCurrentStreak fuel h completions today with
      | None => None
      | Some streak =>
          match streaksOf fuel habits' completions today with
          | None => None
          | Some rest => Some ((h, streak) :: rest)
          end
      end
  end.

(** Comparator [(a, b) => b.streak - a.streak]. *)
Definition byStreakDesc (a b : Habit * Z) : comparison :=
  snd b - snd a ?= 0.

Definition calculateStats (fuel : nat) (habits : list Habit)
    (completions : list HabitCompletion) (today : Date)
  : option HabitStats :=
  let todayStr := format_yyyyMMdd today in
  let active := List.filter is_active habits in
  let todayHabits :=
    List.filter (fun h => shouldShowHabitOnDate h today) active in
  let todayCompletions :=
    List.filter
      (fun c => String.eqb (completion_date c) todayStr
                && JS.some (fun h => String.eqb (id h) (habit_id c))
                     todayHabits)
      completions in
  let week := Dashboard.getCompletionStats active completions 7 today in
  let month := Dashboard.getCompletionStats active completions 30 today in
  match streaksOf fuel active completions today with
  | None => None
  | Some all =>
      let streaks := List.filter (fun s => 0 <? snd s) all in
      let longest := JSMath.max0 (map snd streaks) in
      let daysSinceFirstHabit :=
        match habits with
        | first :: _ =>
            Z.max 1 (JSMath.differenceInDays today (created_at first))
        | [] => 1
        end in
      Some
        {| totalHabits := Z.of_nat (length habits);
           activeHabits := Z.of_nat (length active);
           todayCompletionRate :=
             if (0 <? length todayHabits)%nat
             then (inject_Z (Z.of_nat (length todayCompletions))
                   / inject_Z (Z.of_nat (length todayHabits))
                   * inject_Z 100)%Q
             else 0%Q;
           weekCompletionRate := completionRate week;
           monthCompletionRate := completionRate month;
           longestStreak := longest;
           currentStreaks := firstn 3 (JS.sort byStreakDesc streaks);
           totalCompletions := Z.of_nat (length completions);
           averageDailyCompletions :=
             (inject_Z (Z.of_nat (length completions))
              / inject_Z daysSinceFirstHabit)%Q;
           todayCompleted := Z.of_nat (length todayCompletions);
           todayPlanned := Z.of_nat (length todayHabits);
           weekCompleted := completed week;
           weekPlanned := planned week;
           monthCompleted := completed month;
           monthPlanned := planned month |}
  end.

End DashboardStats.

(** The habit filter of the chart component. *)
Module ChartControls.

(** [toggleHabit(habitId)]: the set put in state. *)
Definition toggleHabit (selectedHabits : gset string) (habitId : string)
  : gset string :=
  if bool_decide (habitId ∈ selectedHabits)
  then selectedHabits ∖ {[ habitId ]}
  else selectedHabits ∪ {[ habitId ]}.

End ChartControls.

(** [HabitForm.tsx] and [EditHabitModal.tsx]: the day boxes and the
    check made on submit. *)
Module HabitForm.

(** The [value]s of [DAYS_OF_WEEK]. *)
Definition DAYS_OF_WEEK : list string :=
  ["monday"; "tuesday"; "wednesday"; "thursday"; "friday"; "saturday";
   "sunday"]%string.

(** [handleCustomDayToggle(day, checked)]: the list put in state. *)
Definition handleCustomDayToggle (customDays : list string) (day : string)
    (checked : bool) : list string :=
  if checked then (customDays ++ [day])%list
  else List.filter (fun d => negb (String.eqb d day)) customDays.

(** What [handleSubmit] sends to the store: [frequency_type] and
    [custom_days]; [inl] is the message of the error it throws. *)
Definition handleSubmit (frequency : string) (customDays : list string)
  : string + (string * option (list string)) :=
  if String.eqb frequency "custom" && (length customDays =? 0)%nat
  then inl "Please select at least one day for custom frequency"%string
  else inr (frequency,
            if String.eqb frequency "custom" then Some customDays else None).

End HabitForm.

(** The header of the shared page. *)
Module SharedHeader.

(** [getStats().longestStreak]: [Math.max(0, ...activeHabits.map(habit =>
    calculateCurrentStreak(habit, data.completions)))]. *)
Fixpoint streaks (fuel : nat) (habits : list Habit)
    (completions : list HabitCompletion) (today : Date) : option (list Z) :=
  match habits with
  | [] => Some []
  | h :: habits' =>
      match SharedPage.calculateCurrentStreak fuel h completions today with
      | None => None
      | Some streak =>
          match streaks fuel habits' completions today with
          | None => None
          | Some rest => Some (streak :: rest)
          end
      end
  end.

Definition longestStreak (fuel : nat) (habits : list Habit)
    (completions : list HabitCompletion) (today : Date) : option Z :=
  match streaks fuel (List.filter is_active habits) completions today with
  | Some all => Some (JSMath.max0 all)
  | None => None
  end.

(** [part[0]]: the first character, or [undefined], which [join] prints
    as nothing. *)
Definition firstChar (part : string) : string :=
  match part with
  | EmptyString => EmptyString
  | String c _ => String c EmptyString
  end.

(** [name.split(' ').map(part => part[0]).join('').toUpperCase()
    .slice(0, 2)] *)
Definition getInitials (name : string) : string :=
  substring 0 2
    (JSMath.toUpperCase
       (fold_right String.append EmptyString
          (map firstChar (JSMath.split " "%char name)))).

(** [data.shareSettings.share_name || data.profile.full_name || 'User'];
    a field that is [null] is [None]. *)
Definition getDisplayName (share_name full_name : option string) : string :=
  match share_name with
  | Some (String c s) => String c s
  | _ =>
      match full_name with
      | Some (String c s) => String c s
      | _ => "User"%string
      end
  end.

End SharedHeader.

(** [ExportAnalytics.tsx]: the table that is turned into the file. *)
Module ExportAnalytics.

Inductive Field :=
| Text (s : string)
| Number (n : Z).

(** The first row; [names] is [habits.map(h => h.name)]. *)
Definition header (names : list string) : list Field :=
  ([Text "Date"; Text "Total Habits Planned"; Text "Total Habits Completed";
    Text "Completion Rate (%)"]
   ++ map (fun n => Text (n ++ " - Planned")%string) names
   ++ map (fun n => Text (n ++ " - Completed")%string) names)%list.

(** The row of one day. *)
Definition dataRow (habits : list Habit)
    (completions : list HabitCompletion) (date : Date) : list Field :=
  let dateStr := format_yyyyMMdd date in
  let dateLabel := JSMath.format_MMMddyyyy date in
  let dayHabits :=
    List.filter (fun h => is_active h && shouldShowHabitOnDate h date)
      habits in
  let dayCompletions :=
    List.filter
      (fun c => String.eqb (completion_date c) dateStr
                && JS.some (fun h => String.eqb (id h) (habit_id c)) dayHabits)
      completions in
  let totalPlanned := Z.of_nat (length dayHabits) in
  let totalCompleted := Z.of_nat (length dayCompletions) in
  let completionRate :=
    if 0 <? totalPlanned
    then JSMath.round
           (inject_Z totalCompleted / inject_Z totalPlanned * inject_Z 100)
    else 0 in
  ([Text dateLabel; Number totalPlanned; Number totalCompleted;
    Number completionRate]
   ++ map (fun habit =>
             Number (if shouldShowHabitOnDate habit date then 1 else 0))
        habits
   ++ map (fun habit =>
             Number (if JS.some (fun c => String.eqb (habit_id c) (id habit))
                          dayCompletions
                     then 1 else 0))
        habits)%list.

(** [csvData]: the header and the rows of the last 90 days, oldest
    first ([for (let i = 89; i >= 0; i--)]). *)
Definition csvData (names : list string) (habits : list Habit)
    (completions : list HabitCompletion) (endDate : Date)
  : list (list Field) :=
  header names
  :: map (fun i => dataRow habits completions (subDays endDate i))
       (rev (seqZ 0 90)).

End ExportAnalytics.

(** ** Notions used in the statements on this code *)

(** Number of passes of the loop over the days from [startDate] to
    [endDate], and the dates it visits. *)
Definition windowDays (startDate endDate : Date) : Z :=
  if startDate <=? endDate then (endDate - startDate) / msPerDay + 1 else 0.

Definition windowDates (startDate endDate : Date) : list Date :=
  map (fun i => addDays startDate i) (seqZ 0 (windowDays startDate endDate)).

(** Number of days among the first [k] of the walk, from [today] back,
    on which the habit is due. *)
Definition dueDays (h : Habit) (today : Date) (k : nat) : Z :=
  Z.of_nat
    (length
       (List.filter (fun j => shouldShowHabitOnDate h (subDays today j))
          (seqZ 0 (Z.of_nat k)))).

(** Sum of two pairs of counters. *)
Definition addStats (a b : Stats) : Stats :=
  {| completed := completed a + completed b;
     planned := planned a + planned b |}.

(** At most one completion for a habit and a date. *)
Definition oneCompletionPerDay (completions : list HabitCompletion) : Prop :=
  NoDup (map (fun c => (habit_id c, completion_date c)) completions).

(** What one habit adds to the counters on one day. *)
Definition dayDelta (completions : list HabitCompletion) (date : Date)
    (h : Habit) : Stats :=
  countHabit completions date (format_yyyyMMdd date) zeroStats h.

Definition sumStats (l : list Stats) : Stats :=
  fold_right addStats zeroStats l.

(** The number the period buttons of the ranking stand for. *)
Definition periodDays (period : MostAbandoned.Period) : Z :=
  match period with
  | MostAbandoned.P7 => 7
  | MostAbandoned.P30 => 30
  | MostAbandoned.P90 => 90
  | MostAbandoned.PCustom => 0
  end.

(** The day boxes of the form hold a list without repetition of names
    taken from [DAYS_OF_WEEK]. *)
Definition wellFormedDays (customDays : list string) : Prop :=
  NoDup customDays /\ Forall (fun d => In d HabitForm.DAYS_OF_WEEK) customDays.

(** * Properties *)

(** ** Schedule evaluator *)

Section Schedule.

Variables (h : Habit) (date : Date).

Lemma daily_always_due :
  frequency_type h = "daily"%string -> shouldShowHabitOnDate h date = true.
Proof. unfold shouldShowHabitOnDate. intros ->. reflexivity. Qed.

Lemma custom_due_iff :
  frequency_type h = "custom"%string ->
  shouldShowHabitOnDate h date =
    match custom_days h with
    | Some days => JS.includes (toLowerCase (format_EEEE date)) days
    | None => false
    end.
Proof. unfold shouldShowHabitOnDate. intros ->. reflexivity. Qed.

Lemma alternate_due_eq :
  frequency_type h = "alternate"%string ->
  shouldShowHabitOnDate h date =
    (0 <=? (date - created_at h) / msPerDay)
    && (JS.rem ((date - created_at h) / msPerDay) 2 =? 0).
Proof. unfold shouldShowHabitOnDate. intros ->. reflexivity. Qed.

End Schedule.

Lemma rem2_even (n : Z) : (JS.rem n 2 =? 0) = Z.even n.
Proof.
  unfold JS.rem. apply eq_true_iff_eq.
  rewrite Z.eqb_eq, Z.even_spec, Z.rem_divide by lia.
  split; intros [k Hk]; exists k; lia.
Qed.

(** C7.  A habit whose frequency is none of the three known values, or
    is [custom] with no day list or an empty one, is due on no date, in
    every copy of the schedule function; the functions are total, there
    is no input on which they fail. *)
Theorem degenerate_habit_never_due (h : Habit) (date : Date) :
  (frequency_type h <> "daily"%string
   /\ frequency_type h <> "alternate"%string
   /\ frequency_type h <> "custom"%string)
  \/ (frequency_type h = "custom"%string
      /\ (custom_days h = None \/ custom_days h = Some [])) ->
  shouldShowHabitOnDate h date = false
  /\ HabitCard.shouldHaveHabitOnDate date h = false.
Proof.
  unfold shouldShowHabitOnDate, HabitCard.shouldHaveHabitOnDate.
  intros [(Hd & Ha & Hc) | (Hc & Hdays)].
  - apply String.eqb_neq in Hd, Ha, Hc. rewrite Hd, Ha, Hc. split; reflexivity.
  - rewrite Hc. simpl. destruct Hdays as [-> | ->]; split; reflexivity.
Qed.

Lemma degenerate_habit_never_due_witness :
  shouldShowHabitOnDate Sample.unknownKind Sample.monday = false
  /\ HabitCard.shouldHaveHabitOnDate Sample.monday Sample.unknownKind = false.
Proof.
  apply degenerate_habit_never_due. left. simpl.
  repeat split; discriminate.
Defined.




(** The copy in [HabitCard.tsx] has no sign test: two whole days before
    the creation instant it answers "due", where every other copy answers
    "not due". *)
Example habitCard_due_before_creation :
  HabitCard.shouldHaveHabitOnDate
    (created_at Sample.everyOtherDay - 2 * msPerDay) Sample.everyOtherDay
  = true
  /\ shouldShowHabitOnDate Sample.everyOtherDay
       (created_at Sample.everyOtherDay - 2 * msPerDay) = false.
Proof. vm_compute. split; reflexivity. Qed.

(** ** Dates: sample values *)

Example format_ymd_ex1 :
  format_yyyyMMdd (19737 * msPerDay + 5) = "2024-01-15"%string.
Proof. vm_compute. reflexivity. Qed.

Example format_EEEE_ex1 :
  format_EEEE (19737 * msPerDay + 5) = "Monday"%string.
Proof. vm_compute. reflexivity. Qed.

Example Date_parse_ex1 : Date_parse "2024-01-15" = Some (19737 * msPerDay).
Proof. vm_compute. reflexivity. Qed.

Example forEachDay_ex :
  forEachDay (3 * msPerDay) (fun d acc => acc + 1) 5 0 = 3.
Proof. vm_compute. reflexivity. Qed.

(** ** The sort and [some] *)

Section SortFacts.

Context {A : Type} (cmp : A -> A -> comparison).

Lemma sort_insert_perm (x : A) (l : list A) :
  Permutation (JS.sort_insert cmp x l) (x :: l).
Proof.
  induction l as [| y l IH]; simpl; [reflexivity |].
  destruct (cmp x y); try reflexivity.
  rewrite IH. apply perm_swap.
Qed.

Lemma sort_perm (l : list A) : Permutation (JS.sort cmp l) l.
Proof.
  induction l as [| x l IH]; simpl; [reflexivity |].
  rewrite sort_insert_perm. constructor. exact IH.
Qed.

Lemma some_perm (p : A -> bool) (l l' : list A) :
  Permutation l l' -> JS.some p l = JS.some p l'.
Proof.
  unfold JS.some.
  induction 1 as [| x l l' _ IH | x y l | l l' l'' _ IH1 _ IH2]; simpl.
  - reflexivity.
  - rewrite IH. reflexivity.
  - destruct (p x), (p y); reflexivity.
  - congruence.
Qed.

Lemma some_sort (p : A -> bool) (l : list A) :
  JS.some p (JS.sort cmp l) = JS.some p l.
Proof. apply some_perm, sort_perm. Qed.

Lemma sort_nil_iff (l : list A) : JS.sort cmp l = [] <-> l = [].
Proof.
  split; [| intros ->; reflexivity].
  intros H. apply Permutation_nil. rewrite <- H. apply sort_perm.
Qed.

End SortFacts.

(** ** Streak calculator *)

Section StreakLoop.

Variables (cap : Z) (h : Habit).

(** The loop looks at the completions only through [some], and only on
    dates where the habit is due. *)
Lemma streakLoop_ext (hc1 hc2 : list HabitCompletion) :
  (forall d, shouldShowHabitOnDate h d = true ->
             doneOn hc1 (format_yyyyMMdd d) = doneOn hc2 (format_yyyyMMdd d)) ->
  forall fuel checkDate streak,
    streakLoop cap fuel h hc1 checkDate streak
    = streakLoop cap fuel h hc2 checkDate streak.
Proof.
  intros Hext fuel.
  induction fuel as [| fuel IH]; intros checkDate streak; simpl;
    [reflexivity |].
  destruct (shouldShowHabitOnDate h checkDate) eqn:Hdue.
  - fold (doneOn hc1 (format_yyyyMMdd checkDate)).
    fold (doneOn hc2 (format_yyyyMMdd checkDate)).
    rewrite (Hext _ Hdue).
    destruct (doneOn hc2 (format_yyyyMMdd checkDate)); [| reflexivity].
    destruct (cap <? streak + 1); [reflexivity | apply IH].
  - destruct (cap <? streak); [reflexivity | apply IH].
Qed.

(** If every day on which the habit is due, from [today] back, has a
    completion, and these days all lie within the last [k <= cap] days,
    neither exit of the loop is ever taken. *)
Lemma streakLoop_unbounded (hc : list HabitCompletion) (today : Date) (k : Z) :
  k <= cap ->
  (forall j, 0 <= j -> shouldShowHabitOnDate h (subDays today j) = true ->
     j < k /\ doneOn hc (format_yyyyMMdd (subDays today j)) = true) ->
  forall fuel j streak,
    0 <= j -> streak <= Z.min j k ->
    streakLoop cap fuel h hc (subDays today j) streak = None.
Proof.
  intros Hk Hdue fuel.
  induction fuel as [| fuel IH]; intros j streak Hj Hstreak;
    cbn [streakLoop]; [reflexivity |].
  replace (subDays (subDays today j) 1) with (subDays today (j + 1))
    by (unfold subDays, msPerDay; lia).
  destruct (shouldShowHabitOnDate h (subDays today j)) eqn:Hd.
  - destruct (Hdue j Hj Hd) as [Hjk Hdone].
    unfold doneOn in Hdone. rewrite Hdone.
    destruct (cap <? streak + 1) eqn:Hlt; [apply Z.ltb_lt in Hlt; lia |].
    apply IH; lia.
  - destruct (cap <? streak) eqn:Hlt; [apply Z.ltb_lt in Hlt; lia |].
    apply IH; lia.
Qed.

(** Skipping [k] days on which the habit is not due. *)
Lemma streakLoop_skip (hc : list HabitCompletion) (k : nat) :
  forall fuel checkDate streak,
    streak <= cap ->
    (forall j, 0 <= j < Z.of_nat k ->
               shouldShowHabitOnDate h (subDays checkDate j) = false) ->
    streakLoop cap (k + fuel) h hc checkDate streak
    = streakLoop cap fuel h hc (subDays checkDate (Z.of_nat k)) streak.
Proof.
  induction k as [| k IH]; intros fuel checkDate streak Hcap Hskip.
  - simpl. unfold subDays. f_equal. lia.
  - change (S k + fuel)%nat with (S (k + fuel)). simpl.
    assert (H0 : shouldShowHabitOnDate h checkDate = false).
    { specialize (Hskip 0 ltac:(lia)). unfold subDays in Hskip.
      rewrite Z.mul_0_l, Z.sub_0_r in Hskip. exact Hskip. }
    rewrite H0.
    destruct (cap <? streak) eqn:Hlt; [apply Z.ltb_lt in Hlt; lia |].
    rewrite IH; [| assumption |].
    + f_equal. unfold subDays. lia.
    + intros j Hj. specialize (Hskip (j + 1) ltac:(lia)).
      unfold subDays in *. rewrite <- Hskip. f_equal. lia.
Qed.

End StreakLoop.

Section Streak.

Variables (cap : Z) (h : Habit).

Lemma streak_cap_eq (fuel : nat) (cs : list HabitCompletion) (today : Date) :
  calculateCurrentStreak_cap cap fuel h cs today
  = match ofHabit h cs with
    | [] => Some 0
    | _ :: _ => streakLoop cap fuel h (ofHabit h cs) today 0
    end.
Proof.
  unfold calculateCurrentStreak_cap. fold (ofHabit h cs).
  destruct (ofHabit h cs) as [| c hc] eqn:E; [reflexivity |].
  destruct (JS.sort byDateDesc (c :: hc)) as [| c' hc'] eqn:Es.
  { apply sort_nil_iff in Es. discriminate. }
  cbn [length Nat.eqb]. rewrite <- Es.
  apply streakLoop_ext. intros d _. unfold doneOn. apply some_sort.
Qed.

(** No completion of this habit at all: the answer is 0, at once. *)
Lemma streak_zero_without_completions (fuel : nat)
    (cs : list HabitCompletion) (today : Date) :
  ofHabit h cs = [] -> calculateCurrentStreak_cap cap fuel h cs today = Some 0.
Proof. intros E. rewrite streak_cap_eq, E. reflexivity. Qed.

(** The latest day on which the habit is due, [k] days back, has no
    completion: the answer is 0 as soon as the fuel covers [k + 1]
    days. *)
Lemma streak_zero_when_latest_due_day_missed (fuel k : nat)
    (cs : list HabitCompletion) (today : Date) :
  0 <= cap ->
  (forall j, 0 <= j < Z.of_nat k ->
             shouldShowHabitOnDate h (subDays today j) = false) ->
  shouldShowHabitOnDate h (subDays today (Z.of_nat k)) = true ->
  doneOn (ofHabit h cs) (format_yyyyMMdd (subDays today (Z.of_nat k))) = false ->
  (k < fuel)%nat ->
  calculateCurrentStreak_cap cap fuel h cs today = Some 0.
Proof.
  intros Hcap Hskip Hdue Hmiss Hfuel. rewrite streak_cap_eq.
  destruct (ofHabit h cs) as [| c hc] eqn:E; [reflexivity |].
  replace fuel with (k + S (fuel - S k))%nat by lia.
  rewrite streakLoop_skip by assumption.
  cbn [streakLoop]. rewrite Hdue. unfold doneOn in Hmiss. rewrite Hmiss.
  reflexivity.
Qed.

(** A completion dated on a day on which the habit is not due changes
    nothing, as long as the habit has some other completion. *)
Lemma streak_ignores_completion_off_schedule (fuel : nat)
    (c : HabitCompletion) (cs : list HabitCompletion) (today : Date) :
  (forall d, format_yyyyMMdd d = completion_date c ->
             shouldShowHabitOnDate h d = false) ->
  ofHabit h cs <> [] ->
  calculateCurrentStreak_cap cap fuel h (c :: cs) today
  = calculateCurrentStreak_cap cap fuel h cs today.
Proof.
  intros Hoff Hne. rewrite !streak_cap_eq.
  destruct (ofHabit h cs) as [| c0 hc] eqn:E; [congruence |].
  unfold ofHabit in *. simpl. rewrite E.
  destruct (String.eqb (habit_id c) (id h)); [| reflexivity].
  apply streakLoop_ext. intros d Hdue. unfold doneOn, JS.some.
  cbn [existsb].
  destruct (String.eqb (completion_date c) (format_yyyyMMdd d)) eqn:Heq;
    [| reflexivity].
  apply String.eqb_eq in Heq. symmetry in Heq.
  rewrite (Hoff d Heq) in Hdue. discriminate.
Qed.

(** With a completion on every one of the last [cap + 1] days, all of
    them due, the walk visits [cap + 1] days and answers [cap + 1]:
    the bound is on the streak, and it is passed by one. *)
Lemma streakLoop_runs_one_past_cap (hc : list HabitCompletion) :
  forall (n fuel : nat) (checkDate : Date) (streak : Z),
    (0 < n <= fuel)%nat ->
    streak + Z.of_nat n = cap + 1 ->
    (forall j, 0 <= j < Z.of_nat n ->
       shouldShowHabitOnDate h (subDays checkDate j) = true
       /\ doneOn hc (format_yyyyMMdd (subDays checkDate j)) = true) ->
    streakLoop cap fuel h hc checkDate streak = Some (cap + 1).
Proof.
  induction n as [| n IH]; intros fuel checkDate streak Hn Hsum Hall;
    [lia |].
  destruct fuel as [| fuel]; [lia |]. cbn [streakLoop].
  destruct (Hall 0 ltac:(lia)) as [Hdue Hdone].
  unfold subDays in Hdue, Hdone. rewrite Z.mul_0_l, Z.sub_0_r in Hdue, Hdone.
  unfold doneOn in Hdone. rewrite Hdue, Hdone.
  destruct (cap <? streak + 1) eqn:Hlt.
  - apply Z.ltb_lt in Hlt. f_equal. lia.
  - apply Z.ltb_ge in Hlt. apply IH; [lia | lia |].
    intros j Hj. specialize (Hall (j + 1) ltac:(lia)).
    unfold subDays in *.
    replace (checkDate - 1 * msPerDay - j * msPerDay)
      with (checkDate - (j + 1) * msPerDay) by ring.
    exact Hall.
Qed.

(** The same for the whole function. *)
Lemma streak_cap_unbounded (fuel : nat) (cs : list HabitCompletion)
    (today : Date) (k : Z) :
  ofHabit h cs <> [] ->
  0 <= k <= cap ->
  (forall j, 0 <= j -> shouldShowHabitOnDate h (subDays today j) = true ->
     j < k
     /\ doneOn (ofHabit h cs) (format_yyyyMMdd (subDays today j)) = true) ->
  calculateCurrentStreak_cap cap fuel h cs today = None.
Proof.
  intros Hne Hk Hdue. rewrite streak_cap_eq.
  destruct (ofHabit h cs) as [| c hc] eqn:E; [congruence |].
  assert (Hstart : subDays today 0 = today) by (unfold subDays; lia).
  rewrite <- Hstart at 1.
  apply (streakLoop_unbounded _ h (c :: hc) today k);
    [lia | assumption | lia | lia].
Qed.

End Streak.

(** C1, at the failing inputs.  Take a habit with a completion on record
    whose due days, from today back, all have a completion and all lie
    within the last [k <= 100] days: a habit that is never due ([k = 0]),
    or an [alternate] habit, never due before its creation, kept up since
    it was created.  The walk of [calculateCurrentStreak] does not end:
    whatever the fuel, no value comes back.  The test [streak > 365] (or
    [> 100]) bounds the streak; the days walked are not counted. *)
Theorem streak_walk_unbounded (fuel : nat) (h : Habit)
    (cs : list HabitCompletion) (today : Date) (k : Z) :
  ofHabit h cs <> [] ->
  0 <= k <= 100 ->
  (forall j, 0 <= j -> shouldShowHabitOnDate h (subDays today j) = true ->
     j < k
     /\ doneOn (ofHabit h cs) (format_yyyyMMdd (subDays today j)) = true) ->
  Dashboard.calculateCurrentStreak fuel h cs today = None
  /\ SharedPage.calculateCurrentStreak fuel h cs today = None.
Proof.
  intros Hne Hk Hdue.
  unfold Dashboard.calculateCurrentStreak, SharedPage.calculateCurrentStreak.
  split; apply (streak_cap_unbounded _ h fuel cs today k);
    (assumption || lia).
Qed.

(** An [alternate] habit is not due before it was created. *)
Lemma alternate_not_due_before (h : Habit) (date : Date) :
  frequency_type h = "alternate"%string -> date < created_at h ->
  shouldShowHabitOnDate h date = false.
Proof.
  intros Hf Hlt. rewrite alternate_due_eq by assumption.
  assert ((date - created_at h) / msPerDay < 0)
    by (apply Z.div_lt_upper_bound; unfold msPerDay; lia).
  apply andb_false_iff. left. apply Z.leb_gt. assumption.
Qed.

(** The habit was created on Monday at 14:30 and completed that day; the
    dashboard is opened at 15:00. *)
Lemma streak_walk_unbounded_witness :
  Dashboard.calculateCurrentStreak 1000 Sample.everyOtherDay
    [Sample.done Sample.everyOtherDay "2024-01-15"]
    (Sample.monday + 54000000) = None
  /\ SharedPage.calculateCurrentStreak 1000 Sample.everyOtherDay
       [Sample.done Sample.everyOtherDay "2024-01-15"]
       (Sample.monday + 54000000) = None.
Proof.
  apply (streak_walk_unbounded 1000 Sample.everyOtherDay
           [Sample.done Sample.everyOtherDay "2024-01-15"]
           (Sample.monday + 54000000) 1).
  - simpl. discriminate.
  - lia.
  - intros j Hj Hdue.
    assert (Hj0 : j < 1).
    { destruct (Z.lt_ge_cases j 1) as [Hlt | Hge]; [exact Hlt |].
      rewrite alternate_not_due_before in Hdue; [discriminate | reflexivity |].
      unfold subDays, Sample.everyOtherDay, Sample.monday, msPerDay. simpl.
      lia. }
    split; [exact Hj0 |].
    replace j with 0 by lia. vm_compute. reflexivity.
Defined.

(** The same for the never-due habit. *)
Example streak_walk_unbounded_never_due (fuel : nat) (today : Date) :
  Dashboard.calculateCurrentStreak fuel Sample.noDays
    [Sample.done Sample.noDays "2024-01-15"] today = None.
Proof.
  apply (streak_cap_unbounded 365 Sample.noDays fuel
           [Sample.done Sample.noDays "2024-01-15"] today 0).
  - simpl. discriminate.
  - lia.
  - intros j _ Hdue. discriminate.
Qed.

(** The worked example of the specification: an [alternate] habit
    created on day 0 (Monday, 14:30), completed on days 0, 2 and 4 and
    not on day 6.  On day 6 the streak is 0.  On day 5 the walk passes
    days 4, 2 and 0 and then goes on below the creation day, where the
    habit is never due: no value comes back. *)
Example alternate_example_day6 :
  Dashboard.calculateCurrentStreak 10 Sample.everyOtherDay
    (map (Sample.done Sample.everyOtherDay)
       ["2024-01-15"; "2024-01-17"; "2024-01-19"]%string)
    (Sample.monday + 6 * msPerDay + 54000000) = Some 0.
Proof. vm_compute. reflexivity. Qed.

Example alternate_example_day5 (fuel : nat) :
  Dashboard.calculateCurrentStreak fuel Sample.everyOtherDay
    (map (Sample.done Sample.everyOtherDay)
       ["2024-01-15"; "2024-01-17"; "2024-01-19"]%string)
    (Sample.monday + 5 * msPerDay + 54000000) = None.
Proof.
  apply (streak_cap_unbounded 365 Sample.everyOtherDay fuel _ _ 6).
  - simpl. discriminate.
  - lia.
  - intros j Hj Hdue.
    assert (Hj6 : j < 6).
    { destruct (Z.lt_ge_cases j 6) as [Hlt | Hge]; [exact Hlt |].
      rewrite alternate_not_due_before in Hdue; [discriminate | reflexivity |].
      unfold subDays, Sample.everyOtherDay, Sample.monday, msPerDay. simpl.
      lia. }
    split; [exact Hj6 |].
    assert (Hcases : j = 0 \/ j = 1 \/ j = 2 \/ j = 3 \/ j = 4 \/ j = 5) by lia.
    destruct Hcases as [-> | [-> | [-> | [-> | [-> | ->]]]]];
      vm_compute in Hdue |- *; (reflexivity || discriminate).
Qed.

(** A habit due every day and completed on each of the last 366 days:
    the dashboard walks 366 days and reports 366. *)
Lemma dashboard_streak_reaches_366 (fuel : nat) (h : Habit)
    (cs : list HabitCompletion) (today : Date) :
  (366 <= fuel)%nat ->
  (forall j, 0 <= j < 366 ->
     shouldShowHabitOnDate h (subDays today j) = true
     /\ doneOn (ofHabit h cs) (format_yyyyMMdd (subDays today j)) = true) ->
  Dashboard.calculateCurrentStreak fuel h cs today = Some 366.
Proof.
  intros Hfuel Hall. unfold Dashboard.calculateCurrentStreak.
  rewrite streak_cap_eq.
  destruct (ofHabit h cs) as [| c hc] eqn:E.
  { destruct (Hall 0 ltac:(lia)) as [_ Hd]. discriminate. }
  apply (streakLoop_runs_one_past_cap 365 h (c :: hc) 366); [lia | lia |].
  exact Hall.
Qed.

(** ** The streak of the habit card *)

(** C3, at the failing input.  The habit is due on Mondays only.  On
    Tuesday 2024-01-16 at 09:00, with Monday not completed, the card
    reports a streak of 0; a completion recorded for that Tuesday, a day
    on which the habit is not due, turns the answer into 1.  The card
    counts a completion before it looks at the schedule. *)
Theorem habitCard_counts_completion_off_schedule :
  let today := Sample.monday + msPerDay + 32400000 in
  let before := [Sample.done Sample.mondays "2023-12-04"] in
  let extra := Sample.done Sample.mondays "2024-01-16" in
  format_yyyyMMdd today = completion_date extra
  /\ HabitCard.shouldHaveHabitOnDate today Sample.mondays = false
  /\ HabitCard.calculateStreak 10 before Sample.mondays today = Some 0
  /\ HabitCard.calculateStreak 10 (extra :: before) Sample.mondays today
     = Some 1.
Proof. vm_compute. repeat split; reflexivity. Qed.

(** The dashboard on the same input: the extra completion changes
    nothing. *)
Example dashboard_ignores_completion_off_schedule :
  let today := Sample.monday + msPerDay + 32400000 in
  let before := [Sample.done Sample.mondays "2023-12-04"] in
  let extra := Sample.done Sample.mondays "2024-01-16" in
  Dashboard.calculateCurrentStreak 10 Sample.mondays before today = Some 0
  /\ Dashboard.calculateCurrentStreak 10 Sample.mondays (extra :: before) today
     = Some 0.
Proof. vm_compute. split; reflexivity. Qed.

(** C6, at the failing input.  On Tuesday 2024-01-16 the latest day on
    which the Mondays-only habit was due is Monday 2024-01-15, and no
    completion is dated that day; the card still reports a streak of 1,
    because of the completion dated Tuesday. *)
Theorem habitCard_streak_positive_though_latest_due_day_missed :
  let today := Sample.monday + msPerDay + 32400000 in
  let cs := [Sample.done Sample.mondays "2024-01-16";
             Sample.done Sample.mondays "2023-12-04"] in
  HabitCard.shouldHaveHabitOnDate today Sample.mondays = false
  /\ HabitCard.shouldHaveHabitOnDate (subDays today 1) Sample.mondays = true
  /\ doneOn cs (format_yyyyMMdd (subDays today 1)) = false
  /\ HabitCard.calculateStreak 10 cs Sample.mondays today = Some 1.
Proof. vm_compute. repeat split; reflexivity. Qed.

(** No completions: every copy answers 0. *)
Lemma habitCard_streak_zero_without_completions (fuel : nat) (h : Habit)
    (today : Date) :
  HabitCard.calculateStreak fuel [] h today = Some 0.
Proof. reflexivity. Qed.

(** The worked examples of the specification, on the dashboard. *)
Example daily_five_day_streak :
  let today := Sample.monday + 32400000 in
  let cs := map (Sample.done Sample.everyDay)
              ["2024-01-15"; "2024-01-14"; "2024-01-13"; "2024-01-12";
               "2024-01-11"]%string in
  Dashboard.calculateCurrentStreak 20 Sample.everyDay cs today = Some 5.
Proof. vm_compute. reflexivity. Qed.

(** ** Window aggregator *)

Section Loops.

Context {S : Type}.

(** A property kept by the body is kept by the loop over the days. *)
Lemma forEachDay_invariant (P : S -> Prop) (endDate : Date)
    (body : Date -> S -> S) :
  (forall d s, P s -> P (body d s)) ->
  forall currentDate acc, P acc -> P (forEachDay endDate body currentDate acc).
Proof.
  intros Hbody currentDate acc.
  funelim (forEachDay endDate body currentDate acc); intros Hacc.
  - match goal with IH : forall P : S -> Prop, _ |- _ =>
      apply IH; [exact Hbody | apply Hbody, Hacc] end.
  - exact Hacc.
Qed.

(** An inverted window runs the body zero times. *)
Lemma forEachDay_empty (endDate : Date) (body : Date -> S -> S)
    (startDate : Date) (acc : S) :
  endDate < startDate -> forEachDay endDate body startDate acc = acc.
Proof.
  intros Hlt. funelim (forEachDay endDate body startDate acc);
    [lia | reflexivity].
Qed.

Lemma fold_left_invariant {B : Type} (P : S -> Prop) (f : S -> B -> S) :
  (forall s b, P s -> P (f s b)) ->
  forall l acc, P acc -> P (fold_left f l acc).
Proof.
  intros Hf l. induction l as [| b l IH]; intros acc Hacc; simpl;
    [exact Hacc | apply IH, Hf, Hacc].
Qed.

Lemma fold_left_id {B : Type} (f : S -> B -> S) :
  (forall s b, f s b = s) -> forall l acc, fold_left f l acc = acc.
Proof.
  intros Hf l. induction l as [| b l IH]; intros acc; simpl;
    [reflexivity | rewrite Hf; apply IH].
Qed.

End Loops.

(** Percentages of a part in a whole. *)
Lemma percent_bounds (part whole : Z) :
  0 <= part <= whole -> 0 < whole ->
  (0 <= inject_Z part / inject_Z whole * inject_Z 100
   /\ inject_Z part / inject_Z whole * inject_Z 100 <= 100)%Q.
Proof.
  intros Hpart Hwhole.
  destruct whole as [| w | w]; try lia.
  unfold Qle, Qdiv, Qmult, Qinv, inject_Z. simpl. split; nia.
Qed.

Lemma percent_positive_iff (part whole : Z) :
  0 < whole ->
  (0 < inject_Z part / inject_Z whole * inject_Z 100)%Q <-> 0 < part.
Proof.
  intros Hwhole. destruct whole as [| w | w]; try lia.
  unfold Qlt, Qdiv, Qmult, Qinv, inject_Z. simpl. split; nia.
Qed.

Section Aggregates.

Variable completions : list HabitCompletion.

Lemma countHabit_bounded (date : Date) (dateStr : string) (acc : Stats)
    (habit : Habit) :
  boundedStats acc -> boundedStats (countHabit completions date dateStr acc habit).
Proof.
  unfold boundedStats, countHabit. intros Hacc.
  destruct (shouldShowHabitOnDate habit date); [| exact Hacc].
  destruct (JS.some _ completions); simpl; lia.
Qed.

Lemma countHabits_bounded (date : Date) (dateStr : string)
    (habits : list Habit) (acc : Stats) :
  boundedStats acc ->
  boundedStats (fold_left (countHabit completions date dateStr) habits acc).
Proof.
  apply fold_left_invariant. intros s b. apply countHabit_bounded.
Qed.

Lemma getWeekStats_bounded (weekStart weekEnd : Date) (habits : list Habit) :
  boundedStats (AnalyticsChart.getWeekStats weekStart weekEnd habits completions).
Proof.
  unfold AnalyticsChart.getWeekStats. apply forEachDay_invariant.
  - intros d s. apply countHabits_bounded.
  - unfold boundedStats. simpl. lia.
Qed.

Lemma getWeekStatsForHabit_bounded (weekStart weekEnd : Date) (habit : Habit) :
  boundedStats
    (AnalyticsChart.getWeekStatsForHabit weekStart weekEnd habit completions).
Proof.
  unfold AnalyticsChart.getWeekStatsForHabit. apply forEachDay_invariant.
  - intros d s. apply countHabit_bounded.
  - unfold boundedStats. simpl. lia.
Qed.

Lemma getCompletionStats_bounded (habits : list Habit) (days : Z)
    (endDate : Date) :
  boundedStats (Dashboard.getCompletionStats habits completions days endDate).
Proof.
  unfold Dashboard.getCompletionStats. apply fold_left_invariant.
  - intros s i. apply countHabits_bounded.
  - unfold boundedStats. simpl. lia.
Qed.

Lemma countDay_bounded (habit : Habit) (currentDate : Date) (acc : Z * Z) :
  0 <= snd acc <= fst acc ->
  0 <= snd (MostAbandoned.countDay habit completions currentDate acc)
    <= fst (MostAbandoned.countDay habit completions currentDate acc).
Proof.
  destruct acc as [p c]. unfold MostAbandoned.countDay. simpl. intros Hacc.
  destruct (shouldShowHabitOnDate habit currentDate); [| simpl; lia].
  destruct (JS.some _ completions); simpl; lia.
Qed.

Lemma countDays_bounded (startDate endDate : Date) (habit : Habit) :
  0 <= snd (MostAbandoned.countDays startDate endDate habit completions)
    <= fst (MostAbandoned.countDays startDate endDate habit completions).
Proof.
  unfold MostAbandoned.countDays.
  apply (forEachDay_invariant (fun acc : Z * Z => 0 <= snd acc <= fst acc)).
  - intros d s. apply countDay_bounded.
  - simpl. lia.
Qed.

Lemma completionRate_bounds (st : Stats) :
  boundedStats st -> (0 <= completionRate st /\ completionRate st <= 100)%Q.
Proof.
  unfold boundedStats, completionRate. intros Hst.
  destruct (0 <? planned st) eqn:Hp.
  - apply Z.ltb_lt in Hp. apply percent_bounds; assumption.
  - split; discriminate.
Qed.

End Aggregates.

(** ** The sort: order and stability *)

Section SortOrder.

Context {A : Type} (cmp : A -> A -> comparison) (R : A -> A -> Prop).

Hypothesis cmp_Gt : forall x y, cmp x y = Gt -> R y x.
Hypothesis cmp_not_Gt : forall x y, cmp x y <> Gt -> R x y.
Hypothesis R_trans : forall x y z, R x y -> R y z -> R x z.

Lemma sort_insert_sorted (x : A) (l : list A) :
  StronglySorted R l -> StronglySorted R (JS.sort_insert cmp x l).
Proof.
  induction 1 as [| y l Hl IH Hy]; simpl.
  - repeat constructor.
  - assert (Hkeep : cmp x y <> Gt -> StronglySorted R (x :: y :: l)).
    { intros Hc. constructor; [constructor; assumption |].
      constructor; [apply cmp_not_Gt, Hc |].
      eapply Forall_impl; [exact Hy |].
      intros z Hz. apply (R_trans x y z); [apply cmp_not_Gt, Hc | exact Hz]. }
    destruct (cmp x y) eqn:Hc; try (apply Hkeep; discriminate).
    constructor; [exact IH |].
    rewrite (sort_insert_perm cmp x l).
    constructor; [apply cmp_Gt, Hc | exact Hy].
Qed.

Lemma sort_sorted (l : list A) : StronglySorted R (JS.sort cmp l).
Proof.
  induction l as [| x l IH]; simpl; [constructor |].
  apply sort_insert_sorted, IH.
Qed.

End SortOrder.

Section SortStable.

Context {A : Type} (cmp : A -> A -> comparison) (p : A -> bool).

(** No two elements picked by [p] are put apart by the comparator. *)
Hypothesis p_class : forall x y, p x = true -> p y = true -> cmp x y <> Gt.

Lemma sort_insert_filter (x : A) (l : list A) :
  List.filter p (JS.sort_insert cmp x l) = List.filter p (x :: l).
Proof.
  induction l as [| y l IH]; [reflexivity |].
  cbn [JS.sort_insert]. destruct (cmp x y) eqn:Hc; try reflexivity.
  cbn [List.filter] in *. rewrite IH.
  destruct (p x) eqn:Hx, (p y) eqn:Hy; try reflexivity.
  exfalso. exact (p_class x y Hx Hy Hc).
Qed.

(** The elements picked by [p] keep the order they had. *)
Lemma sort_stable (l : list A) :
  List.filter p (JS.sort cmp l) = List.filter p l.
Proof.
  induction l as [| x l IH]; [reflexivity |].
  cbn [JS.sort]. rewrite sort_insert_filter. cbn [List.filter].
  rewrite IH. reflexivity.
Qed.

End SortStable.

(** ** Adherence ranker *)

Import MostAbandoned.

Lemma Qcompare_sub_0 (a b : Q) : (b - a ?= 0)%Q = (b ?= a)%Q.
Proof.
  unfold Qcompare, Qminus, Qplus, Qopp. simpl.
  rewrite Z.mul_1_r, Z.mul_opp_l, Z.add_opp_r.
  symmetry. apply Z.compare_sub.
Qed.

Lemma byFailure_Gt (a b : AbandonedHabit) :
  byFailure a b = Gt -> ranksNoLower b a.
Proof.
  unfold byFailure, ranksNoLower.
  destruct (Qeq_bool (failureRate a) (failureRate b)) eqn:Heq; simpl.
  - apply Qeq_bool_iff in Heq. intros Hc. apply Z.compare_gt_iff in Hc.
    right. split; [symmetry; exact Heq | lia].
  - rewrite Qcompare_sub_0. intros Hc. left. apply Qgt_alt in Hc. exact Hc.
Qed.

Lemma byFailure_not_Gt (a b : AbandonedHabit) :
  byFailure a b <> Gt -> ranksNoLower a b.
Proof.
  unfold byFailure, ranksNoLower.
  destruct (Qeq_bool (failureRate a) (failureRate b)) eqn:Heq; simpl.
  - apply Qeq_bool_iff in Heq. intros Hc. right. split; [exact Heq |].
    destruct (Z.compare_spec (missedDays b - missedDays a) 0); try lia.
    congruence.
  - rewrite Qcompare_sub_0. intros Hc. left.
    destruct (Qcompare_spec (failureRate b) (failureRate a)) as [He | Hl | Hg].
    + apply Qeq_bool_neq in Heq. exfalso. apply Heq. symmetry. exact He.
    + exact Hl.
    + congruence.
Qed.

Lemma ranksNoLower_trans (a b c : AbandonedHabit) :
  ranksNoLower a b -> ranksNoLower b c -> ranksNoLower a c.
Proof.
  unfold ranksNoLower. intros [Hab | [Hab Mab]] [Hbc | [Hbc Mbc]].
  - left. eapply Qlt_trans; eassumption.
  - left. rewrite <- Hbc. exact Hab.
  - left. rewrite Hab. exact Hbc.
  - right. split; [rewrite Hab; exact Hbc | lia].
Qed.

Lemma tied_not_Gt (a x y : AbandonedHabit) :
  tied a x = true -> tied a y = true -> byFailure x y <> Gt.
Proof.
  unfold tied, byFailure. intros Hx Hy.
  apply andb_true_iff in Hx as [Hx Mx], Hy as [Hy My].
  apply Qeq_bool_iff in Hx, Hy. apply Z.eqb_eq in Mx, My.
  assert (Hxy : Qeq_bool (failureRate x) (failureRate y) = true).
  { apply Qeq_bool_iff. rewrite <- Hx, <- Hy. reflexivity. }
  rewrite Hxy. simpl. rewrite <- Mx, <- My, Z.sub_diag. discriminate.
Qed.

Section Rows.

Variables (startDate endDate : Date) (completions : list HabitCompletion).

(** What [pushStats] appends for one habit. *)
Lemma pushStats_app (acc : list AbandonedHabit) (h : Habit) :
  pushStats startDate endDate completions acc h
  = (acc ++ pushStats startDate endDate completions [] h)%list.
Proof.
  unfold pushStats.
  destruct (countDays startDate endDate h completions) as [p c].
  destruct (0 <? p); [reflexivity | symmetry; apply app_nil_r].
Qed.

Lemma fold_pushStats (l : list Habit) (acc : list AbandonedHabit) :
  fold_left (pushStats startDate endDate completions) l acc
  = (acc ++ flat_map (pushStats startDate endDate completions []) l)%list.
Proof.
  revert acc. induction l as [| h l IH]; intros acc; simpl.
  - symmetry. apply app_nil_r.
  - rewrite IH, pushStats_app, <- app_assoc. reflexivity.
Qed.

Lemma pushStats_row (h : Habit) (r : AbandonedHabit) :
  In r (pushStats startDate endDate completions [] h) ->
  habit r = h /\ rowFacts startDate endDate completions r.
Proof.
  unfold pushStats, rowFacts.
  pose proof (countDays_bounded completions startDate endDate h) as Hb.
  destruct (countDays startDate endDate h completions) as [p c] eqn:E.
  simpl in Hb.
  destruct (0 <? p) eqn:Hp; simpl; [| tauto].
  apply Z.ltb_lt in Hp. intros [<- | []]. simpl. rewrite E. simpl.
  repeat split; lia.
Qed.

Lemma pushStats_planned (h : Habit) :
  0 < fst (countDays startDate endDate h completions) ->
  exists r, pushStats startDate endDate completions [] h = [r]
            /\ habit r = h.
Proof.
  unfold pushStats.
  destruct (countDays startDate endDate h completions) as [p c].
  simpl. intros Hp. apply Z.ltb_lt in Hp. rewrite Hp.
  eexists. split; reflexivity.
Qed.

Lemma habitStatsOf_rows (habits : list Habit) (r : AbandonedHabit) :
  In r (habitStatsOf startDate endDate habits completions) <->
  exists h, In h habits /\ is_active h = true
            /\ In r (pushStats startDate endDate completions [] h).
Proof.
  unfold habitStatsOf. rewrite fold_pushStats. simpl.
  rewrite in_flat_map. split.
  - intros (h & Hin & Hr). apply filter_In in Hin as [Hin Hact]. eauto.
  - intros (h & Hin & Hact & Hr). exists h. split; [| exact Hr].
    apply filter_In. auto.
Qed.

Lemma hasFailures_iff (r : AbandonedHabit) :
  rowFacts startDate endDate completions r ->
  hasFailures r = true <-> 0 < missedDays r.
Proof.
  intros (_ & _ & Hrate & Hp & _). unfold hasFailures.
  rewrite <- (percent_positive_iff (missedDays r) (plannedDays r) Hp).
  rewrite <- Hrate.
  destruct (Qcompare_spec 0 (failureRate r)) as [He | Hl | Hg].
  - split; [discriminate |]. intros H. rewrite <- He in H.
    exfalso. exact (Qlt_irrefl _ H).
  - tauto.
  - split; [discriminate |]. intros H.
    exfalso. exact (Qlt_irrefl _ (Qlt_trans _ _ _ H Hg)).
Qed.

End Rows.

Section Ranking.

Variables (startDate endDate : Date) (habits : list Habit)
  (completions : list HabitCompletion).

Let rows := habitStatsOf startDate endDate habits completions.
Let ranked := rankWindow startDate endDate habits completions.

Lemma ranked_eq : ranked = JS.sort byFailure (List.filter hasFailures rows).
Proof. reflexivity. Qed.

Lemma ranked_perm : Permutation ranked (List.filter hasFailures rows).
Proof. rewrite ranked_eq. apply sort_perm. Qed.

Lemma rows_facts (r : AbandonedHabit) :
  In r rows ->
  In (habit r) habits /\ is_active (habit r) = true
  /\ rowFacts startDate endDate completions r.
Proof.
  intros Hr. apply habitStatsOf_rows in Hr as (h & Hin & Hact & Hr).
  apply pushStats_row in Hr as [<- Hfacts]. auto.
Qed.

(** The habits of the rows are the active habits that were due at least
    once, in the order of the input. *)
Lemma rows_order :
  map habit rows
  = List.filter
      (fun h => 0 <? fst (countDays startDate endDate h completions))
      (List.filter is_active habits).
Proof.
  subst rows. unfold habitStatsOf. rewrite fold_pushStats. simpl.
  induction (List.filter is_active habits) as [| h l IH]; [reflexivity |].
  cbn [flat_map List.filter]. rewrite map_app, IH. unfold pushStats at 1.
  destruct (countDays startDate endDate h completions) as [p c].
  simpl. destruct (0 <? p); reflexivity.
Qed.

Lemma ranked_In (r : AbandonedHabit) :
  In r ranked <-> In r rows /\ 0 < missedDays r.
Proof.
  pose proof ranked_perm as Hperm. split.
  - intros Hr. apply (Permutation_in _ Hperm) in Hr.
    apply filter_In in Hr as [Hr Hf]. split; [exact Hr |].
    apply rows_facts in Hr as (_ & _ & Hfacts).
    apply (hasFailures_iff _ _ _ _ Hfacts). exact Hf.
  - intros [Hr Hm]. apply (Permutation_in _ (Permutation_sym Hperm)).
    apply filter_In. split; [exact Hr |].
    apply rows_facts in Hr as (_ & _ & Hfacts).
    apply (hasFailures_iff _ _ _ _ Hfacts). exact Hm.
Qed.

Lemma ranked_facts (r : AbandonedHabit) :
  In r ranked ->
  In (habit r) habits /\ is_active (habit r) = true
  /\ rowFacts startDate endDate completions r /\ 0 < missedDays r.
Proof.
  intros Hr. apply ranked_In in Hr as [Hr Hm].
  apply rows_facts in Hr as (Hh & Hact & Hfacts). auto.
Qed.

End Ranking.

(** [calculateAbandonedHabits] is [rankWindow] on the window its period
    selects. *)
Lemma calculateAbandonedHabits_eq (period : Period)
    (customStartDate customEndDate : option Date) (now : Date)
    (habits : list Habit) (completions : list HabitCompletion)
    (ranked : list AbandonedHabit) :
  calculateAbandonedHabits period customStartDate customEndDate now habits
    completions = Some ranked ->
  exists startDate endDate,
    window period customStartDate customEndDate now
    = Some (startDate, endDate)
    /\ ranked = rankWindow startDate endDate habits completions.
Proof.
  unfold calculateAbandonedHabits.
  destruct (window period customStartDate customEndDate now)
    as [[startDate endDate] |]; [| discriminate].
  intros [= <-]. eauto.
Qed.

(** C4.  The ranking lists exactly the active habits that were due at
    least once in the window and missed at least once (so no habit with
    [planned = 0] and none with [failureRate = 0]); it is in descending
    order of failure rate, rows of equal rate in descending order of
    missed days; rows equal in both keep the order of the habit list.
    The failure rate is taken as the exact quotient. *)
Theorem rankWindow_ranked (startDate endDate : Date) (habits : list Habit)
    (completions : list HabitCompletion) :
  let rows := habitStatsOf startDate endDate habits completions in
  let ranked := rankWindow startDate endDate habits completions in
  (forall r, In r ranked ->
     In (habit r) habits /\ is_active (habit r) = true
     /\ rowFacts startDate endDate completions r
     /\ 0 < plannedDays r /\ 0 < missedDays r /\ (0 < failureRate r)%Q)
  /\ (forall r, In r ranked <-> In r rows /\ 0 < missedDays r)
  /\ map habit rows
     = List.filter
         (fun h => 0 <? fst (countDays startDate endDate h completions))
         (List.filter is_active habits)
  /\ StronglySorted ranksNoLower ranked
  /\ (forall a, List.filter (tied a) ranked
                = List.filter (tied a) (List.filter hasFailures rows)).
Proof.
  intros rows ranked.
  split; [| split; [apply ranked_In | split; [apply rows_order | split]]].
  - intros r Hr. apply ranked_facts in Hr as (Hh & Hact & Hfacts & Hm).
    pose proof Hfacts as (_ & _ & Hrate & Hp & _).
    repeat split; try assumption; try apply Hfacts.
    rewrite Hrate. apply percent_positive_iff; assumption.
  - apply sort_sorted.
    + apply byFailure_Gt.
    + apply byFailure_not_Gt.
    + apply ranksNoLower_trans.
  - intros a. apply sort_stable. apply tied_not_Gt.
Qed.

(** Two habits missed on every due day, one due twice and one due once,
    then one missed every other time: equal rates are ordered by missed
    days. *)
Example rankWindow_example :
  map (fun r => (id (habit r), missedDays r, plannedDays r))
    (rankWindow Sample.monday (Sample.monday + 7 * msPerDay)
       [Sample.mondays; Sample.everyDay; Sample.noDays]
       [Sample.done Sample.everyDay "2024-01-15";
        Sample.done Sample.everyDay "2024-01-16"])
  = [("h1"%string, 2, 2); ("h2"%string, 6, 8)].
Proof. vm_compute. reflexivity. Qed.

(** ** Empty windows and empty habit lists *)

Lemma forEachDay_id {S : Type} (endDate : Date) (body : Date -> S -> S)
    (startDate : Date) (acc : S) :
  (forall d s, body d s = s) -> forEachDay endDate body startDate acc = acc.
Proof.
  intros Hid.
  apply (forEachDay_invariant (fun s => s = acc)); [| reflexivity].
  intros d s ->. apply Hid.
Qed.

Lemma countDays_empty (startDate endDate : Date) (h : Habit)
    (completions : list HabitCompletion) :
  endDate < startDate -> countDays startDate endDate h completions = (0, 0).
Proof. intros Hlt. unfold countDays. apply forEachDay_empty, Hlt. Qed.

Lemma rankWindow_empty (startDate endDate : Date) (habits : list Habit)
    (completions : list HabitCompletion) :
  habits = [] \/ endDate < startDate ->
  rankWindow startDate endDate habits completions = [].
Proof.
  intros [-> | Hlt]; [reflexivity |].
  unfold rankWindow. rewrite fold_left_id; [reflexivity |].
  intros acc h. unfold pushStats. rewrite countDays_empty by exact Hlt.
  reflexivity.
Qed.

(** C5.  With no habits, or with a window that ends before it starts
    (for [getCompletionStats], whose window is a number of days: with
    [days <= 0]), the aggregates are [planned = 0, completed = 0], the
    ranking is empty, and the completion rate derived from [planned = 0]
    is 0. *)
Theorem empty_aggregate_is_zero (habits : list Habit)
    (completions : list HabitCompletion) (startDate endDate : Date)
    (days : Z) (now : Date) :
  habits = [] \/ (endDate < startDate /\ days <= 0) ->
  AnalyticsChart.getWeekStats startDate endDate habits completions = zeroStats
  /\ Dashboard.getCompletionStats habits completions days now = zeroStats
  /\ rankWindow startDate endDate habits completions = []
  /\ (forall h, endDate < startDate ->
        AnalyticsChart.getWeekStatsForHabit startDate endDate h completions
        = zeroStats
        /\ countDays startDate endDate h completions = (0, 0))
  /\ (forall st, planned st = 0 -> completionRate st = 0%Q)
  /\ completionRate zeroStats = 0%Q.
Proof.
  intros Hempty. repeat split.
  - unfold AnalyticsChart.getWeekStats.
    destruct Hempty as [-> | [Hlt _]].
    + apply forEachDay_id. reflexivity.
    + apply forEachDay_empty, Hlt.
  - unfold Dashboard.getCompletionStats.
    destruct Hempty as [-> | [_ Hdays]].
    + apply fold_left_id. reflexivity.
    + rewrite seqZ_nil by exact Hdays. reflexivity.
  - apply rankWindow_empty. tauto.
  - unfold AnalyticsChart.getWeekStatsForHabit. apply forEachDay_empty. assumption.
  - apply countDays_empty. assumption.
  - intros st Hp. unfold completionRate. rewrite Hp. reflexivity.
Qed.

Lemma empty_aggregate_is_zero_witness :
  AnalyticsChart.getWeekStats (Sample.monday + 7 * msPerDay) Sample.monday
    [Sample.everyDay] [] = zeroStats
  /\ Dashboard.getCompletionStats [Sample.everyDay] [] 0 Sample.monday
     = zeroStats
  /\ rankWindow (Sample.monday + 7 * msPerDay) Sample.monday
       [Sample.everyDay] [] = []
  /\ (forall h, Sample.monday < Sample.monday + 7 * msPerDay ->
        AnalyticsChart.getWeekStatsForHabit (Sample.monday + 7 * msPerDay)
          Sample.monday h [] = zeroStats
        /\ countDays (Sample.monday + 7 * msPerDay) Sample.monday h []
           = (0, 0))
  /\ (forall st, planned st = 0 -> completionRate st = 0%Q)
  /\ completionRate zeroStats = 0%Q.
Proof.
  apply (empty_aggregate_is_zero [Sample.everyDay] []
           (Sample.monday + 7 * msPerDay) Sample.monday 0 Sample.monday).
  right. unfold Sample.monday, msPerDay. lia.
Defined.

(** ** Bounds of the aggregates *)

(** C10.  Every aggregate has [0 <= completed <= planned]; so the missed
    count is not negative and the rates derived from the counts are
    between 0 and 100. *)
Theorem aggregates_bounded (habits : list Habit)
    (completions : list HabitCompletion) (startDate endDate : Date)
    (days : Z) (now : Date) (h : Habit) :
  let week := AnalyticsChart.getWeekStats startDate endDate habits completions in
  let weekOf :=
    AnalyticsChart.getWeekStatsForHabit startDate endDate h completions in
  let recent := Dashboard.getCompletionStats habits completions days now in
  let counts := countDays startDate endDate h completions in
  (boundedStats week /\ boundedStats weekOf /\ boundedStats recent
   /\ 0 <= snd counts <= fst counts /\ 0 <= fst counts - snd counts)
  /\ (0 <= completionRate week /\ completionRate week <= 100)%Q
  /\ (0 <= completionRate weekOf /\ completionRate weekOf <= 100)%Q
  /\ (0 <= completionRate recent /\ completionRate recent <= 100)%Q
  /\ (forall r, In r (rankWindow startDate endDate habits completions) ->
        0 <= missedDays r <= plannedDays r
        /\ (0 <= failureRate r /\ failureRate r <= 100)%Q).
Proof.
  intros week weekOf recent counts.
  pose proof (getWeekStats_bounded completions startDate endDate habits) as Hw.
  pose proof (getWeekStatsForHabit_bounded completions startDate endDate h) as Hh.
  pose proof (getCompletionStats_bounded completions habits days now) as Hr.
  pose proof (countDays_bounded completions startDate endDate h) as Hc.
  fold week in Hw. fold weekOf in Hh. fold recent in Hr. fold counts in Hc.
  split; [repeat split; (apply Hw || apply Hh || apply Hr || lia) |].
  split; [apply completionRate_bounds, Hw |].
  split; [apply completionRate_bounds, Hh |].
  split; [apply completionRate_bounds, Hr |].
  intros r Hin.
  apply ranked_facts in Hin as (_ & _ & Hfacts & _).
  destruct Hfacts as (_ & _ & Hrate & Hp & Hm).
  split; [exact Hm |]. rewrite Hrate. apply percent_bounds; assumption.
Qed.

(** ** Period bucketizer: the day view *)

Import AnalyticsChart.

Section DayView.

Variables (selectedHabits : gset string)
  (completions : list HabitCompletion) (date : Date).

Let dateStr := format_yyyyMMdd date.

Lemma setHabitPoint_eq (m : gmap string JSValue) (h : Habit) :
  setHabitPoint selectedHabits completions date dateStr m h
  = if plotted selectedHabits date h then <[ id h := habitValue completions date h ]> m else m.
Proof. reflexivity. Qed.

Lemma setHabitPoints_other (l : list Habit) (m : gmap string JSValue)
    (k : string) :
  ~ In k (map id l) ->
  fold_left (setHabitPoint selectedHabits completions date dateStr) l m !! k
  = m !! k.
Proof.
  revert m. induction l as [| h l IH]; intros m Hk; [reflexivity |].
  cbn [fold_left]. rewrite IH by (intros Hin; apply Hk; right; exact Hin).
  rewrite setHabitPoint_eq. destruct (plotted selectedHabits date h); [| reflexivity].
  apply lookup_insert_ne. intros Heq. apply Hk. left. exact Heq.
Qed.

Lemma setHabitPoints_lookup (l : list Habit) (m : gmap string JSValue)
    (h : Habit) :
  NoDup (map id l) -> In h l ->
  fold_left (setHabitPoint selectedHabits completions date dateStr) l m
    !! id h
  = if plotted selectedHabits date h then Some (habitValue completions date h) else m !! id h.
Proof.
  revert m. induction l as [| h0 l IH]; intros m Hnd Hin; [destruct Hin |].
  cbn [map] in Hnd. apply NoDup_cons in Hnd as [Hfresh Hnd].
  cbn [fold_left]. destruct Hin as [-> | Hin].
  - rewrite setHabitPoints_other
      by (intros Hin; apply Hfresh, list_elem_of_In, Hin).
    rewrite setHabitPoint_eq. destruct (plotted selectedHabits date h); [| reflexivity].
    apply lookup_insert_eq.
  - rewrite IH by assumption. destruct (plotted selectedHabits date h); [reflexivity |].
    rewrite setHabitPoint_eq. destruct (plotted selectedHabits date h0); [| reflexivity].
    apply lookup_insert_ne. intros Heq. apply Hfresh.
    apply list_elem_of_In. rewrite Heq. apply in_map, Hin.
Qed.

End DayView.

Lemma push_each {A B : Type} (f : A -> B) (l : list A) (acc : list B) :
  fold_left (fun data i => (data ++ [f i])%list) l acc = (acc ++ map f l)%list.
Proof.
  revert acc. induction l as [| a l IH]; intros acc; simpl.
  - symmetry. apply app_nil_r.
  - rewrite IH, <- app_assoc. reflexivity.
Qed.

(** The day view has one point per day of the range, oldest first. *)
Lemma chartData_day_lookup (viewMode : ViewMode)
    (selectedHabits : gset string) (dateRange : Z) (endDate : Date)
    (habits : list Habit) (completions : list HabitCompletion) (i : nat) :
  Z.of_nat i <= dateRange ->
  chartData_day viewMode selectedHabits dateRange endDate habits completions
    !! i
  = Some (dayPoint viewMode selectedHabits (List.filter is_active habits)
            completions (subDays endDate (dateRange - Z.of_nat i))).
Proof.
  intros Hi. unfold chartData_day.
  rewrite (push_each
             (fun i => dayPoint viewMode selectedHabits
                         (List.filter is_active habits) completions
                         (subDays endDate (dateRange - i)))).
  cbn [app]. change (@map Z) with (@fmap list _ Z). rewrite list_lookup_fmap.
  rewrite lookup_seqZ_lt by lia. reflexivity.
Qed.

(** The two fixed fields of a point hold strings. *)
Lemma dayPoint_base_not_number (dateStr dateLabel k : string) (q : Q) :
  (<[ "dateLabel"%string := JSStr dateLabel ]>
     (<[ "date"%string := JSStr dateStr ]> (∅ : gmap string JSValue))) !! k
  <> Some (JSNum q).
Proof.
  rewrite !lookup_insert. repeat case_decide; rewrite ?lookup_empty;
    discriminate.
Qed.

(** C8.  In the day view, per-habit mode, the point of a day carries a
    number under a habit's id exactly when the habit is due that day (and
    is one of the selected habits); the number is 100 when a completion
    of that habit is dated that day and 0 when none is.  On a day the
    habit is not due the point has no entry under its id.  Habit ids are
    distinct, and the statement about absent entries is for ids other
    than the two fixed field names of a point. *)
Theorem perHabit_point_only_when_due (selectedHabits : gset string)
    (dateRange : Z) (endDate : Date) (habits : list Habit)
    (completions : list HabitCompletion) (h : Habit) (i : nat) :
  NoDup (map id (List.filter is_active habits)) ->
  In h habits -> is_active h = true ->
  Z.of_nat i <= dateRange ->
  let date := subDays endDate (dateRange - Z.of_nat i) in
  let done :=
    JS.some (fun c => String.eqb (habit_id c) (id h)
                      && String.eqb (completion_date c) (format_yyyyMMdd date))
      completions in
  exists point,
    chartData_day PerHabit selectedHabits dateRange endDate habits completions
      !! i = Some point
    /\ (forall q, point !! id h = Some (JSNum q) <->
          shouldShowHabitOnDate h date = true /\ id h ∈ selectedHabits
          /\ q = if done then inject_Z 100 else inject_Z 0)
    /\ (shouldShowHabitOnDate h date = false ->
        forall q, point !! id h <> Some (JSNum q))
    /\ (shouldShowHabitOnDate h date = false ->
        id h <> "date"%string -> id h <> "dateLabel"%string ->
        point !! id h = None).
Proof.
  intros Hnd Hin Hact Hi date done.
  eexists. split; [apply chartData_day_lookup, Hi |].
  fold date. unfold dayPoint.
  assert (Hh : In h (List.filter is_active habits)) by (apply filter_In; auto).
  rewrite (setHabitPoints_lookup selectedHabits completions date _ _ h Hnd Hh).
  unfold plotted, habitValue. fold done.
  assert (Hbase : forall q,
            (if bool_decide (id h ∈ selectedHabits)
                && shouldShowHabitOnDate h date
             then Some (JSNum (if done then inject_Z 100 else inject_Z 0))
             else (<[ "dateLabel"%string := JSStr (format_MMMdd date) ]>
                     (<[ "date"%string := JSStr (format_yyyyMMdd date) ]>
                        (∅ : gmap string JSValue))) !! id h)
            = Some (JSNum q) <->
            shouldShowHabitOnDate h date = true /\ id h ∈ selectedHabits
            /\ q = if done then inject_Z 100 else inject_Z 0).
  { intros q. destruct (shouldShowHabitOnDate h date);
      case_bool_decide as Hsel; cbn [andb].
    - split; [intros [= <-]; auto | intros (_ & _ & ->); reflexivity].
    - split; [| tauto].
      intros Hq. exfalso. exact (dayPoint_base_not_number _ _ _ _ Hq).
    - split; [| intros (Hd & _); discriminate].
      intros Hq. exfalso. exact (dayPoint_base_not_number _ _ _ _ Hq).
    - split; [| intros (Hd & _); discriminate].
      intros Hq. exfalso. exact (dayPoint_base_not_number _ _ _ _ Hq). }
  split; [exact Hbase | split].
  - intros Hdue q Hq. apply Hbase in Hq as (Hd & _). congruence.
  - intros Hdue Hd Hl. rewrite Hdue, andb_false_r.
    rewrite !lookup_insert_ne by congruence. apply lookup_empty.
Qed.

Lemma perHabit_point_only_when_due_witness :
  exists point,
    chartData_day PerHabit {["h1"%string; "h2"%string]} 7
      (Sample.monday + msPerDay) [Sample.mondays; Sample.everyDay]
      [Sample.done Sample.everyDay "2024-01-16"] !! 7%nat = Some point
    /\ point !! "h1"%string = None.
Proof.
  destruct (perHabit_point_only_when_due {["h1"%string; "h2"%string]} 7
              (Sample.monday + msPerDay) [Sample.mondays; Sample.everyDay]
              [Sample.done Sample.everyDay "2024-01-16"] Sample.mondays 7)
    as (point & Hpoint & _ & _ & Habsent).
  - simpl. apply NoDup_cons. split; [| apply NoDup_singleton].
    intros Hin. apply list_elem_of_singleton in Hin. discriminate.
  - simpl. auto.
  - reflexivity.
  - simpl. lia.
  - exists point. split; [exact Hpoint |].
    apply Habsent; [vm_compute; reflexivity | discriminate | discriminate].
Defined.

Example chartData_day_example :
  map (fun point => (point !! "date"%string, point !! "h1"%string,
                     point !! "h2"%string))
    (chartData_day PerHabit {["h1"%string; "h2"%string]} 1
       (Sample.monday + msPerDay) [Sample.mondays; Sample.everyDay]
       [Sample.done Sample.everyDay "2024-01-16"])
  = [(Some (JSStr "2024-01-15"), Some (JSNum 0), Some (JSNum 0));
     (Some (JSStr "2024-01-16"), None, Some (JSNum 100))].
Proof. vm_compute. reflexivity. Qed.

(** ** The components over the store *)

Import Store.

Section StoreSteps.

Implicit Types (σ F : gmap loc Cell) (l d : loc).

Lemma bind_run {A B : Type} (m : M A) (k : A -> M B) σ a σ' :
  m σ = Some (a, σ') -> (m ≫= k) σ = k a σ'.
Proof. intros H. unfold mbind, M_bind. rewrite H. reflexivity. Qed.

Lemma fresh_unused σ : σ !! fresh (dom σ) = None.
Proof. apply not_elem_of_dom, is_fresh. Qed.

Lemma alloc_run (c : Cell) σ :
  alloc c σ = Some (fresh (dom σ), <[ fresh (dom σ) := c ]> σ).
Proof. reflexivity. Qed.

Lemma alloc_extends (c : Cell) σ : σ ⊆ <[ fresh (dom σ) := c ]> σ.
Proof. apply insert_subseteq, fresh_unused. Qed.

Lemma readHabits_run σ l hs :
  σ !! l = Some (Habits hs) -> readHabits l σ = Some (hs, σ).
Proof. intros H. unfold readHabits. rewrite H. reflexivity. Qed.

Lemma readCompletions_run σ l cs :
  σ !! l = Some (Completions cs) -> readCompletions l σ = Some (cs, σ).
Proof. intros H. unfold readCompletions. rewrite H. reflexivity. Qed.

Lemma readRows_run σ l rs :
  σ !! l = Some (Rows rs) -> readRows l σ = Some (rs, σ).
Proof. intros H. unfold readRows. rewrite H. reflexivity. Qed.

Lemma readPoints_run σ l ps :
  σ !! l = Some (Points ps) -> readPoints l σ = Some (ps, σ).
Proof. intros H. unfold readPoints. rewrite H. reflexivity. Qed.

Lemma sortCompletions_run cmp σ l cs :
  σ !! l = Some (Completions cs) ->
  sortCompletions cmp l σ = Some (tt, <[ l := Completions (JS.sort cmp cs) ]> σ).
Proof.
  intros H. unfold sortCompletions.
  rewrite (bind_run _ _ _ _ _ (readCompletions_run _ _ _ H)). reflexivity.
Qed.

Lemma sortRows_run cmp σ l rs :
  σ !! l = Some (Rows rs) ->
  sortRows cmp l σ = Some (tt, <[ l := Rows (JS.sort cmp rs) ]> σ).
Proof.
  intros H. unfold sortRows.
  rewrite (bind_run _ _ _ _ _ (readRows_run _ _ _ H)). reflexivity.
Qed.

Lemma pushRow_run σ l rs r :
  σ !! l = Some (Rows rs) ->
  pushRow l r σ = Some (tt, <[ l := Rows (rs ++ [r]) ]> σ).
Proof.
  intros H. unfold pushRow.
  rewrite (bind_run _ _ _ _ _ (readRows_run _ _ _ H)). reflexivity.
Qed.

Lemma pushPoint_run σ l ps p :
  σ !! l = Some (Points ps) ->
  pushPoint l p σ = Some (tt, <[ l := Points (ps ++ [p]) ]> σ).
Proof.
  intros H. unfold pushPoint.
  rewrite (bind_run _ _ _ _ _ (readPoints_run _ _ _ H)). reflexivity.
Qed.

Lemma reversePoints_run σ l ps :
  σ !! l = Some (Points ps) ->
  reversePoints l σ = Some (tt, <[ l := Points (rev ps) ]> σ).
Proof.
  intros H. unfold reversePoints.
  rewrite (bind_run _ _ _ _ _ (readPoints_run _ _ _ H)). reflexivity.
Qed.

(** A loop whose body keeps the arrays of [F] and replaces the array at
    [d], which is not one of them, by [step] of it. *)
Lemma forEach_accumulates {A X : Type} (mk : list X -> Cell) d
    (step : list X -> A -> list X) (body : A -> M unit) F :
  (forall a acc σ, F ⊆ σ -> σ !! d = Some (mk acc) ->
     exists σ', body a σ = Some (tt, σ') /\ F ⊆ σ'
                /\ σ' !! d = Some (mk (step acc a))) ->
  forall (l : list A) acc σ, F ⊆ σ -> σ !! d = Some (mk acc) ->
    exists σ', forEach l body σ = Some (tt, σ') /\ F ⊆ σ'
               /\ σ' !! d = Some (mk (fold_left step l acc)).
Proof.
  intros Hbody l. induction l as [| a l IH]; intros acc σ HF Hd.
  - exists σ. auto.
  - destruct (Hbody a acc σ HF Hd) as (σ1 & Hrun & HF1 & Hd1).
    destruct (IH _ _ HF1 Hd1) as (σ2 & Hrun2 & HF2 & Hd2).
    exists σ2. split; [| auto].
    cbn [forEach]. rewrite (bind_run _ _ _ _ _ Hrun). exact Hrun2.
Qed.

End StoreSteps.

Section StoreRuns.

Variables (habits completions : loc) (hs : list Habit)
  (cs : list HabitCompletion).

Implicit Types σ : gmap loc Cell.

Abbreviation holds := (holdsSnapshot habits completions hs cs).

Lemma holds_extends σ σ' : holds σ -> σ ⊆ σ' -> holds σ'.
Proof.
  intros [Hh Hc] Hsub. split; eapply lookup_weaken; eassumption.
Qed.

Lemma calculateCurrentStreak_run cap fuel h today σ :
  holds σ ->
  exists σ',
    Store.calculateCurrentStreak cap fuel h completions today σ
    = Some (calculateCurrentStreak_cap cap fuel h cs today, σ')
    /\ σ ⊆ σ'.
Proof.
  intros [_ Hc]. unfold Store.calculateCurrentStreak.
  rewrite (bind_run _ _ _ _ _ (readCompletions_run _ _ _ Hc)).
  rewrite (bind_run _ _ _ _ _ (alloc_run _ _)).
  set (d := fresh (dom σ)).
  set (own := List.filter (fun c => String.eqb (habit_id c) (id h)) cs).
  rewrite (bind_run _ _ _ _ _
             (sortCompletions_run byDateDesc _ d own (lookup_insert_eq _ _ _))).
  rewrite insert_insert_eq.
  rewrite (bind_run _ _ _ _ _
             (readCompletions_run _ d _ (lookup_insert_eq _ _ _))).
  eexists. split; [reflexivity |]. apply alloc_extends.
Qed.

Lemma getWeekStats_run weekStart weekEnd σ :
  holds σ ->
  Store.getWeekStats weekStart weekEnd habits completions σ
  = Some (AnalyticsChart.getWeekStats weekStart weekEnd hs cs, σ).
Proof.
  intros [Hh Hc]. unfold Store.getWeekStats.
  rewrite (bind_run _ _ _ _ _ (readHabits_run _ _ _ Hh)).
  rewrite (bind_run _ _ _ _ _ (readCompletions_run _ _ _ Hc)).
  reflexivity.
Qed.

Lemma getCompletionStats_run days now σ :
  holds σ ->
  Store.getCompletionStats habits completions days now σ
  = Some (Dashboard.getCompletionStats hs cs days now, σ).
Proof.
  intros [Hh Hc]. unfold Store.getCompletionStats.
  rewrite (bind_run _ _ _ _ _ (readHabits_run _ _ _ Hh)).
  rewrite (bind_run _ _ _ _ _ (readCompletions_run _ _ _ Hc)).
  reflexivity.
Qed.

Lemma rankWindow_run startDate endDate σ :
  holds σ ->
  exists σ',
    Store.rankWindow startDate endDate habits completions σ
    = Some (MostAbandoned.rankWindow startDate endDate hs cs, σ')
    /\ σ ⊆ σ'.
Proof.
  intros Hσ. pose proof Hσ as [Hh Hc]. unfold Store.rankWindow.
  rewrite (bind_run _ _ _ _ _ (readHabits_run _ _ _ Hh)).
  rewrite (bind_run _ _ _ _ _ (alloc_run _ _)).
  set (a := fresh (dom σ)).
  set (σ1 := <[ a := Habits (List.filter is_active hs) ]> σ).
  assert (H01 : σ ⊆ σ1) by apply alloc_extends.
  rewrite (bind_run _ _ _ _ _ (alloc_run _ _)).
  set (d := fresh (dom σ1)). set (σ2 := <[ d := Rows [] ]> σ1).
  assert (Hd1 : σ1 !! d = None) by apply fresh_unused.
  assert (H12 : σ1 ⊆ σ2) by apply alloc_extends.
  assert (Ha2 : σ2 !! a = Some (Habits (List.filter is_active hs))).
  { eapply lookup_weaken; [apply lookup_insert_eq | exact H12]. }
  rewrite (bind_run _ _ _ _ _ (readHabits_run _ _ _ Ha2)).
  match goal with |- context [forEach ?items ?body] =>
    destruct (forEach_accumulates Rows d (pushStats startDate endDate cs)
                body σ1) with (l := items) (acc := @nil AbandonedHabit)
                              (σ := σ2)
      as (σ3 & Hloop & H13 & Hd3);
      [| exact H12 | apply lookup_insert_eq | ]
  end.
  { intros h acc σ' HF Hd.
    assert (Hc' : σ' !! completions = Some (Completions cs)).
    { eapply lookup_weaken; [exact Hc | etrans; eassumption]. }
    rewrite (bind_run _ _ _ _ _ (readCompletions_run _ _ _ Hc')).
    unfold pushStats.
    destruct (countDays startDate endDate h cs) as [p c].
    destruct (0 <? p).
    - rewrite (pushRow_run _ _ _ _ Hd). eexists. split; [reflexivity |].
      split; [apply insert_subseteq_r; assumption | apply lookup_insert_eq].
    - exists σ'. auto. }
  rewrite (bind_run _ _ _ _ _ Hloop).
  rewrite (bind_run _ _ _ _ _ (readRows_run _ _ _ Hd3)).
  rewrite (bind_run _ _ _ _ _ (alloc_run _ _)).
  set (f := fresh (dom σ3)).
  rewrite (bind_run _ _ _ _ _
             (sortRows_run byFailure _ f _ (lookup_insert_eq _ _ _))).
  rewrite insert_insert_eq.
  rewrite (readRows_run _ f _ (lookup_insert_eq _ _ _)).
  eexists. split; [reflexivity |].
  etrans; [exact H01 |]. etrans; [exact H13 |]. apply alloc_extends.
Qed.

(** The loop that pushes one point per index. *)
Lemma pushPoints_run {A : Type}
    (point : A -> gmap string AnalyticsChart.JSValue) (body : A -> M unit)
    (d : loc) (F : gmap loc Cell) :
  F !! d = None ->
  (forall a σ ps, F ⊆ σ -> σ !! d = Some (Points ps) ->
     body a σ = pushPoint d (point a) σ) ->
  forall (l : list A) σ, F ⊆ σ -> σ !! d = Some (Points []) ->
    exists σ', forEach l body σ = Some (tt, σ') /\ F ⊆ σ'
               /\ σ' !! d = Some (Points (map point l)).
Proof.
  intros Hd Hbody l σ HF Hσ.
  destruct (forEach_accumulates Points d
              (fun data a => (data ++ [point a])%list) body F)
    with (l := l) (acc := @nil (gmap string AnalyticsChart.JSValue)) (σ := σ)
    as (σ' & Hrun & HF' & Hd'); try assumption.
  - intros a acc σ0 HF0 Hd0. rewrite (Hbody a σ0 acc HF0 Hd0).
    rewrite (pushPoint_run _ _ _ _ Hd0). eexists. split; [reflexivity |].
    split; [apply insert_subseteq_r; assumption | apply lookup_insert_eq].
  - exists σ'. rewrite push_each in Hd'. auto.
Qed.

Lemma chartData_day_run viewMode selectedHabits dateRange now σ :
  holds σ ->
  exists σ',
    Store.chartData_day viewMode selectedHabits dateRange now habits
      completions σ
    = Some (AnalyticsChart.chartData_day viewMode selectedHabits dateRange now
              hs cs, σ')
    /\ σ ⊆ σ'.
Proof.
  intros Hσ. pose proof Hσ as [Hh Hc]. unfold Store.chartData_day.
  rewrite (bind_run _ _ _ _ _ (readHabits_run _ _ _ Hh)).
  rewrite (bind_run _ _ _ _ _ (alloc_run _ _)).
  set (a := fresh (dom σ)).
  set (σ1 := <[ a := Habits (List.filter is_active hs) ]> σ).
  assert (H01 : σ ⊆ σ1) by apply alloc_extends.
  rewrite (bind_run _ _ _ _ _ (alloc_run _ _)).
  set (d := fresh (dom σ1)). set (σ2 := <[ d := Points [] ]> σ1).
  assert (Hd1 : σ1 !! d = None) by apply fresh_unused.
  match goal with |- context [forEach ?items ?body] =>
    destruct (pushPoints_run
                (fun i => dayPoint viewMode selectedHabits
                            (List.filter is_active hs) cs
                            (subDays now (dateRange - i)))
                body d σ1 Hd1) with (l := items) (σ := σ2)
      as (σ3 & Hloop & H13 & Hd3);
      [| apply alloc_extends | apply lookup_insert_eq | ]
  end.
  { intros i σ0 ps HF _.
    assert (Ha0 : σ0 !! a = Some (Habits (List.filter is_active hs))).
    { eapply lookup_weaken; [apply lookup_insert_eq | exact HF]. }
    assert (Hc0 : σ0 !! completions = Some (Completions cs)).
    { eapply lookup_weaken; [exact Hc | etrans; eassumption]. }
    rewrite (bind_run _ _ _ _ _ (readHabits_run _ _ _ Ha0)).
    rewrite (bind_run _ _ _ _ _ (readCompletions_run _ _ _ Hc0)).
    reflexivity. }
  rewrite (bind_run _ _ _ _ _ Hloop).
  rewrite (readPoints_run _ _ _ Hd3).
  exists σ3. split; [| etrans; eassumption].
  unfold AnalyticsChart.chartData_day. rewrite push_each. reflexivity.
Qed.

Lemma chartData_week_run viewMode selectedHabits dateRange now σ :
  holds σ ->
  exists σ',
    Store.chartData_week viewMode selectedHabits dateRange now habits
      completions σ
    = Some (AnalyticsChart.chartData_week viewMode selectedHabits dateRange
              now hs cs, σ')
    /\ σ ⊆ σ'.
Proof.
  intros Hσ. pose proof Hσ as [Hh Hc]. unfold Store.chartData_week.
  rewrite (bind_run _ _ _ _ _ (readHabits_run _ _ _ Hh)).
  rewrite (bind_run _ _ _ _ _ (alloc_run _ _)).
  set (a := fresh (dom σ)).
  set (σ1 := <[ a := Habits (List.filter is_active hs) ]> σ).
  assert (H01 : σ ⊆ σ1) by apply alloc_extends.
  rewrite (bind_run _ _ _ _ _ (alloc_run _ _)).
  set (d := fresh (dom σ1)). set (σ2 := <[ d := Points [] ]> σ1).
  assert (Hd1 : σ1 !! d = None) by apply fresh_unused.
  match goal with |- context [forEach ?items ?body] =>
    destruct (pushPoints_run
                (fun i => weekPoint viewMode selectedHabits
                            (List.filter is_active hs) cs now i)
                body d σ1 Hd1) with (l := items) (σ := σ2)
      as (σ3 & Hloop & H13 & Hd3);
      [| apply alloc_extends | apply lookup_insert_eq | ]
  end.
  { intros i σ0 ps HF _.
    assert (Ha0 : σ0 !! a = Some (Habits (List.filter is_active hs))).
    { eapply lookup_weaken; [apply lookup_insert_eq | exact HF]. }
    assert (Hc0 : σ0 !! completions = Some (Completions cs)).
    { eapply lookup_weaken; [exact Hc | etrans; eassumption]. }
    rewrite (bind_run _ _ _ _ _ (readHabits_run _ _ _ Ha0)).
    rewrite (bind_run _ _ _ _ _ (readCompletions_run _ _ _ Hc0)).
    reflexivity. }
  rewrite (bind_run _ _ _ _ _ Hloop).
  rewrite (bind_run _ _ _ _ _ (reversePoints_run _ _ _ Hd3)).
  rewrite (readPoints_run _ d _ (lookup_insert_eq _ _ _)).
  eexists. split.
  - unfold AnalyticsChart.chartData_week. rewrite push_each. reflexivity.
  - etrans; [exact H01 |]. apply insert_subseteq_r; assumption.
Qed.

(** Every call answers what the functions on values give, and leaves the
    arrays it found as they were. *)
Lemma call_run (c : Call) σ :
  holds σ ->
  exists σ',
    call habits completions c σ = Some (answer hs cs c, σ') /\ σ ⊆ σ'.
Proof.
  intros Hσ. destruct c; cbn [call answer].
  - exists σ. split; reflexivity.
  - destruct (calculateCurrentStreak_run 365 fuel h today σ Hσ)
      as (σ' & Hrun & Hsub).
    exists σ'. rewrite (bind_run _ _ _ _ _ Hrun). auto.
  - exists σ. rewrite (bind_run _ _ _ _ _ (getWeekStats_run _ _ _ Hσ)). auto.
  - exists σ.
    rewrite (bind_run _ _ _ _ _ (getCompletionStats_run _ _ _ Hσ)). auto.
  - destruct (rankWindow_run startDate endDate σ Hσ) as (σ' & Hrun & Hsub).
    exists σ'. rewrite (bind_run _ _ _ _ _ Hrun). auto.
  - destruct (chartData_day_run viewMode selectedHabits dateRange now σ Hσ)
      as (σ' & Hrun & Hsub).
    exists σ'. rewrite (bind_run _ _ _ _ _ Hrun). auto.
  - destruct (chartData_week_run viewMode selectedHabits dateRange now σ Hσ)
      as (σ' & Hrun & Hsub).
    exists σ'. rewrite (bind_run _ _ _ _ _ Hrun). auto.
Qed.

Lemma calls_run (l : list Call) σ :
  holds σ ->
  exists σ',
    calls habits completions l σ = Some (map (answer hs cs) l, σ') /\ σ ⊆ σ'.
Proof.
  revert σ. induction l as [| c l IH]; intros σ Hσ; cbn [calls map].
  - exists σ. split; reflexivity.
  - destruct (call_run c σ Hσ) as (σ1 & Hrun1 & Hsub1).
    destruct (IH σ1 (holds_extends _ _ Hσ Hsub1)) as (σ2 & Hrun2 & Hsub2).
    exists σ2. rewrite (bind_run _ _ _ _ _ Hrun1).
    rewrite (bind_run _ _ _ _ _ Hrun2). split; [reflexivity |].
    etrans; eassumption.
Qed.

End StoreRuns.

(** C9.  The components are functions of their arguments, the current
    date among them: on a store that holds the snapshot, a call answers
    what the function on values gives, whatever calls were made before
    it, and answers the same when it is made again after any further
    calls; the arrays of the snapshot are the same afterwards.  The
    arrays that [sort], [push] and [reverse] change are the ones the call
    made itself. *)
Theorem components_deterministic (habits completions : loc)
    (hs : list Habit) (cs : list HabitCompletion) (σ : gmap loc Cell)
    (before between : list Call) (c : Call) :
  holdsSnapshot habits completions hs cs σ ->
  exists σ1 σ2 σ3 σ4,
    calls habits completions before σ
    = Some (map (answer hs cs) before, σ1)
    /\ call habits completions c σ1 = Some (answer hs cs c, σ2)
    /\ calls habits completions between σ2
       = Some (map (answer hs cs) between, σ3)
    /\ call habits completions c σ3 = Some (answer hs cs c, σ4)
    /\ holdsSnapshot habits completions hs cs σ4.
Proof.
  intros Hσ.
  destruct (calls_run habits completions hs cs before σ Hσ)
    as (σ1 & Hrun1 & Hsub1).
  pose proof (holds_extends _ _ _ _ _ _ Hσ Hsub1) as Hσ1.
  destruct (call_run habits completions hs cs c σ1 Hσ1)
    as (σ2 & Hrun2 & Hsub2).
  pose proof (holds_extends _ _ _ _ _ _ Hσ1 Hsub2) as Hσ2.
  destruct (calls_run habits completions hs cs between σ2 Hσ2)
    as (σ3 & Hrun3 & Hsub3).
  pose proof (holds_extends _ _ _ _ _ _ Hσ2 Hsub3) as Hσ3.
  destruct (call_run habits completions hs cs c σ3 Hσ3)
    as (σ4 & Hrun4 & Hsub4).
  pose proof (holds_extends _ _ _ _ _ _ Hσ3 Hsub4) as Hσ4.
  exists σ1, σ2, σ3, σ4. auto.
Qed.

Lemma components_deterministic_witness :
  exists σ1 σ2 σ3 σ4,
    calls 0%nat 1%nat [Rank Sample.monday (Sample.monday + 7 * msPerDay)]
      Sample.store
    = Some (map (answer Sample.habits Sample.completions)
              [Rank Sample.monday (Sample.monday + 7 * msPerDay)], σ1)
    /\ call 0%nat 1%nat (Streak 20 Sample.everyDay Sample.monday) σ1
       = Some (answer Sample.habits Sample.completions
                 (Streak 20 Sample.everyDay Sample.monday), σ2)
    /\ calls 0%nat 1%nat [ChartWeek PerHabit ∅ 7 Sample.monday] σ2
       = Some (map (answer Sample.habits Sample.completions)
                 [ChartWeek PerHabit ∅ 7 Sample.monday], σ3)
    /\ call 0%nat 1%nat (Streak 20 Sample.everyDay Sample.monday) σ3
       = Some (answer Sample.habits Sample.completions
                 (Streak 20 Sample.everyDay Sample.monday), σ4)
    /\ holdsSnapshot 0%nat 1%nat Sample.habits Sample.completions σ4.
Proof.
  apply (components_deterministic 0%nat 1%nat Sample.habits
           Sample.completions Sample.store).
  split; reflexivity.
Defined.

(** The same on a run: a ranking, then the streak, then the streak
    again. *)
Example calls_example :
  fst <$> calls 0%nat 1%nat
            [Rank Sample.monday (Sample.monday + 7 * msPerDay);
             Streak 20 Sample.everyDay (Sample.monday + msPerDay);
             Streak 20 Sample.everyDay (Sample.monday + msPerDay)]
            Sample.store
  = Some [Ranking (MostAbandoned.rankWindow Sample.monday
                     (Sample.monday + 7 * msPerDay)
                     Sample.habits Sample.completions);
          StreakIs (Some 2); StreakIs (Some 2)].
Proof. vm_compute. reflexivity. Qed.

(** * Properties of the rest of the code *)

(** ** The loop over the days of a window *)

Section Window.

Context {S : Type}.

Lemma forEachDay_step (endDate : Date) (body : Date -> S -> S)
    (currentDate : Date) (acc : S) :
  currentDate <= endDate ->
  forEachDay endDate body currentDate acc
  = forEachDay endDate body (addDays currentDate 1) (body currentDate acc).
Proof.
  intros Hle. funelim (forEachDay endDate body currentDate acc);
    [reflexivity | lia].
Qed.

Lemma windowDates_step (startDate endDate : Date) :
  startDate <= endDate ->
  windowDates startDate endDate
  = startDate :: windowDates (addDays startDate 1) endDate.
Proof.
  intros Hle. unfold windowDates, windowDays, addDays.
  assert (Hms : 0 < msPerDay) by (unfold msPerDay; lia).
  assert (Hq : 0 <= (endDate - startDate) / msPerDay)
    by (apply Z.div_pos; lia).
  destruct (startDate <=? endDate) eqn:H1; [| apply Z.leb_gt in H1; lia].
  assert (Hn : windowDays (startDate + 1 * msPerDay) endDate
               = (endDate - startDate) / msPerDay).
  { unfold windowDays.
    destruct (startDate + 1 * msPerDay <=? endDate) eqn:H2.
    - apply Z.leb_le in H2.
      replace (endDate - (startDate + 1 * msPerDay))
        with ((endDate - startDate) + (-1) * msPerDay) by lia.
      rewrite Z.div_add by lia. lia.
    - apply Z.leb_gt in H2. symmetry. apply Z.div_small. lia. }
  unfold windowDays in Hn. rewrite Hn.
  rewrite seqZ_cons by lia. cbn [map].
  f_equal; [lia |].
  replace (Z.succ 0) with (1 + 0) by lia.
  replace (Z.pred ((endDate - startDate) / msPerDay + 1))
    with ((endDate - startDate) / msPerDay) by lia.
  rewrite <- (fmap_add_seqZ 1 0).
  change (@map Z) with (@fmap list _ Z). rewrite <- list_fmap_compose.
  apply list_fmap_ext. intros _ i _. simpl. lia.
Qed.

Lemma windowDates_empty (startDate endDate : Date) :
  endDate < startDate -> windowDates startDate endDate = [].
Proof.
  intros Hlt. unfold windowDates, windowDays.
  destruct (startDate <=? endDate) eqn:H; [apply Z.leb_le in H; lia |].
  reflexivity.
Qed.

(** The loop runs its body on the dates of the window, in order. *)
Lemma forEachDay_unroll (endDate : Date) (body : Date -> S -> S)
    (startDate : Date) (acc : S) :
  forEachDay endDate body startDate acc
  = fold_left (fun a d => body d a) (windowDates startDate endDate) acc.
Proof.
  funelim (forEachDay endDate body startDate acc).
  - rewrite windowDates_step by assumption. cbn [fold_left]. assumption.
  - rewrite windowDates_empty by lia. reflexivity.
Qed.

End Window.

(** ** Aggregates as sums *)

Lemma stats_eq (a b : Stats) :
  completed a = completed b -> planned a = planned b -> a = b.
Proof. destruct a, b. simpl. intros -> ->. reflexivity. Qed.

Lemma addStats_zero_l (a : Stats) : addStats zeroStats a = a.
Proof. apply stats_eq; simpl; lia. Qed.

Lemma addStats_zero_r (a : Stats) : addStats a zeroStats = a.
Proof. apply stats_eq; simpl; lia. Qed.

Lemma addStats_comm (a b : Stats) : addStats a b = addStats b a.
Proof. apply stats_eq; simpl; lia. Qed.

Lemma addStats_assoc (a b c : Stats) :
  addStats a (addStats b c) = addStats (addStats a b) c.
Proof. apply stats_eq; simpl; lia. Qed.

Lemma sumStats_app (l1 l2 : list Stats) :
  sumStats (l1 ++ l2) = addStats (sumStats l1) (sumStats l2).
Proof.
  induction l1 as [| a l1 IH]; simpl.
  - symmetry. apply addStats_zero_l.
  - rewrite IH. apply addStats_assoc.
Qed.

Lemma sumStats_perm (l1 l2 : list Stats) :
  Permutation l1 l2 -> sumStats l1 = sumStats l2.
Proof.
  induction 1 as [| a l1 l2 _ IH | a b l | l1 l2 l3 _ IH1 _ IH2]; simpl.
  - reflexivity.
  - rewrite IH. reflexivity.
  - rewrite !addStats_assoc, (addStats_comm b a). reflexivity.
  - congruence.
Qed.

Lemma sumStats_map_add {A : Type} (f g : A -> Stats) (l : list A) :
  sumStats (map (fun x => addStats (f x) (g x)) l)
  = addStats (sumStats (map f l)) (sumStats (map g l)).
Proof.
  induction l as [| x l IH]; simpl.
  - symmetry. apply addStats_zero_l.
  - rewrite IH. apply stats_eq; simpl; lia.
Qed.

(** A loop that adds something to the counters at each pass. *)
Lemma fold_left_adds {A : Type} (step : Stats -> A -> Stats)
    (delta : A -> Stats) :
  (forall acc x, step acc x = addStats acc (delta x)) ->
  forall l acc, fold_left step l acc = addStats acc (sumStats (map delta l)).
Proof.
  intros Hstep l. induction l as [| x l IH]; intros acc; simpl.
  - symmetry. apply addStats_zero_r.
  - rewrite IH, Hstep. symmetry. apply addStats_assoc.
Qed.

Section Sums.

Variable completions : list HabitCompletion.

Lemma countHabit_adds (date : Date) (dateStr : string) (acc : Stats)
    (h : Habit) :
  countHabit completions date dateStr acc h
  = addStats acc (countHabit completions date dateStr zeroStats h).
Proof.
  unfold countHabit.
  destruct (shouldShowHabitOnDate h date);
    [| symmetry; apply addStats_zero_r].
  destruct (JS.some _ completions); apply stats_eq; simpl; lia.
Qed.

Lemma countHabits_sum (date : Date) (habits : list Habit) (acc : Stats) :
  fold_left (countHabit completions date (format_yyyyMMdd date)) habits acc
  = addStats acc (sumStats (map (dayDelta completions date) habits)).
Proof. apply fold_left_adds. intros a h. apply countHabit_adds. Qed.

Lemma getWeekStats_sum (weekStart weekEnd : Date) (habits : list Habit) :
  AnalyticsChart.getWeekStats weekStart weekEnd habits completions
  = sumStats
      (map (fun d => sumStats (map (dayDelta completions d) habits))
         (windowDates weekStart weekEnd)).
Proof.
  unfold AnalyticsChart.getWeekStats. rewrite forEachDay_unroll.
  rewrite (fold_left_adds _
             (fun d => sumStats (map (dayDelta completions d) habits))).
  - apply addStats_zero_l.
  - intros acc d. apply countHabits_sum.
Qed.

Lemma getWeekStatsForHabit_sum (weekStart weekEnd : Date) (h : Habit) :
  AnalyticsChart.getWeekStatsForHabit weekStart weekEnd h completions
  = sumStats
      (map (fun d => dayDelta completions d h)
         (windowDates weekStart weekEnd)).
Proof.
  unfold AnalyticsChart.getWeekStatsForHabit. rewrite forEachDay_unroll.
  rewrite (fold_left_adds _ (fun d => dayDelta completions d h)).
  - apply addStats_zero_l.
  - intros acc d. apply countHabit_adds.
Qed.

Lemma getCompletionStats_sum (habits : list Habit) (days : Z) (now : Date) :
  Dashboard.getCompletionStats habits completions days now
  = sumStats
      (map (fun i =>
              sumStats (map (dayDelta completions (subDays now i)) habits))
         (seqZ 0 days)).
Proof.
  unfold Dashboard.getCompletionStats.
  rewrite (fold_left_adds _
             (fun i => sumStats
                         (map (dayDelta completions (subDays now i)) habits))).
  - apply addStats_zero_l.
  - intros acc i. apply countHabits_sum.
Qed.

End Sums.

Lemma sumStats_zeros {A : Type} (l : list A) :
  sumStats (map (fun _ => zeroStats) l) = zeroStats.
Proof.
  induction l as [| x l IH]; simpl; [reflexivity |].
  rewrite IH. reflexivity.
Qed.

Lemma dayDelta_perm (cs cs' : list HabitCompletion) (d : Date) (h : Habit) :
  Permutation cs cs' -> dayDelta cs d h = dayDelta cs' d h.
Proof.
  intros Hperm. unfold dayDelta, countHabit.
  rewrite (some_perm _ cs cs' Hperm). reflexivity.
Qed.

Lemma dayDelta_bounds (cs : list HabitCompletion) (d : Date) (h : Habit) :
  0 <= completed (dayDelta cs d h) <= planned (dayDelta cs d h)
  /\ planned (dayDelta cs d h)
     = if shouldShowHabitOnDate h d then 1 else 0.
Proof.
  unfold dayDelta, countHabit.
  destruct (shouldShowHabitOnDate h d); [| simpl; lia].
  destruct (JS.some _ cs); simpl; lia.
Qed.

(** X1.  The counters of [getWeekStats] for a list of habits are the sums
    of the counters [getWeekStatsForHabit] gives for each habit: the
    total line of the chart is the sum of the per-habit lines. *)
Theorem getWeekStats_is_sum_over_habits (weekStart weekEnd : Date)
    (habits : list Habit) (completions : list HabitCompletion) :
  AnalyticsChart.getWeekStats weekStart weekEnd habits completions
  = sumStats
      (map (fun h =>
              AnalyticsChart.getWeekStatsForHabit weekStart weekEnd h
                completions)
         habits).
Proof.
  rewrite getWeekStats_sum.
  induction habits as [| h habits IH]; cbn [map].
  - apply sumStats_zeros.
  - change (sumStats (?a :: ?l)) with (addStats a (sumStats l)).
    rewrite <- IH, getWeekStatsForHabit_sum.
    rewrite <- sumStats_map_add. reflexivity.
Qed.

(** X2.  The aggregates do not depend on the order of the habit list or
    of the completion list. *)
Theorem aggregates_order_independent (habits habits' : list Habit)
    (completions completions' : list HabitCompletion)
    (startDate endDate : Date) (days : Z) (now : Date) :
  Permutation habits habits' ->
  Permutation completions completions' ->
  AnalyticsChart.getWeekStats startDate endDate habits completions
  = AnalyticsChart.getWeekStats startDate endDate habits' completions'
  /\ Dashboard.getCompletionStats habits completions days now
     = Dashboard.getCompletionStats habits' completions' days now.
Proof.
  intros Hh Hc.
  assert (Hday : forall d,
            sumStats (map (dayDelta completions d) habits)
            = sumStats (map (dayDelta completions' d) habits')).
  { intros d. rewrite (sumStats_perm _ _ (Permutation_map _ Hh)).
    f_equal. apply map_ext. intros h. apply dayDelta_perm, Hc. }
  rewrite !getWeekStats_sum, !getCompletionStats_sum.
  split; f_equal; apply map_ext; intros x; apply Hday.
Qed.

Lemma aggregates_order_independent_witness :
  AnalyticsChart.getWeekStats Sample.monday (Sample.monday + 7 * msPerDay)
    [Sample.mondays; Sample.everyDay] Sample.completions
  = AnalyticsChart.getWeekStats Sample.monday (Sample.monday + 7 * msPerDay)
      [Sample.everyDay; Sample.mondays] Sample.completions
  /\ Dashboard.getCompletionStats [Sample.mondays; Sample.everyDay]
       Sample.completions 7 Sample.monday
     = Dashboard.getCompletionStats [Sample.everyDay; Sample.mondays]
         Sample.completions 7 Sample.monday.
Proof.
  apply aggregates_order_independent.
  - apply perm_swap.
  - reflexivity.
Defined.

Lemma sumStats_planned_le {A : Type} (f : A -> Stats) (b : Z) (l : list A) :
  (forall x, 0 <= planned (f x) <= b) ->
  0 <= planned (sumStats (map f l)) <= b * Z.of_nat (length l).
Proof.
  intros Hf. induction l as [| x l IH]; simpl; [lia |].
  specialize (Hf x). lia.
Qed.

Lemma sumStats_planned_eq {A : Type} (f : A -> Stats) (b : Z) (l : list A) :
  (forall x, planned (f x) = b) ->
  planned (sumStats (map f l)) = b * Z.of_nat (length l).
Proof.
  intros Hf. induction l as [| x l IH]; simpl; [lia |].
  rewrite Hf. lia.
Qed.

Lemma windowDays_nonneg (startDate endDate : Date) :
  0 <= windowDays startDate endDate.
Proof.
  unfold windowDays. destruct (startDate <=? endDate) eqn:H; [| lia].
  apply Z.leb_le in H.
  assert (0 <= (endDate - startDate) / msPerDay)
    by (apply Z.div_pos; unfold msPerDay; lia).
  lia.
Qed.

Lemma windowDates_length (startDate endDate : Date) :
  Z.of_nat (length (windowDates startDate endDate))
  = windowDays startDate endDate.
Proof.
  unfold windowDates. rewrite length_map, length_seqZ.
  pose proof (windowDays_nonneg startDate endDate). lia.
Qed.

(** X3.  Over a window of [n] days ([n = floor((end - start) / 86400000)
    + 1], or 0 when the window is inverted) [getWeekStats] plans at most
    one occurrence per habit and day: [planned <= n * habits.length]; for
    habits that are all [daily] it is exactly that.  [getCompletionStats]
    does the same with [n = days]. *)
Theorem planned_at_most_one_per_habit_and_day (habits : list Habit)
    (completions : list HabitCompletion) (startDate endDate : Date)
    (days : Z) (now : Date) :
  let week := AnalyticsChart.getWeekStats startDate endDate habits completions in
  let recent := Dashboard.getCompletionStats habits completions days now in
  0 <= planned week <= windowDays startDate endDate * Z.of_nat (length habits)
  /\ 0 <= planned recent <= Z.max 0 days * Z.of_nat (length habits)
  /\ (Forall (fun h => frequency_type h = "daily"%string) habits ->
      planned week = windowDays startDate endDate * Z.of_nat (length habits)
      /\ planned recent = Z.max 0 days * Z.of_nat (length habits)).
Proof.
  intros week recent. subst week recent.
  rewrite getWeekStats_sum, getCompletionStats_sum.
  assert (Hday : forall d,
            0 <= planned (sumStats (map (dayDelta completions d) habits))
              <= Z.of_nat (length habits)).
  { intros d.
    pose proof (sumStats_planned_le (dayDelta completions d) 1 habits) as H.
    rewrite Z.mul_1_l in H. apply H. intros h.
    destruct (dayDelta_bounds completions d h) as [_ ->].
    destruct (shouldShowHabitOnDate h d); lia. }
  assert (Hlen : Z.of_nat (length (seqZ 0 days)) = Z.max 0 days)
    by (rewrite length_seqZ; lia).
  split; [| split].
  - rewrite <- windowDates_length, Z.mul_comm.
    apply sumStats_planned_le. intros d. apply Hday.
  - rewrite <- Hlen, Z.mul_comm.
    apply sumStats_planned_le. intros i. apply Hday.
  - intros Hdaily.
    assert (Hall : forall d,
              planned (sumStats (map (dayDelta completions d) habits))
              = Z.of_nat (length habits)).
    { intros d. clear Hday. induction Hdaily as [| h l Hh _ IH];
        [reflexivity |].
      cbn [map length]. change (sumStats (?a :: ?r)) with (addStats a (sumStats r)).
      cbn [planned addStats]. rewrite IH.
      destruct (dayDelta_bounds completions d h) as [_ ->].
      rewrite (daily_always_due h d Hh). lia. }
    split.
    + rewrite <- windowDates_length, Z.mul_comm.
      apply sumStats_planned_eq. intros d. apply Hall.
    + rewrite <- Hlen, Z.mul_comm.
      apply sumStats_planned_eq. intros i. apply Hall.
Qed.

(** The counting loop of the ranking and [getWeekStatsForHabit] count the
    same. *)
Lemma countDays_eq (startDate endDate : Date) (h : Habit)
    (completions : list HabitCompletion) :
  MostAbandoned.countDays startDate endDate h completions
  = (planned (AnalyticsChart.getWeekStatsForHabit startDate endDate h
                completions),
     completed (AnalyticsChart.getWeekStatsForHabit startDate endDate h
                  completions)).
Proof.
  unfold MostAbandoned.countDays, AnalyticsChart.getWeekStatsForHabit.
  rewrite !forEachDay_unroll.
  change (0, 0) with (planned zeroStats, completed zeroStats).
  change {| completed := 0; planned := 0 |} with zeroStats.
  generalize zeroStats.
  induction (windowDates startDate endDate) as [| d l IH]; intros st;
    [reflexivity |].
  cbn [fold_left]. rewrite <- IH. f_equal.
  unfold MostAbandoned.countDay, countHabit.
  destruct (shouldShowHabitOnDate h d); [| reflexivity].
  destruct (JS.some _ completions); reflexivity.
Qed.

(** ** Days of the week *)

Lemma msPerDay_pos : 0 < msPerDay.
Proof. reflexivity. Qed.

Lemma dayNumber_addDays (d : Date) (i : Z) :
  dayNumber (addDays d i) = dayNumber d + i.
Proof.
  unfold dayNumber, addDays. apply Z.div_add. pose proof msPerDay_pos. lia.
Qed.

(** [i] days after the start of the week it is the weekday number [i]. *)
Lemma weekday_after_startOfWeek (w : Date) (i : Z) :
  0 <= i < 7 ->
  (dayNumber (addDays (AnalyticsChart.startOfWeek w) i) + 3) mod 7 = i.
Proof.
  intros Hi. rewrite dayNumber_addDays. unfold AnalyticsChart.startOfWeek.
  unfold dayNumber at 1. rewrite Z.div_mul by (pose proof msPerDay_pos; lia).
  pose proof (Z.mod_pos_bound (dayNumber w + 3) 7 ltac:(lia)) as Hr.
  pose proof (Z.div_mod (dayNumber w + 3) 7 ltac:(lia)) as Hdm.
  replace (dayNumber w - (dayNumber w + 3) mod 7 + i + 3)
    with (i + ((dayNumber w + 3) / 7) * 7) by lia.
  rewrite Z.mod_add by lia. apply Z.mod_small. exact Hi.
Qed.

Lemma dayName_of_weekday (d : Date) (i : nat) :
  (dayNumber d + 3) mod 7 = Z.of_nat i -> (i < 7)%nat ->
  HabitForm.DAYS_OF_WEEK !! i = Some (toLowerCase (format_EEEE d)).
Proof.
  intros Hwd Hi. unfold format_EEEE. rewrite Hwd.
  do 7 (destruct i as [| i]; [reflexivity |]). lia.
Qed.

(** The name of every day is one of the seven of the form. *)
Lemma dayName_in_DAYS_OF_WEEK (d : Date) :
  In (toLowerCase (format_EEEE d)) HabitForm.DAYS_OF_WEEK.
Proof.
  pose proof (Z.mod_pos_bound (dayNumber d + 3) 7 ltac:(lia)) as Hr.
  apply list_elem_of_In.
  apply (list_elem_of_lookup_2 _ (Z.to_nat ((dayNumber d + 3) mod 7))).
  apply dayName_of_weekday; lia.
Qed.

Lemma includes_In (x : string) (l : list string) :
  JS.includes x l = true <-> In x l.
Proof.
  unfold JS.includes. rewrite existsb_exists. split.
  - intros (y & Hy & Heq). apply String.eqb_eq in Heq. subst. exact Hy.
  - intros Hx. exists x. split; [exact Hx | apply String.eqb_refl].
Qed.

Lemma weekDays_names (currentWeek : Date) :
  map (fun d => toLowerCase (format_EEEE d))
    (WeeklyCalendar.weekDays currentWeek)
  = HabitForm.DAYS_OF_WEEK.
Proof.
  apply list_eq. intros i. unfold WeeklyCalendar.weekDays.
  change (@map) with (fun A B => @fmap list _ A B).
  cbv beta. rewrite !list_lookup_fmap.
  destruct (decide (i < 7)%nat) as [Hi | Hi].
  - rewrite lookup_seqZ_lt by lia. cbn [fmap option_fmap option_map].
    symmetry. apply dayName_of_weekday; [| exact Hi].
    apply weekday_after_startOfWeek. lia.
  - rewrite lookup_seqZ_ge by lia. cbn [fmap option_fmap option_map].
    symmetry. apply lookup_ge_None_2. simpl. lia.
Qed.

(** X4.  The seven columns of the weekly grid are Monday to Sunday, in the
    order of the day boxes of the form, and a [custom] habit has its
    button in a column exactly when the day of that column is one of its
    days. *)
Theorem weekly_grid_columns (currentWeek : Date) (h : Habit)
    (completions : list HabitCompletion) (days : list string) :
  frequency_type h = "custom"%string ->
  custom_days h = Some days ->
  map (fun d => toLowerCase (format_EEEE d))
    (WeeklyCalendar.weekDays currentWeek)
  = HabitForm.DAYS_OF_WEEK
  /\ map (fun d => fst (WeeklyCalendar.cell h completions d))
       (WeeklyCalendar.weekDays currentWeek)
     = map (fun name => JS.includes name days) HabitForm.DAYS_OF_WEEK.
Proof.
  intros Hf Hdays. split; [apply weekDays_names |].
  rewrite <- (weekDays_names currentWeek), map_map.
  apply map_ext. intros d. unfold WeeklyCalendar.cell. cbn [fst].
  rewrite custom_due_iff by assumption. rewrite Hdays. reflexivity.
Qed.

Lemma weekly_grid_columns_witness :
  map (fun d => toLowerCase (format_EEEE d))
    (WeeklyCalendar.weekDays (Sample.monday + 3 * msPerDay + 5))
  = HabitForm.DAYS_OF_WEEK
  /\ map (fun d => fst (WeeklyCalendar.cell Sample.mondays [] d))
       (WeeklyCalendar.weekDays (Sample.monday + 3 * msPerDay + 5))
     = map (fun name => JS.includes name ["monday"%string])
         HabitForm.DAYS_OF_WEEK.
Proof.
  apply weekly_grid_columns; reflexivity.
Defined.

(** ** Week buckets *)

Lemma week_window (d : Date) :
  windowDates (AnalyticsChart.startOfWeek d) (AnalyticsChart.endOfWeek d)
  = WeeklyCalendar.weekDays d.
Proof.
  unfold windowDates, WeeklyCalendar.weekDays, windowDays,
    AnalyticsChart.endOfWeek.
  pose proof msPerDay_pos as Hms.
  destruct (AnalyticsChart.startOfWeek d
            <=? AnalyticsChart.startOfWeek d + 7 * msPerDay - 1) eqn:H;
    [| apply Z.leb_gt in H; lia].
  replace (AnalyticsChart.startOfWeek d + 7 * msPerDay - 1
           - AnalyticsChart.startOfWeek d)
    with ((msPerDay - 1) + 6 * msPerDay) by lia.
  rewrite Z.div_add, Z.div_small by lia. reflexivity.
Qed.

Lemma planned_counts_due_days (completions : list HabitCompletion)
    (h : Habit) (dates : list Date) :
  planned (sumStats (map (fun d => dayDelta completions d h) dates))
  = Z.of_nat (length (List.filter (shouldShowHabitOnDate h) dates)).
Proof.
  induction dates as [| d dates IH]; [reflexivity |].
  cbn [map List.filter].
  change (sumStats (?a :: ?r)) with (addStats a (sumStats r)).
  cbn [planned addStats]. rewrite IH.
  destruct (dayDelta_bounds completions d h) as [_ ->].
  destruct (shouldShowHabitOnDate h d); cbn [length]; lia.
Qed.

Lemma filter_map_length {A B : Type} (p : B -> bool) (f : A -> B)
    (l : list A) :
  length (List.filter p (map f l)) = length (List.filter (fun x => p (f x)) l).
Proof.
  induction l as [| x l IH]; [reflexivity |].
  cbn [map List.filter]. destruct (p (f x)); cbn [length]; rewrite IH;
    reflexivity.
Qed.

Lemma DAYS_OF_WEEK_NoDup : NoDup HabitForm.DAYS_OF_WEEK.
Proof.
  apply (bool_decide_unpack (NoDup HabitForm.DAYS_OF_WEEK)).
  vm_compute. exact I.
Qed.

Lemma selected_days_count (days : list string) :
  wellFormedDays days ->
  length (List.filter (fun name => JS.includes name days)
            HabitForm.DAYS_OF_WEEK)
  = length days.
Proof.
  intros [Hnd Hsub]. apply Permutation_length. apply NoDup_Permutation.
  - apply NoDup_ListNoDup, List.NoDup_filter, NoDup_ListNoDup.
    apply DAYS_OF_WEEK_NoDup.
  - exact Hnd.
  - intros name. rewrite !list_elem_of_In, filter_In, includes_In.
    split; [tauto |]. intros Hin. split; [| exact Hin].
    rewrite Forall_forall in Hsub. apply Hsub, list_elem_of_In, Hin.
Qed.

(** X5.  A week bucket of the chart, from [startOfWeek] to [endOfWeek],
    holds seven days: a [daily] habit is planned 7 times in it (once for
    each name of [DAYS_OF_WEEK]), and a [custom] habit whose days are
    distinct names of [DAYS_OF_WEEK] is planned once for each of its
    days. *)
Theorem week_bucket_planned (d : Date) (h : Habit)
    (completions : list HabitCompletion) (days : list string) :
  (frequency_type h = "daily"%string /\ days = HabitForm.DAYS_OF_WEEK)
  \/ (frequency_type h = "custom"%string /\ custom_days h = Some days
      /\ wellFormedDays days) ->
  planned
    (AnalyticsChart.getWeekStatsForHabit (AnalyticsChart.startOfWeek d)
       (AnalyticsChart.endOfWeek d) h completions)
  = Z.of_nat (length days).
Proof.
  intros Hkind.
  rewrite getWeekStatsForHabit_sum, week_window, planned_counts_due_days.
  destruct Hkind as [[Hf ->] | (Hf & Hdays & Hwf)].
  - rewrite (filter_ext _ (fun _ => true)).
    + rewrite filter_true. reflexivity.
    + intros x. apply daily_always_due, Hf.
  - rewrite (filter_ext _
               (fun x => JS.includes (toLowerCase (format_EEEE x)) days)).
    + rewrite <- (filter_map_length (fun name => JS.includes name days)).
      rewrite weekDays_names, selected_days_count by exact Hwf. reflexivity.
    + intros x. rewrite custom_due_iff by exact Hf. rewrite Hdays.
      reflexivity.
Qed.

Lemma week_bucket_planned_witness :
  planned
    (AnalyticsChart.getWeekStatsForHabit
       (AnalyticsChart.startOfWeek (Sample.monday + 3 * msPerDay))
       (AnalyticsChart.endOfWeek (Sample.monday + 3 * msPerDay))
       Sample.mondays [])
  = Z.of_nat (length ["monday"%string]).
Proof.
  apply week_bucket_planned. right. repeat split.
  - apply NoDup_singleton.
  - repeat constructor.
Defined.

(** ** The schedule over the days *)

Lemma format_EEEE_week (d : Date) :
  format_EEEE (addDays d 7) = format_EEEE d.
Proof.
  unfold format_EEEE. rewrite dayNumber_addDays.
  replace (dayNumber d + 7 + 3) with (dayNumber d + 3 + 1 * 7) by lia.
  rewrite Z.mod_add by lia. reflexivity.
Qed.

(** X6.  A habit that is not [alternate] is due on a date exactly when it
    is due a week later: the schedule of [daily] and [custom] habits, and
    of habits of an unknown kind, repeats every seven days. *)
Theorem schedule_repeats_weekly (h : Habit) (d : Date) :
  frequency_type h <> "alternate"%string ->
  shouldShowHabitOnDate h (addDays d 7) = shouldShowHabitOnDate h d
  /\ HabitCard.shouldHaveHabitOnDate (addDays d 7) h
     = HabitCard.shouldHaveHabitOnDate d h.
Proof.
  intros Hf. apply String.eqb_neq in Hf.
  unfold shouldShowHabitOnDate, HabitCard.shouldHaveHabitOnDate.
  rewrite Hf, format_EEEE_week. split; reflexivity.
Qed.

Lemma schedule_repeats_weekly_witness :
  shouldShowHabitOnDate Sample.mondays (addDays Sample.monday 7)
  = shouldShowHabitOnDate Sample.mondays Sample.monday
  /\ HabitCard.shouldHaveHabitOnDate (addDays Sample.monday 7) Sample.mondays
     = HabitCard.shouldHaveHabitOnDate Sample.monday Sample.mondays.
Proof. apply schedule_repeats_weekly. discriminate. Defined.

Lemma elapsed_days_next (h : Habit) (d : Date) :
  (addDays d 1 - created_at h) / msPerDay = (d - created_at h) / msPerDay + 1.
Proof.
  unfold addDays.
  replace (d + 1 * msPerDay - created_at h)
    with (d - created_at h + 1 * msPerDay) by lia.
  apply Z.div_add. pose proof msPerDay_pos. lia.
Qed.

(** X7.  From its creation on, an [alternate] habit is due on exactly one
    of any two instants a day apart, and the copy of the test in the
    habit card, which has no sign test, alternates on all instants. *)
Theorem alternate_habit_alternates (h : Habit) (d : Date) :
  frequency_type h = "alternate"%string ->
  (created_at h <= d ->
   shouldShowHabitOnDate h (addDays d 1) = negb (shouldShowHabitOnDate h d))
  /\ HabitCard.shouldHaveHabitOnDate (addDays d 1) h
     = negb (HabitCard.shouldHaveHabitOnDate d h).
Proof.
  intros Hf.
  assert (Hflip : forall n, Z.even (n + 1) = negb (Z.even n)).
  { intros n. replace (n + 1) with (Z.succ n) by lia.
    rewrite Z.even_succ, Z.negb_even. reflexivity. }
  split.
  - intros Hafter. rewrite !alternate_due_eq by assumption.
    rewrite elapsed_days_next, !rem2_even, Hflip.
    assert (0 <= (d - created_at h) / msPerDay)
      by (apply Z.div_pos; pose proof msPerDay_pos; lia).
    replace (0 <=? (d - created_at h) / msPerDay + 1) with true
      by (symmetry; apply Z.leb_le; lia).
    replace (0 <=? (d - created_at h) / msPerDay) with true
      by (symmetry; apply Z.leb_le; lia).
    reflexivity.
  - unfold HabitCard.shouldHaveHabitOnDate. rewrite Hf. cbn [String.eqb].
    cbv zeta. rewrite elapsed_days_next, !rem2_even. apply Hflip.
Qed.

Lemma alternate_habit_alternates_witness :
  (created_at Sample.everyOtherDay <= Sample.monday + 3 * msPerDay ->
   shouldShowHabitOnDate Sample.everyOtherDay
     (addDays (Sample.monday + 3 * msPerDay) 1)
   = negb (shouldShowHabitOnDate Sample.everyOtherDay
             (Sample.monday + 3 * msPerDay)))
  /\ HabitCard.shouldHaveHabitOnDate
       (addDays (Sample.monday + 3 * msPerDay) 1) Sample.everyOtherDay
     = negb (HabitCard.shouldHaveHabitOnDate (Sample.monday + 3 * msPerDay)
               Sample.everyOtherDay).
Proof. apply alternate_habit_alternates. reflexivity. Defined.

(** X8.  At every instant from the creation of the habit on, the two
    copies of the test in the habit card answer what the test of
    [App.tsx] answers: the missing sign test shows only before the
    creation. *)
Theorem habitCard_agrees_from_creation (h : Habit) (d : Date) :
  created_at h <= d ->
  HabitCard.shouldHaveHabitOnDate d h = shouldShowHabitOnDate h d
  /\ HabitCardToday.shouldShowForToday h d = shouldShowHabitOnDate h d.
Proof.
  intros Hafter.
  assert (Hpos : (0 <=? (d - created_at h) / msPerDay) = true).
  { apply Z.leb_le, Z.div_pos; pose proof msPerDay_pos; lia. }
  unfold HabitCard.shouldHaveHabitOnDate, HabitCardToday.shouldShowForToday,
    shouldShowHabitOnDate.
  cbv zeta. rewrite Hpos. split; reflexivity.
Qed.

Lemma habitCard_agrees_from_creation_witness :
  HabitCard.shouldHaveHabitOnDate (Sample.monday + 3 * msPerDay)
    Sample.everyOtherDay
  = shouldShowHabitOnDate Sample.everyOtherDay (Sample.monday + 3 * msPerDay)
  /\ HabitCardToday.shouldShowForToday Sample.everyOtherDay
       (Sample.monday + 3 * msPerDay)
     = shouldShowHabitOnDate Sample.everyOtherDay
         (Sample.monday + 3 * msPerDay).
Proof.
  apply habitCard_agrees_from_creation.
  unfold Sample.everyOtherDay, Sample.monday, msPerDay. simpl. lia.
Defined.

(** ** The habit form *)

(** X9.  The day boxes keep their list well formed.  Ticking a day of
    [DAYS_OF_WEEK] that is not in the list, or unticking any day, leaves
    a list without repetition of names of [DAYS_OF_WEEK]; ticking adds
    the day, unticking removes it, and no other day comes or goes. *)
Theorem day_boxes_keep_list_well_formed (customDays : list string)
    (day : string) (checked : bool) :
  wellFormedDays customDays ->
  In day HabitForm.DAYS_OF_WEEK ->
  (checked = true -> ~ In day customDays) ->
  let customDays' := HabitForm.handleCustomDayToggle customDays day checked in
  wellFormedDays customDays'
  /\ (In day customDays' <-> checked = true)
  /\ (forall other, other <> day ->
        (In other customDays' <-> In other customDays)).
Proof.
  intros [Hnd Hsub] Hday Hfresh customDays'. subst customDays'.
  unfold HabitForm.handleCustomDayToggle, wellFormedDays.
  destruct checked.
  - specialize (Hfresh eq_refl). split; [split |].
    + apply NoDup_app. split; [exact Hnd |]. split; [| apply NoDup_singleton].
      intros x Hx Hx'. apply list_elem_of_singleton in Hx'. subst.
      apply Hfresh, list_elem_of_In, Hx.
    + apply Forall_app. split; [exact Hsub |]. constructor; [exact Hday |].
      constructor.
    + split.
      * split; [reflexivity |]. intros _. apply in_or_app. right. left.
        reflexivity.
      * intros other Hne. split.
        -- intros Hin. apply in_app_or in Hin as [Hin | [Heq | []]];
             [exact Hin | congruence].
        -- intros Hin. apply in_or_app. left. exact Hin.
  - split; [split |].
    + apply NoDup_ListNoDup, List.NoDup_filter, NoDup_ListNoDup, Hnd.
    + apply Forall_forall. intros x Hx. apply list_elem_of_In in Hx.
      apply filter_In in Hx as [Hx _].
      rewrite Forall_forall in Hsub. apply Hsub, list_elem_of_In, Hx.
    + split.
      * split; [| discriminate]. intros Hin.
        apply filter_In in Hin as [_ Hne].
        rewrite String.eqb_refl in Hne. discriminate.
      * intros other Hne. split.
        -- intros Hin. apply filter_In in Hin as [Hin _]. exact Hin.
        -- intros Hin. apply filter_In. split; [exact Hin |].
           apply negb_true_iff, String.eqb_neq. assumption.
Qed.

Lemma day_boxes_keep_list_well_formed_witness :
  wellFormedDays
    (HabitForm.handleCustomDayToggle ["monday"%string] "friday" true)
  /\ (In "friday"%string
        (HabitForm.handleCustomDayToggle ["monday"%string] "friday" true)
      <-> true = true)
  /\ (forall other, other <> "friday"%string ->
        (In other
           (HabitForm.handleCustomDayToggle ["monday"%string] "friday" true)
         <-> In other ["monday"%string])).
Proof.
  apply (day_boxes_keep_list_well_formed ["monday"%string] "friday" true).
  - split; [apply NoDup_singleton | repeat constructor].
  - simpl. tauto.
  - intros _ [H | []]. discriminate.
Defined.

(** X10.  A [custom] habit the form lets through, its days taken from
    [DAYS_OF_WEEK], is due on at least one of any seven days in a row:
    the check on submit keeps the never-due habit out. *)
Theorem submitted_custom_habit_due_every_week (customDays : list string)
    (h : Habit) (d : Date) :
  HabitForm.handleSubmit "custom" customDays
  = inr (frequency_type h, custom_days h) ->
  Forall (fun name => In name HabitForm.DAYS_OF_WEEK) customDays ->
  exists i, 0 <= i < 7 /\ shouldShowHabitOnDate h (addDays d i) = true.
Proof.
  unfold HabitForm.handleSubmit. cbn [String.eqb Ascii.eqb Bool.eqb andb].
  destruct customDays as [| name rest]; [discriminate |].
  cbn [length Nat.eqb]. intros [= Hf Hdays] Hsub.
  apply Forall_cons in Hsub as [Hname _].
  apply list_elem_of_In, list_elem_of_lookup in Hname as [k Hk].
  assert (Hk7 : (k < 7)%nat).
  { apply lookup_lt_Some in Hk. simpl in Hk. exact Hk. }
  set (i := (Z.of_nat k - (dayNumber d + 3)) mod 7).
  assert (Hi : 0 <= i < 7) by (apply Z.mod_pos_bound; lia).
  exists i. split; [exact Hi |].
  assert (Hwd : (dayNumber (addDays d i) + 3) mod 7 = Z.of_nat k).
  { rewrite dayNumber_addDays. subst i.
    replace (dayNumber d + (Z.of_nat k - (dayNumber d + 3)) mod 7 + 3)
      with ((Z.of_nat k - (dayNumber d + 3)) mod 7 + (dayNumber d + 3))
      by lia.
    rewrite Zplus_mod_idemp_l.
    replace (Z.of_nat k - (dayNumber d + 3) + (dayNumber d + 3))
      with (Z.of_nat k) by lia.
    apply Z.mod_small. lia. }
  pose proof (dayName_of_weekday _ k Hwd Hk7) as Hnm.
  rewrite Hk in Hnm. injection Hnm as Hnm.
  rewrite custom_due_iff by (symmetry; exact Hf).
  rewrite <- Hdays, <- Hnm. unfold JS.includes. cbn [existsb].
  rewrite String.eqb_refl. reflexivity.
Qed.

Lemma submitted_custom_habit_due_every_week_witness :
  exists i, 0 <= i < 7
            /\ shouldShowHabitOnDate Sample.mondays
                 (addDays (Sample.monday + 3 * msPerDay) i) = true.
Proof.
  apply (submitted_custom_habit_due_every_week ["monday"%string]
           Sample.mondays (Sample.monday + 3 * msPerDay)).
  - reflexivity.
  - repeat constructor.
Defined.

(** ** More on the streak *)

Section StreakValue.

Variables (cap : Z) (h : Habit).

Lemma streakLoop_range (hc : list HabitCompletion) :
  forall fuel checkDate streak v,
    streak <= cap ->
    streakLoop cap fuel h hc checkDate streak = Some v ->
    streak <= v <= cap + 1.
Proof.
  induction fuel as [| fuel IH]; intros checkDate streak v Hle;
    cbn [streakLoop]; [discriminate |].
  destruct (shouldShowHabitOnDate h checkDate).
  - destruct (JS.some _ hc).
    + destruct (cap <? streak + 1) eqn:Hlt.
      * intros [= <-]. lia.
      * apply Z.ltb_ge in Hlt. intros Hrun. apply IH in Hrun; lia.
    + intros [= <-]. lia.
  - destruct (cap <? streak) eqn:Hlt.
    + intros [= <-]. lia.
    + intros Hrun. apply IH in Hrun; lia.
Qed.

Lemma dueDays_S (today : Date) (k : nat) :
  dueDays h today (S k)
  = (if shouldShowHabitOnDate h today then 1 else 0)
    + dueDays h (subDays today 1) k.
Proof.
  unfold dueDays. rewrite Nat2Z.inj_succ, seqZ_cons by lia.
  cbn [List.filter].
  replace (subDays today 0) with today by (unfold subDays; lia).
  replace (Z.pred (Z.succ (Z.of_nat k))) with (Z.of_nat k) by lia.
  replace (Z.succ 0) with (1 + 0) by lia.
  rewrite <- (fmap_add_seqZ 1 0).
  change (@fmap list _ Z Z (Z.add 1) (seqZ 0 (Z.of_nat k)))
    with (map (Z.add 1) (seqZ 0 (Z.of_nat k))).
  assert (Hrest :
            length (List.filter
                      (fun j => shouldShowHabitOnDate h (subDays today j))
                      (map (Z.add 1) (seqZ 0 (Z.of_nat k))))
            = length (List.filter
                        (fun j => shouldShowHabitOnDate h
                                    (subDays (subDays today 1) j))
                        (seqZ 0 (Z.of_nat k)))).
  { rewrite filter_map_length. f_equal. apply filter_ext.
    intros j. f_equal. unfold subDays. lia. }
  destruct (shouldShowHabitOnDate h today); cbn [length]; rewrite Hrest; lia.
Qed.

Lemma dueDays_nonneg (today : Date) (k : nat) : 0 <= dueDays h today k.
Proof. unfold dueDays. lia. Qed.

(** The walk up to the first due day without completion, [k] days
    back. *)
Lemma streakLoop_counts (hc : list HabitCompletion) :
  forall (k fuel : nat) (checkDate : Date) (streak : Z),
    (forall j, 0 <= j < Z.of_nat k ->
       shouldShowHabitOnDate h (subDays checkDate j) = true ->
       doneOn hc (format_yyyyMMdd (subDays checkDate j)) = true) ->
    shouldShowHabitOnDate h (subDays checkDate (Z.of_nat k)) = true ->
    doneOn hc (format_yyyyMMdd (subDays checkDate (Z.of_nat k))) = false ->
    streak + dueDays h checkDate k <= cap ->
    streakLoop cap (S k + fuel) h hc checkDate streak
    = Some (streak + dueDays h checkDate k).
Proof.
  induction k as [| k IH]; intros fuel checkDate streak Hdone Hdue Hmiss Hcap.
  - replace (subDays checkDate (Z.of_nat 0)) with checkDate in Hdue, Hmiss
      by (unfold subDays; simpl; lia).
    cbn [Nat.add streakLoop]. rewrite Hdue. unfold doneOn in Hmiss.
    rewrite Hmiss. f_equal. unfold dueDays. simpl. lia.
  - assert (Hshift : forall j,
              subDays (subDays checkDate 1) j = subDays checkDate (j + 1))
      by (intros j; unfold subDays; lia).
    rewrite dueDays_S in Hcap |- *.
    pose proof (dueDays_nonneg (subDays checkDate 1) k) as Hnn.
    change (S (S k) + fuel)%nat with (S (S k + fuel)). cbn [streakLoop].
    assert (Hrest : forall s,
              s + dueDays h (subDays checkDate 1) k <= cap ->
              streakLoop cap (S k + fuel) h hc (subDays checkDate 1) s
              = Some (s + dueDays h (subDays checkDate 1) k)).
    { intros s Hs. apply IH; [| | | exact Hs].
      - intros j Hj. rewrite Hshift. apply Hdone. lia.
      - rewrite Hshift. rewrite Nat2Z.inj_succ in Hdue.
        replace (Z.of_nat k + 1) with (Z.succ (Z.of_nat k)) by lia.
        exact Hdue.
      - rewrite Hshift. rewrite Nat2Z.inj_succ in Hmiss.
        replace (Z.of_nat k + 1) with (Z.succ (Z.of_nat k)) by lia.
        exact Hmiss. }
    destruct (shouldShowHabitOnDate h checkDate) eqn:Hd.
    + assert (Hd0 : doneOn hc (format_yyyyMMdd checkDate) = true).
      { specialize (Hdone 0 ltac:(lia)).
        replace (subDays checkDate 0) with checkDate in Hdone
          by (unfold subDays; lia).
        apply Hdone, Hd. }
      unfold doneOn in Hd0. rewrite Hd0.
      destruct (cap <? streak + 1) eqn:Hlt; [apply Z.ltb_lt in Hlt; lia |].
      rewrite Hrest by lia. f_equal. lia.
    + destruct (cap <? streak) eqn:Hlt; [apply Z.ltb_lt in Hlt; lia |].
      rewrite Hrest by lia. f_equal.
Qed.

End StreakValue.

Lemma habitCard_streakLoop_range (cs : list HabitCompletion) (h : Habit) :
  forall fuel currentDate streak v,
    streak <= 100 ->
    HabitCard.streakLoop fuel cs h currentDate streak = Some v ->
    streak <= v <= 101.
Proof.
  induction fuel as [| fuel IH]; intros currentDate streak v Hle;
    cbn [HabitCard.streakLoop]; [discriminate |].
  destruct (JS.some _ cs).
  - destruct (100 <? streak + 1) eqn:Hlt.
    + intros [= <-]. lia.
    + apply Z.ltb_ge in Hlt. intros Hrun. apply IH in Hrun; lia.
  - destruct (HabitCard.shouldHaveHabitOnDate currentDate h).
    + intros [= <-]. lia.
    + destruct (100 <? streak) eqn:Hlt.
      * intros [= <-]. lia.
      * intros Hrun. apply IH in Hrun; lia.
Qed.

(** X11.  A streak that is returned is never negative and never more than
    one above the bound of the loop: at most 366 on the dashboard, at
    most 101 on the shared page and on the habit card. *)
Theorem streak_within_bound (fuel : nat) (h : Habit)
    (cs : list HabitCompletion) (today : Date) :
  match Dashboard.calculateCurrentStreak fuel h cs today with
  | Some s => 0 <= s <= 366
  | None => True
  end
  /\ match SharedPage.calculateCurrentStreak fuel h cs today with
     | Some s => 0 <= s <= 101
     | None => True
     end
  /\ match HabitCard.calculateStreak fuel cs h today with
     | Some s => 0 <= s <= 101
     | None => True
     end.
Proof.
  split; [| split].
  - destruct (Dashboard.calculateCurrentStreak fuel h cs today) as [s |] eqn:E;
      [| exact I].
    unfold Dashboard.calculateCurrentStreak in E. rewrite streak_cap_eq in E.
    destruct (ofHabit h cs); [injection E as <-; lia |].
    apply streakLoop_range in E; lia.
  - destruct (SharedPage.calculateCurrentStreak fuel h cs today) as [s |] eqn:E;
      [| exact I].
    unfold SharedPage.calculateCurrentStreak in E. rewrite streak_cap_eq in E.
    destruct (ofHabit h cs); [injection E as <-; lia |].
    apply streakLoop_range in E; lia.
  - destruct (HabitCard.calculateStreak fuel cs h today) as [s |] eqn:E;
      [| exact I].
    unfold HabitCard.calculateStreak in E.
    destruct (length cs =? 0)%nat; [injection E as <-; lia |].
    apply habitCard_streakLoop_range in E; lia.
Qed.

(** X12.  When, walking back from today, the first due day without a
    completion comes [k] days back, the dashboard's streak is the number
    of due days among the [k] days before it, as long as that number is
    at most 365 (100 on the shared page). *)
Theorem streak_is_number_of_due_days (fuel k : nat) (h : Habit)
    (cs : list HabitCompletion) (today : Date) :
  ofHabit h cs <> [] ->
  (forall j, 0 <= j < Z.of_nat k ->
     shouldShowHabitOnDate h (subDays today j) = true ->
     doneOn (ofHabit h cs) (format_yyyyMMdd (subDays today j)) = true) ->
  shouldShowHabitOnDate h (subDays today (Z.of_nat k)) = true ->
  doneOn (ofHabit h cs) (format_yyyyMMdd (subDays today (Z.of_nat k)))
  = false ->
  (k < fuel)%nat ->
  (dueDays h today k <= 365 ->
   Dashboard.calculateCurrentStreak fuel h cs today
   = Some (dueDays h today k))
  /\ (dueDays h today k <= 100 ->
      SharedPage.calculateCurrentStreak fuel h cs today
      = Some (dueDays h today k)).
Proof.
  intros Hne Hdone Hdue Hmiss Hfuel.
  unfold Dashboard.calculateCurrentStreak, SharedPage.calculateCurrentStreak.
  rewrite !streak_cap_eq.
  destruct (ofHabit h cs) as [| c hc] eqn:E; [congruence |].
  replace fuel with (S k + (fuel - S k))%nat by lia.
  split; intros Hcap;
    rewrite (streakLoop_counts _ h (c :: hc) k) by (assumption || lia);
    f_equal; lia.
Qed.

Lemma streak_is_number_of_due_days_witness :
  (dueDays Sample.everyDay (Sample.monday + msPerDay) 2 <= 365 ->
   Dashboard.calculateCurrentStreak 10 Sample.everyDay Sample.completions
     (Sample.monday + msPerDay)
   = Some (dueDays Sample.everyDay (Sample.monday + msPerDay) 2))
  /\ (dueDays Sample.everyDay (Sample.monday + msPerDay) 2 <= 100 ->
      SharedPage.calculateCurrentStreak 10 Sample.everyDay Sample.completions
        (Sample.monday + msPerDay)
      = Some (dueDays Sample.everyDay (Sample.monday + msPerDay) 2)).
Proof.
  apply (streak_is_number_of_due_days 10 2 Sample.everyDay Sample.completions
           (Sample.monday + msPerDay)).
  - simpl. discriminate.
  - intros j Hj _.
    assert (Hcases : j = 0 \/ j = 1) by lia.
    destruct Hcases as [-> | ->]; vm_compute; reflexivity.
  - reflexivity.
  - vm_compute. reflexivity.
  - lia.
Defined.

Lemma ofHabit_perm (h : Habit) (cs cs' : list HabitCompletion) :
  Permutation cs cs' -> Permutation (ofHabit h cs) (ofHabit h cs').
Proof.
  unfold ofHabit.
  induction 1 as [| c l l' _ IH | c c' l | l l' l'' _ IH1 _ IH2];
    cbn [List.filter].
  - reflexivity.
  - destruct (String.eqb (habit_id c) (id h)); [constructor |]; exact IH.
  - destruct (String.eqb (habit_id c) (id h)),
      (String.eqb (habit_id c') (id h)); try reflexivity. apply perm_swap.
  - etransitivity; eassumption.
Qed.

(** X13.  The streak does not depend on the order in which the
    completions are listed: the sort by date at the head of
    [calculateCurrentStreak] has no effect on the value. *)
Theorem streak_order_independent (fuel : nat) (h : Habit)
    (cs cs' : list HabitCompletion) (today : Date) :
  Permutation cs cs' ->
  Dashboard.calculateCurrentStreak fuel h cs today
  = Dashboard.calculateCurrentStreak fuel h cs' today
  /\ SharedPage.calculateCurrentStreak fuel h cs today
     = SharedPage.calculateCurrentStreak fuel h cs' today.
Proof.
  intros Hperm. apply (ofHabit_perm h) in Hperm.
  unfold Dashboard.calculateCurrentStreak, SharedPage.calculateCurrentStreak.
  rewrite !streak_cap_eq.
  destruct (ofHabit h cs) as [| c hc] eqn:E.
  - apply Permutation_nil in Hperm. rewrite Hperm. split; reflexivity.
  - destruct (ofHabit h cs') as [| c' hc'] eqn:E'.
    + symmetry in Hperm. apply Permutation_nil in Hperm. discriminate.
    + split; apply streakLoop_ext; intros d _; unfold doneOn;
        apply some_perm, Hperm.
Qed.

Lemma streak_order_independent_witness :
  Dashboard.calculateCurrentStreak 10 Sample.everyDay Sample.completions
    (Sample.monday + msPerDay)
  = Dashboard.calculateCurrentStreak 10 Sample.everyDay
      (rev Sample.completions) (Sample.monday + msPerDay)
  /\ SharedPage.calculateCurrentStreak 10 Sample.everyDay Sample.completions
       (Sample.monday + msPerDay)
     = SharedPage.calculateCurrentStreak 10 Sample.everyDay
         (rev Sample.completions) (Sample.monday + msPerDay).
Proof.
  apply streak_order_independent. apply perm_swap.
Defined.



Lemma habitCard_schedule_eq (h : Habit) (d : Date) :
  frequency_type h <> "alternate"%string ->
  HabitCard.shouldHaveHabitOnDate d h = shouldShowHabitOnDate h d.
Proof.
  intros Hf. apply String.eqb_neq in Hf.
  unfold HabitCard.shouldHaveHabitOnDate, shouldShowHabitOnDate.
  rewrite Hf. reflexivity.
Qed.

(** X15.  For a habit that is not [alternate], when every completion of
    the habit is dated on a day on which the habit is due, the habit card
    and the shared page compute the same streak. *)
Theorem habitCard_streak_agrees_on_schedule (fuel : nat) (h : Habit)
    (cs : list HabitCompletion) (today : Date) :
  frequency_type h <> "alternate"%string ->
  (forall d, doneOn (ofHabit h cs) (format_yyyyMMdd d) = true ->
             shouldShowHabitOnDate h d = true) ->
  HabitCard.calculateStreak fuel (ofHabit h cs) h today
  = SharedPage.calculateCurrentStreak fuel h cs today.
Proof.
  intros Hf Hon.
  unfold HabitCard.calculateStreak, SharedPage.calculateCurrentStreak.
  rewrite streak_cap_eq.
  destruct (ofHabit h cs) as [| c hc] eqn:E; [reflexivity |].
  cbn [length Nat.eqb].
  enough (Hloop : forall date streak,
            HabitCard.streakLoop fuel (c :: hc) h date streak
            = streakLoop 100 fuel h (c :: hc) date streak) by apply Hloop.
  induction fuel as [| fuel IH]; intros date streak;
    cbn [HabitCard.streakLoop streakLoop]; [reflexivity |].
  rewrite (habitCard_schedule_eq h date Hf).
  fold (doneOn (c :: hc) (format_yyyyMMdd date)).
  destruct (doneOn (c :: hc) (format_yyyyMMdd date)) eqn:Hd.
  - rewrite (Hon date Hd). rewrite IH. reflexivity.
  - destruct (shouldShowHabitOnDate h date); [reflexivity |].
    rewrite IH. reflexivity.
Qed.

Lemma habitCard_streak_agrees_on_schedule_witness :
  HabitCard.calculateStreak 10 (ofHabit Sample.everyDay Sample.completions)
    Sample.everyDay (Sample.monday + msPerDay)
  = SharedPage.calculateCurrentStreak 10 Sample.everyDay Sample.completions
      (Sample.monday + msPerDay).
Proof.
  apply habitCard_streak_agrees_on_schedule.
  - discriminate.
  - intros d _. reflexivity.
Defined.

(** ** Statistics of one day *)

Section DayCounts.

Variables (dateStr : string) (dayHabits : list Habit).

(** [completions.filter(c => c.completion_date === dateStr &&
    dayHabits.some(h => h.id === c.habit_id))] *)
Let ofDay (completions : list HabitCompletion) : list HabitCompletion :=
  List.filter
    (fun c => String.eqb (completion_date c) dateStr
              && JS.some (fun h => String.eqb (id h) (habit_id c)) dayHabits)
    completions.

Lemma ofDay_In (completions : list HabitCompletion) (c : HabitCompletion) :
  In c (ofDay completions) ->
  In c completions /\ completion_date c = dateStr
  /\ In (habit_id c) (map id dayHabits).
Proof.
  unfold ofDay. rewrite filter_In, andb_true_iff, String.eqb_eq.
  unfold JS.some. rewrite existsb_exists.
  intros (Hin & Hdate & h & Hh & Hid). apply String.eqb_eq in Hid.
  repeat split; try assumption. rewrite <- Hid. apply in_map, Hh.
Qed.

Lemma ofDay_habits_distinct (completions : list HabitCompletion) :
  oneCompletionPerDay completions ->
  NoDup (map habit_id (ofDay completions)).
Proof.
  unfold oneCompletionPerDay.
  induction completions as [| c cs IH]; intros Hnd; [constructor |].
  cbn [map] in Hnd. apply NoDup_cons in Hnd as [Hfresh Hnd].
  specialize (IH Hnd). unfold ofDay in *. cbn [List.filter].
  destruct (String.eqb (completion_date c) dateStr
            && JS.some (fun h => String.eqb (id h) (habit_id c)) dayHabits)
    eqn:Hc; [| exact IH].
  cbn [map]. apply NoDup_cons. split; [| exact IH].
  intros Hin. apply Hfresh. apply list_elem_of_In in Hin.
  apply in_map_iff in Hin as (c' & Hid & Hc').
  apply list_elem_of_In, in_map_iff. exists c'.
  apply ofDay_In in Hc' as (Hin' & Hdate' & _).
  apply andb_true_iff in Hc as [Hdate _]. apply String.eqb_eq in Hdate.
  split; [| exact Hin']. congruence.
Qed.

(** With at most one completion per habit and day, the completions
    counted for a day are no more than the habits due that day. *)
Lemma ofDay_length (completions : list HabitCompletion) :
  oneCompletionPerDay completions ->
  (length (ofDay completions) <= length dayHabits)%nat.
Proof.
  intros Hone.
  rewrite <- (length_map habit_id), <- (length_map id dayHabits).
  apply submseteq_length, NoDup_submseteq.
  - apply ofDay_habits_distinct, Hone.
  - intros x Hx. apply list_elem_of_In in Hx.
    apply in_map_iff in Hx as (c & <- & Hc).
    apply ofDay_In in Hc as (_ & _ & Hid). apply list_elem_of_In, Hid.
Qed.

End DayCounts.

Lemma percent_of_lengths (part whole : nat) :
  (part <= whole)%nat ->
  let rate :=
    if (0 <? whole)%nat
    then (inject_Z (Z.of_nat part) / inject_Z (Z.of_nat whole)
          * inject_Z 100)%Q
    else 0%Q in
  (0 <= rate /\ rate <= 100)%Q.
Proof.
  intros Hle rate. subst rate.
  destruct (0 <? whole)%nat eqn:Hw.
  - apply Nat.ltb_lt in Hw. apply percent_bounds; lia.
  - split; discriminate.
Qed.

(** X16.  When the completions hold at most one row per habit and date,
    the day statistics of the monthly calendar never count more
    completions than habits due, and the percentage, like the value of
    the chart's day view in total mode, is between 0 and 100. *)
Theorem day_statistics_bounded (habits : list Habit)
    (completions : list HabitCompletion) (date : Date)
    (selectedHabits : gset string) :
  oneCompletionPerDay completions ->
  let st := MonthlyCalendar.getDayStats habits completions date in
  0 <= MonthlyCalendar.completed st <= MonthlyCalendar.total st
  /\ (0 <= MonthlyCalendar.percentage st
      /\ MonthlyCalendar.percentage st <= 100)%Q
  /\ exists q,
       AnalyticsChart.dayPoint AnalyticsChart.Total selectedHabits habits
         completions date !! "total"%string
       = Some (AnalyticsChart.JSNum q)
       /\ (0 <= q /\ q <= 100)%Q.
Proof.
  intros Hone st. subst st.
  pose proof (ofDay_length (format_yyyyMMdd date)
                (List.filter (fun h => shouldShowHabitOnDate h date) habits)
                completions Hone) as Hlen.
  cbv beta in Hlen.
  unfold MonthlyCalendar.getDayStats.
  cbn [MonthlyCalendar.completed MonthlyCalendar.total
         MonthlyCalendar.percentage].
  split; [lia |]. split; [apply percent_of_lengths, Hlen |].
  unfold AnalyticsChart.dayPoint. rewrite lookup_insert_eq.
  eexists. split; [reflexivity |]. apply percent_of_lengths, Hlen.
Qed.

Lemma day_statistics_bounded_witness :
  0 <= MonthlyCalendar.completed
         (MonthlyCalendar.getDayStats Sample.habits Sample.completions
            Sample.monday)
    <= MonthlyCalendar.total
         (MonthlyCalendar.getDayStats Sample.habits Sample.completions
            Sample.monday)
  /\ (0 <= MonthlyCalendar.percentage
             (MonthlyCalendar.getDayStats Sample.habits Sample.completions
                Sample.monday)
      /\ MonthlyCalendar.percentage
           (MonthlyCalendar.getDayStats Sample.habits Sample.completions
              Sample.monday) <= 100)%Q
  /\ exists q,
       AnalyticsChart.dayPoint AnalyticsChart.Total ∅ Sample.habits
         Sample.completions Sample.monday !! "total"%string
       = Some (AnalyticsChart.JSNum q)
       /\ (0 <= q /\ q <= 100)%Q.
Proof.
  apply (day_statistics_bounded Sample.habits Sample.completions
           Sample.monday ∅).
  apply (bool_decide_unpack (oneCompletionPerDay Sample.completions)).
  vm_compute. exact I.
Defined.

Lemma filter_and_length {A : Type} (p q : A -> bool) (l : list A) :
  (length (List.filter (fun x => p x && q x) l)
   <= length (List.filter p l))%nat.
Proof.
  induction l as [| x l IH]; [reflexivity |].
  cbn [List.filter]. destruct (p x), (q x); cbn [andb length]; lia.
Qed.

Lemma filter_and_same {A : Type} (p q : A -> bool) (l : list A) :
  (forall x, In x l -> p x = true -> q x = true) ->
  List.filter (fun x => p x && q x) l = List.filter p l.
Proof.
  intros Hq. induction l as [| x l IH]; [reflexivity |].
  cbn [List.filter].
  rewrite IH by (intros y Hy; apply Hq; right; exact Hy).
  destruct (p x) eqn:Hp; [| reflexivity].
  rewrite (Hq x (or_introl eq_refl) Hp). reflexivity.
Qed.

(** X17.  The header of [App.tsx] and the monthly calendar agree on the
    number of habits due on a day, but the header counts every completion
    dated that day, also one of a habit that is not due or not in the
    list: its count is at least the calendar's, and the two are equal
    when every completion of the day belongs to a habit due that day. *)
Theorem today_header_counts_all_completions (habits : list Habit)
    (completions : list HabitCompletion) (now : Date) :
  let header := App.getTodayStats habits completions now in
  let day := MonthlyCalendar.getDayStats habits completions now in
  App.total header = MonthlyCalendar.total day
  /\ MonthlyCalendar.completed day <= App.completed header
  /\ ((forall c, In c completions ->
         completion_date c = format_yyyyMMdd now ->
         exists h, In h habits /\ shouldShowHabitOnDate h now = true
                   /\ id h = habit_id c) ->
      App.completed header = MonthlyCalendar.completed day)
  /\ (App.total header = 0 -> App.percentage header = 0).
Proof.
  intros header day. subst header day.
  unfold App.getTodayStats, MonthlyCalendar.getDayStats.
  cbn [App.total App.completed App.percentage MonthlyCalendar.total
         MonthlyCalendar.completed].
  split; [reflexivity |]. split; [| split].
  - apply inj_le, filter_and_length.
  - intros Hall. f_equal. f_equal. symmetry. apply filter_and_same.
    intros c Hc Hdate. apply String.eqb_eq in Hdate.
    destruct (Hall c Hc Hdate) as (h & Hh & Hdue & Hid).
    unfold JS.some. apply existsb_exists. exists h. split.
    + apply filter_In. auto.
    + apply String.eqb_eq, Hid.
  - intros Hz.
    destruct (List.filter (fun h => shouldShowHabitOnDate h now) habits);
      [reflexivity | discriminate].
Qed.

Lemma today_header_counts_all_completions_witness :
  App.total (App.getTodayStats Sample.habits Sample.completions Sample.monday)
  = MonthlyCalendar.total
      (MonthlyCalendar.getDayStats Sample.habits Sample.completions
         Sample.monday)
  /\ MonthlyCalendar.completed
       (MonthlyCalendar.getDayStats Sample.habits Sample.completions
          Sample.monday)
     <= App.completed
          (App.getTodayStats Sample.habits Sample.completions Sample.monday).
Proof.
  destruct (today_header_counts_all_completions Sample.habits
              Sample.completions Sample.monday) as (Htotal & Hle & _).
  split; [exact Htotal | exact Hle].
Defined.

(** ** Ticking a habit *)

Lemma find_some_iff {A : Type} (p : A -> bool) (l : list A) :
  match List.find p l with Some _ => true | None => false end = JS.some p l.
Proof.
  unfold JS.some. induction l as [| x l IH]; [reflexivity |].
  cbn [List.find existsb]. destruct (p x); [reflexivity | exact IH].
Qed.

Lemma some_filter {A : Type} (p q : A -> bool) (l : list A) :
  JS.some p (List.filter q l) = JS.some (fun x => q x && p x) l.
Proof.
  unfold JS.some. induction l as [| x l IH]; [reflexivity |].
  cbn [List.filter existsb]. destruct (q x); cbn [existsb andb];
    rewrite IH; reflexivity.
Qed.

Lemma some_ext {A : Type} (p q : A -> bool) (l : list A) :
  (forall x, p x = q x) -> JS.some p l = JS.some q l.
Proof.
  intros Hpq. unfold JS.some. induction l as [| x l IH]; [reflexivity |].
  cbn [existsb]. rewrite Hpq, IH. reflexivity.
Qed.

Lemma toggle_keeps_other (habitId date hid dateStr : string)
    (c : HabitCompletion) :
  String.eqb hid habitId && String.eqb dateStr date = false ->
  negb (String.eqb (habit_id c) habitId && String.eqb (completion_date c) date)
  && (String.eqb (habit_id c) hid && String.eqb (completion_date c) dateStr)
  = String.eqb (habit_id c) hid && String.eqb (completion_date c) dateStr.
Proof.
  intros Hother.
  destruct (String.eqb (habit_id c) hid) eqn:Hc1;
    [| rewrite andb_false_r; reflexivity].
  destruct (String.eqb (completion_date c) dateStr) eqn:Hc2;
    [| rewrite andb_false_r; reflexivity].
  apply String.eqb_eq in Hc1, Hc2. rewrite Hc1, Hc2, Hother. reflexivity.
Qed.

(** X18.  [handleToggleCompletion] changes the tick of exactly one cell
    of the weekly grid: the cell of that habit and date shows the value
    asked for, every other cell shows what it showed before, and no cell
    changes between "due" and "not due". *)
Theorem toggle_sets_one_cell (habitId date : string) (completed : bool)
    (prev : list HabitCompletion) (h : Habit) (day : Date) :
  let next := App.handleToggleCompletion habitId date completed prev in
  snd (WeeklyCalendar.cell h next day)
  = (if String.eqb (id h) habitId && String.eqb (format_yyyyMMdd day) date
     then completed
     else snd (WeeklyCalendar.cell h prev day))
  /\ fst (WeeklyCalendar.cell h next day)
     = fst (WeeklyCalendar.cell h prev day).
Proof.
  intros next. subst next. split; [| reflexivity].
  unfold WeeklyCalendar.cell. cbn [snd].
  rewrite !find_some_iff.
  unfold App.handleToggleCompletion.
  destruct (String.eqb (id h) habitId && String.eqb (format_yyyyMMdd day) date)
    eqn:Hcell.
  - apply andb_true_iff in Hcell. destruct Hcell as [Hid Hdate].
    apply String.eqb_eq in Hid, Hdate. subst habitId date.
    destruct completed.
    + unfold JS.some. cbn [existsb habit_id completion_date].
      rewrite !String.eqb_refl. reflexivity.
    + rewrite some_filter. unfold JS.some.
      apply not_true_is_false. intros Hex.
      apply existsb_exists in Hex. destruct Hex as (c & _ & Hc).
      destruct (String.eqb (habit_id c) (id h));
        destruct (String.eqb (completion_date c) (format_yyyyMMdd day));
        discriminate.
  - destruct completed.
    + unfold JS.some. cbn [existsb habit_id completion_date].
      rewrite (String.eqb_sym habitId), (String.eqb_sym date), Hcell.
      reflexivity.
    + rewrite some_filter. apply some_ext.
      intros c. apply toggle_keeps_other, Hcell.
Qed.

Lemma toggle_sets_one_cell_witness :
  snd (WeeklyCalendar.cell Sample.everyDay
         (App.handleToggleCompletion "h2" "2024-01-15" false
            Sample.completions)
         Sample.monday)
  = false.
Proof.
  destruct (toggle_sets_one_cell "h2" "2024-01-15" false Sample.completions
              Sample.everyDay Sample.monday) as [Hcell _].
  rewrite Hcell. reflexivity.
Defined.

Lemma NoDup_map_filter {A B : Type} (f : A -> B) (p : A -> bool)
    (l : list A) :
  NoDup (map f l) -> NoDup (map f (List.filter p l)).
Proof.
  induction l as [| x l IH]; intros Hnd; [exact Hnd |].
  cbn [map] in Hnd. apply NoDup_cons in Hnd. destruct Hnd as [Hx Hnd].
  cbn [List.filter]. destruct (p x); [| exact (IH Hnd)].
  cbn [map]. apply NoDup_cons. split; [| exact (IH Hnd)].
  intros Hin. apply Hx.
  apply list_elem_of_In in Hin. apply list_elem_of_In.
  apply in_map_iff in Hin. destruct Hin as (y & Hy & Hin).
  apply in_map_iff. exists y. split; [exact Hy |].
  apply filter_In in Hin. tauto.
Qed.

(** X19.  The list of completions keeps at most one row for a habit and
    a date through [handleToggleCompletion], when a tick is only asked
    for a cell that is not ticked yet, as the habit card and the weekly
    grid do; and taking a tick off leaves no row for that habit and
    date. *)
Theorem toggle_keeps_one_completion_per_day (habitId date : string)
    (completed : bool) (prev : list HabitCompletion) :
  oneCompletionPerDay prev ->
  (completed = true ->
   JS.some (fun c => String.eqb (habit_id c) habitId
                     && String.eqb (completion_date c) date) prev = false) ->
  let next := App.handleToggleCompletion habitId date completed prev in
  oneCompletionPerDay next
  /\ (completed = false ->
      forall c, In c next ->
                ~ (habit_id c = habitId /\ completion_date c = date)).
Proof.
  intros Hone Hfree next. subst next.
  unfold App.handleToggleCompletion, oneCompletionPerDay in *.
  destruct completed.
  - split; [| discriminate].
    cbn [map habit_id completion_date]. apply NoDup_cons. split; [| exact Hone].
    intros Hin. apply list_elem_of_In in Hin.
    apply in_map_iff in Hin. destruct Hin as (c & Hc & Hin).
    specialize (Hfree eq_refl).
    assert (Hex : JS.some
                    (fun c => String.eqb (habit_id c) habitId
                              && String.eqb (completion_date c) date) prev
                  = true).
    { unfold JS.some. apply existsb_exists. exists c. split; [exact Hin |].
      injection Hc as Hc1 Hc2. rewrite Hc1, Hc2, !String.eqb_refl.
      reflexivity. }
    congruence.
  - split.
    + apply NoDup_map_filter, Hone.
    + intros _ c Hin [Hc1 Hc2]. apply filter_In in Hin.
      destruct Hin as [_ Hkeep].
      rewrite Hc1, Hc2, !String.eqb_refl in Hkeep. discriminate.
Qed.

Lemma toggle_keeps_one_completion_per_day_witness :
  oneCompletionPerDay
    (App.handleToggleCompletion "h1" "2024-01-16" true Sample.completions).
Proof.
  apply (toggle_keeps_one_completion_per_day "h1" "2024-01-16" true
           Sample.completions).
  - apply (bool_decide_unpack (oneCompletionPerDay Sample.completions)).
    vm_compute. exact I.
  - intros _. vm_compute. reflexivity.
Defined.

(** ** The habit filter of the chart *)

(** X20.  [toggleHabit] flips the membership of the habit it is given
    and of no other, so doing it twice gives the selection back. *)
Theorem toggleHabit_flips_one (selectedHabits : gset string)
    (habitId : string) :
  let selected' := ChartControls.toggleHabit selectedHabits habitId in
  (habitId ∈ selected' <-> habitId ∉ selectedHabits)
  /\ (forall other, other <> habitId ->
        (other ∈ selected' <-> other ∈ selectedHabits))
  /\ ChartControls.toggleHabit selected' habitId = selectedHabits.
Proof.
  intros selected'. subst selected'. unfold ChartControls.toggleHabit.
  destruct (bool_decide (habitId ∈ selectedHabits)) eqn:Hin.
  - apply bool_decide_eq_true in Hin.
    assert (Hout : habitId ∉ selectedHabits ∖ {[habitId]}).
    { rewrite elem_of_difference, elem_of_singleton. tauto. }
    rewrite (bool_decide_eq_false_2 _ Hout).
    split; [tauto |]. split.
    + intros other Hother.
      rewrite elem_of_difference, elem_of_singleton. tauto.
    + apply set_eq. intros x.
      rewrite elem_of_union, elem_of_difference, elem_of_singleton.
      destruct (decide (x = habitId)) as [-> | Hx]; tauto.
  - apply bool_decide_eq_false in Hin.
    assert (Hnow : habitId ∈ selectedHabits ∪ {[habitId]}).
    { rewrite elem_of_union, elem_of_singleton. tauto. }
    rewrite (bool_decide_eq_true_2 _ Hnow).
    split; [tauto |]. split.
    + intros other Hother.
      rewrite elem_of_union, elem_of_singleton. tauto.
    + apply set_eq. intros x.
      rewrite elem_of_difference, elem_of_union, elem_of_singleton.
      destruct (decide (x = habitId)) as [-> | Hx]; tauto.
Qed.

(** ** The list of habits held in state *)

(** X21.  The updates of the habit list keep the identifiers distinct:
    [handleHabitUpdated] keeps the identifiers and their order and puts
    the new value in the place of the habit it replaces,
    [handleDeleteHabit] takes out the habit with the identifier and no
    other, and [handleHabitCreated] puts a habit with a fresh
    identifier in front. *)
Theorem habit_updates_keep_ids_distinct (updatedHabit newHabit : Habit)
    (habitId : string) (prev : list Habit) :
  NoDup (map id prev) ->
  ~ In (id newHabit) (map id prev) ->
  map id (App.handleHabitUpdated updatedHabit prev) = map id prev
  /\ (In (id updatedHabit) (map id prev) ->
      In updatedHabit (App.handleHabitUpdated updatedHabit prev))
  /\ NoDup (map id (App.handleDeleteHabit habitId prev))
  /\ (forall h, In h (App.handleDeleteHabit habitId prev)
                <-> In h prev /\ id h <> habitId)
  /\ NoDup (map id (App.handleHabitCreated newHabit prev)).
Proof.
  intros Hnd Hfresh. split; [| split; [| split; [| split]]].
  - unfold App.handleHabitUpdated. rewrite map_map. apply map_ext.
    intros h. destruct (String.eqb (id h) (id updatedHabit)) eqn:Hh;
      [| reflexivity].
    apply String.eqb_eq in Hh. symmetry. exact Hh.
  - intros Hin. apply in_map_iff in Hin. destruct Hin as (h & Hh & Hin).
    unfold App.handleHabitUpdated. apply in_map_iff. exists h.
    split; [| exact Hin]. rewrite Hh, String.eqb_refl. reflexivity.
  - apply NoDup_map_filter, Hnd.
  - intros h. unfold App.handleDeleteHabit. rewrite filter_In.
    rewrite negb_true_iff, String.eqb_neq. reflexivity.
  - unfold App.handleHabitCreated. cbn [map]. apply NoDup_cons.
    split; [| exact Hnd].
    intros Hin. apply Hfresh, list_elem_of_In, Hin.
Qed.

Lemma habit_updates_keep_ids_distinct_witness :
  map id (App.handleHabitUpdated Sample.everyDay Sample.habits)
  = map id Sample.habits.
Proof.
  apply (habit_updates_keep_ids_distinct Sample.everyDay
           {| id := "h9"; frequency_type := "daily"; custom_days := None;
              is_active := true; created_at := Sample.monday |}
           "h1" Sample.habits).
  - apply (bool_decide_unpack (NoDup (map id Sample.habits))).
    vm_compute. exact I.
  - intros Hin. cbn in Hin.
    repeat (destruct Hin as [Hin | Hin]; [discriminate |]). exact Hin.
Defined.

(** ** The windows of the dashboard and of the ranking *)

Lemma seqZ_succ (n : nat) :
  seqZ 0 (Z.of_nat (S n)) = (seqZ 0 (Z.of_nat n) ++ [Z.of_nat n])%list.
Proof.
  replace (Z.of_nat (S n)) with (Z.of_nat n + 1) by lia.
  rewrite seqZ_app by lia. reflexivity.
Qed.

Lemma windowDates_back (now : Date) (n : nat) :
  windowDates (subDays now (Z.of_nat n)) now
  = rev (map (subDays now) (seqZ 0 (Z.of_nat (S n)))).
Proof.
  induction n as [| n IH].
  - rewrite windowDates_step by (unfold subDays; lia).
    rewrite windowDates_empty
      by (unfold addDays, subDays, msPerDay; lia).
    cbn. reflexivity.
  - rewrite windowDates_step
      by (pose proof msPerDay_pos; unfold subDays; nia).
    replace (addDays (subDays now (Z.of_nat (S n))) 1)
      with (subDays now (Z.of_nat n))
      by (unfold addDays, subDays; lia).
    rewrite IH. rewrite (seqZ_succ (S n)), map_app, rev_app_distr.
    reflexivity.
Qed.

Lemma last_days_window (habits : list Habit)
    (completions : list HabitCompletion) (now : Date) (n : nat) :
  Dashboard.getCompletionStats habits completions (Z.of_nat (S n)) now
  = AnalyticsChart.getWeekStats (subDays now (Z.of_nat n)) now habits
      completions.
Proof.
  rewrite getCompletionStats_sum, getWeekStats_sum, windowDates_back.
  apply sumStats_perm.
  rewrite <- (map_map (subDays now)
                (fun d => sumStats (map (dayDelta completions d) habits))).
  apply Permutation_map, Permutation_rev.
Qed.

Lemma dashboard_window (habits : list Habit)
    (completions : list HabitCompletion) (days : Z) (now : Date) :
  0 < days ->
  Dashboard.getCompletionStats habits completions days now
  = AnalyticsChart.getWeekStats (subDays now (days - 1)) now habits
      completions.
Proof.
  intros Hdays.
  replace days with (Z.of_nat (S (Z.to_nat (days - 1)))) at 1 by lia.
  replace (days - 1) with (Z.of_nat (Z.to_nat (days - 1))) at 2 by lia.
  apply last_days_window.
Qed.

(** X22.  The counters of the dashboard over the last [days] days are
    the counters the chart computes over the window that starts
    [days - 1] days before now and ends now. *)
Theorem dashboard_counts_window_ending_today (habits : list Habit)
    (completions : list HabitCompletion) (days : Z) (now : Date) :
  0 < days ->
  Dashboard.getCompletionStats habits completions days now
  = AnalyticsChart.getWeekStats (subDays now (days - 1)) now habits
      completions.
Proof.
  exact (dashboard_window habits completions days now).
Qed.

Lemma dashboard_counts_window_ending_today_witness :
  Dashboard.getCompletionStats Sample.habits Sample.completions 7
    (Sample.monday + msPerDay)
  = AnalyticsChart.getWeekStats (subDays (Sample.monday + msPerDay) (7 - 1))
      (Sample.monday + msPerDay) Sample.habits Sample.completions.
Proof.
  apply (dashboard_counts_window_ending_today Sample.habits
           Sample.completions 7 (Sample.monday + msPerDay)).
  lia.
Defined.

Lemma getWeekStats_single (startDate endDate : Date) (h : Habit)
    (completions : list HabitCompletion) :
  AnalyticsChart.getWeekStats startDate endDate [h] completions
  = AnalyticsChart.getWeekStatsForHabit startDate endDate h completions.
Proof.
  rewrite getWeekStats_sum, getWeekStatsForHabit_sum. f_equal.
  apply map_ext. intros d. cbn [map sumStats fold_right].
  apply addStats_zero_r.
Qed.

Lemma filter_all {A : Type} (p : A -> bool) (l : list A) :
  (forall x, p x = true) -> List.filter p l = l.
Proof.
  intros Hp. induction l as [| x l IH]; [reflexivity |].
  cbn [List.filter]. rewrite Hp, IH. reflexivity.
Qed.

Lemma period_window (period : MostAbandoned.Period)
    (customStartDate customEndDate : option Date) (now : Date) :
  period <> MostAbandoned.PCustom ->
  MostAbandoned.window period customStartDate customEndDate now
  = Some (subDays now (periodDays period), now).
Proof. destruct period; intros Hp; [reflexivity .. | contradiction]. Qed.

Lemma periodDays_nonneg (period : MostAbandoned.Period) :
  0 <= periodDays period.
Proof. destruct period; cbn; lia. Qed.

(** X23.  The ranking over "the last 7, 30 or 90 days" walks from that
    many days before now up to now, both ends included: the counters of
    a row are those of the dashboard for that habit over one day more
    than the button says, and a habit due every day has that many
    planned days. *)
Theorem ranking_period_counts_one_more_day (period : MostAbandoned.Period)
    (customStartDate customEndDate : option Date) (now : Date)
    (habits : list Habit) (completions : list HabitCompletion)
    (rows : list MostAbandoned.AbandonedHabit)
    (r : MostAbandoned.AbandonedHabit) :
  period <> MostAbandoned.PCustom ->
  MostAbandoned.calculateAbandonedHabits period customStartDate customEndDate
    now habits completions = Some rows ->
  In r rows ->
  let st :=
    Dashboard.getCompletionStats [MostAbandoned.habit r] completions
      (periodDays period + 1) now in
  MostAbandoned.plannedDays r = planned st
  /\ MostAbandoned.missedDays r = planned st - completed st
  /\ MostAbandoned.plannedDays r <= periodDays period + 1
  /\ (frequency_type (MostAbandoned.habit r) = "daily"%string ->
      MostAbandoned.plannedDays r = periodDays period + 1).
Proof.
  intros Hperiod Hrows Hr st.
  unfold MostAbandoned.calculateAbandonedHabits in Hrows.
  rewrite (period_window _ _ _ _ Hperiod) in Hrows.
  injection Hrows as <-.
  apply ranked_facts in Hr. destruct Hr as (_ & _ & Hfacts & _).
  destruct Hfacts as (Hplanned & Hmissed & _).
  rewrite countDays_eq in Hplanned, Hmissed. cbn [fst snd] in Hplanned, Hmissed.
  assert (Hst : st = AnalyticsChart.getWeekStatsForHabit
                       (subDays now (periodDays period)) now
                       (MostAbandoned.habit r) completions).
  { subst st. pose proof (periodDays_nonneg period) as Hnn.
    rewrite dashboard_window by lia.
    replace (periodDays period + 1 - 1) with (periodDays period) by lia.
    apply getWeekStats_single. }
  rewrite Hst. split; [exact Hplanned |]. split; [exact Hmissed |].
  rewrite Hplanned, getWeekStatsForHabit_sum, planned_counts_due_days.
  assert (Hlen : Z.of_nat
                   (length (windowDates (subDays now (periodDays period)) now))
                 = periodDays period + 1).
  { rewrite windowDates_length. unfold windowDays.
    pose proof (periodDays_nonneg period) as Hnn. pose proof msPerDay_pos.
    destruct (Z.leb_spec (subDays now (periodDays period)) now) as [_ | Hlt];
      [| unfold subDays in Hlt; nia].
    replace (now - subDays now (periodDays period))
      with (periodDays period * msPerDay) by (unfold subDays; lia).
    rewrite Z.div_mul by lia. reflexivity. }
  split.
  - rewrite <- Hlen. apply inj_le, filter_length_le.
  - intros Hdaily. rewrite <- Hlen. f_equal. f_equal.
    apply filter_all. intros d.
    unfold shouldShowHabitOnDate. rewrite Hdaily. reflexivity.
Qed.

Lemma ranking_period_counts_one_more_day_witness :
  MostAbandoned.plannedDays
    (nth 1
       (MostAbandoned.rankWindow (subDays (Sample.monday + msPerDay) 7)
          (Sample.monday + msPerDay) Sample.habits Sample.completions)
       {| MostAbandoned.habit := Sample.everyDay;
          MostAbandoned.missedDays := 0;
          MostAbandoned.plannedDays := 0;
          MostAbandoned.failureRate := 0%Q |})
  = periodDays MostAbandoned.P7 + 1.
Proof.
  destruct (ranking_period_counts_one_more_day MostAbandoned.P7 None None
              (Sample.monday + msPerDay) Sample.habits Sample.completions
              (MostAbandoned.rankWindow (subDays (Sample.monday + msPerDay) 7)
                 (Sample.monday + msPerDay) Sample.habits Sample.completions)
              (nth 1
                 (MostAbandoned.rankWindow
                    (subDays (Sample.monday + msPerDay) 7)
                    (Sample.monday + msPerDay) Sample.habits
                    Sample.completions)
                 {| MostAbandoned.habit := Sample.everyDay;
                    MostAbandoned.missedDays := 0;
                    MostAbandoned.plannedDays := 0;
                    MostAbandoned.failureRate := 0%Q |}))
    as (_ & _ & _ & Hdaily).
  - discriminate.
  - reflexivity.
  - vm_compute. right. left. reflexivity.
  - apply Hdaily. vm_compute. reflexivity.
Defined.

(** X24.  [calculateExpectedCompletions] of the older dashboard is the
    planned counter of [getCompletionStats], whatever the completions
    are, and it is zero for a number of days that is not positive. *)
Theorem expected_completions_is_planned (habits : list Habit)
    (completions : list HabitCompletion) (days : Z) (endDate : Date) :
  OldDashboard.calculateExpectedCompletions habits days endDate
  = planned (Dashboard.getCompletionStats habits completions days endDate)
  /\ (days <= 0 ->
      OldDashboard.calculateExpectedCompletions habits days endDate = 0).
Proof.
  unfold OldDashboard.calculateExpectedCompletions,
    Dashboard.getCompletionStats.
  split.
  - enough (Hloop : forall (l : list Z) (acc : Stats),
               fold_left
                 (fun expected i =>
                    fold_left
                      (fun expected habit =>
                         if shouldShowHabitOnDate habit (subDays endDate i)
                         then expected + 1 else expected)
                      habits expected)
                 l (planned acc)
               = planned
                   (fold_left
                      (fun acc i =>
                         fold_left
                           (countHabit completions (subDays endDate i)
                              (format_yyyyMMdd (subDays endDate i)))
                           habits acc)
                      l acc))
      by apply (Hloop (seqZ 0 days) {| completed := 0; planned := 0 |}).
    induction l as [| i l IH]; intros acc; [reflexivity |].
    cbn [fold_left]. rewrite <- IH. f_equal.
    generalize acc as acc'. clear IH.
    induction habits as [| h hs IHh]; intros acc'; [reflexivity |].
    cbn [fold_left]. rewrite <- IHh. f_equal.
    unfold countHabit.
    destruct (shouldShowHabitOnDate h (subDays endDate i)); [| reflexivity].
    destruct (JS.some _ completions); reflexivity.
  - intros Hdays. unfold seqZ. replace (Z.to_nat days) with 0%nat by lia.
    reflexivity.
Qed.

(** ** The points of the chart, in time order *)

Lemma setHabitWeeks_other (selectedHabits : gset string)
    (completions : list HabitCompletion) (weekStart weekEndActual : Date)
    (l : list Habit) (m : gmap string AnalyticsChart.JSValue) (k : string) :
  ~ In k (map id l) ->
  fold_left
    (AnalyticsChart.setHabitWeek selectedHabits completions weekStart
       weekEndActual) l m !! k
  = m !! k.
Proof.
  revert m. induction l as [| h l IH]; intros m Hk; [reflexivity |].
  cbn [fold_left]. rewrite IH by (intros Hin; apply Hk; right; exact Hin).
  unfold AnalyticsChart.setHabitWeek.
  destruct (bool_decide (id h ∈ selectedHabits)); [| reflexivity].
  apply lookup_insert_ne. intros Heq. apply Hk. left. exact Heq.
Qed.

Lemma dayPoint_date (viewMode : AnalyticsChart.ViewMode)
    (selectedHabits : gset string) (activeHabits : list Habit)
    (completions : list HabitCompletion) (date : Date) :
  ~ In "date"%string (map id activeHabits) ->
  AnalyticsChart.dayPoint viewMode selectedHabits activeHabits completions
    date !! "date"%string
  = Some (AnalyticsChart.JSStr (format_yyyyMMdd date)).
Proof.
  intros Hids. unfold AnalyticsChart.dayPoint. destruct viewMode.
  - rewrite !lookup_insert_ne by discriminate. apply lookup_insert_eq.
  - rewrite setHabitPoints_other by exact Hids.
    rewrite lookup_insert_ne by discriminate. apply lookup_insert_eq.
Qed.

Lemma weekPoint_date (viewMode : AnalyticsChart.ViewMode)
    (selectedHabits : gset string) (activeHabits : list Habit)
    (completions : list HabitCompletion) (endDate : Date) (i : Z) :
  ~ In "date"%string (map id activeHabits) ->
  AnalyticsChart.weekPoint viewMode selectedHabits activeHabits completions
    endDate i !! "date"%string
  = Some (AnalyticsChart.JSStr
            (format_yyyyMMdd
               (AnalyticsChart.startOfWeek (subDays endDate (i * 7))))).
Proof.
  intros Hids. unfold AnalyticsChart.weekPoint. destruct viewMode.
  - rewrite !lookup_insert_ne by discriminate. apply lookup_insert_eq.
  - rewrite setHabitWeeks_other by exact Hids.
    rewrite lookup_insert_ne by discriminate. apply lookup_insert_eq.
Qed.

Lemma startOfWeek_weeks_back (d : Date) (i : Z) :
  AnalyticsChart.startOfWeek (subDays d (i * 7))
  = subDays (AnalyticsChart.startOfWeek d) (i * 7).
Proof.
  unfold AnalyticsChart.startOfWeek.
  assert (Hday : dayNumber (subDays d (i * 7)) = dayNumber d - i * 7).
  { unfold dayNumber, subDays.
    replace (d - i * 7 * msPerDay) with (d + (- (i * 7)) * msPerDay) by lia.
    rewrite Z.div_add by (pose proof msPerDay_pos; lia). lia. }
  rewrite Hday.
  replace (dayNumber d - i * 7 + 3) with (dayNumber d + 3 + (- i) * 7) by lia.
  rewrite Z.mod_add by lia. unfold subDays. lia.
Qed.

Lemma rev_seqZ (n : nat) :
  rev (seqZ 0 (Z.of_nat n))
  = map (fun i => Z.of_nat n - 1 - i) (seqZ 0 (Z.of_nat n)).
Proof.
  induction n as [| n IH]; [reflexivity |].
  rewrite seqZ_succ at 1. rewrite rev_app_distr. cbn [rev app].
  rewrite (seqZ_cons 0 (Z.of_nat (S n))) by lia. cbn [map].
  replace (Z.of_nat (S n) - 1 - 0) with (Z.of_nat n) by lia. f_equal.
  replace (Z.pred (Z.of_nat (S n))) with (Z.of_nat n) by lia.
  rewrite IH. change (Z.succ 0) with (1 + 0).
  rewrite <- (fmap_add_seqZ 1 0).
  change (Z.add 1 <$> seqZ 0 (Z.of_nat n))
    with (map (Z.add 1) (seqZ 0 (Z.of_nat n))).
  rewrite map_map. apply map_ext. intros i. lia.
Qed.

Lemma rev_seqZ_from_zero (n : Z) :
  rev (seqZ 0 n) = map (fun i => n - 1 - i) (seqZ 0 n).
Proof.
  destruct (Z.le_gt_cases n 0) as [Hle | Hgt].
  - unfold seqZ. replace (Z.to_nat n) with 0%nat by lia. reflexivity.
  - replace n with (Z.of_nat (Z.to_nat n)) by lia. apply rev_seqZ.
Qed.

Lemma active_ids (k : string) (habits : list Habit) :
  ~ In k (map id habits) -> ~ In k (map id (List.filter is_active habits)).
Proof.
  intros Hk Hin. apply Hk. apply in_map_iff in Hin.
  destruct Hin as (h & Hh & Hin). apply in_map_iff. exists h.
  apply filter_In in Hin. tauto.
Qed.

(** X25.  Both views of the chart come out oldest first.  The day view
    has one point for each of the [dateRange + 1] days that end today;
    the week view, built newest first and then reversed, has one point
    for each of [ceil(dateRange / 7)] consecutive weeks, dated by their
    Mondays, the last being the week of today.  A habit whose identifier
    is the word "date" would overwrite the field. *)
Theorem chart_points_in_time_order (viewMode : AnalyticsChart.ViewMode)
    (selectedHabits : gset string) (dateRange : Z) (endDate : Date)
    (habits : list Habit) (completions : list HabitCompletion) :
  ~ In "date"%string (map id habits) ->
  let weeks := AnalyticsChart.weeksToShow dateRange in
  map (fun point => point !! "date"%string)
    (AnalyticsChart.chartData_day viewMode selectedHabits dateRange endDate
       habits completions)
  = map (fun i =>
           Some (AnalyticsChart.JSStr
                   (format_yyyyMMdd (subDays endDate (dateRange - i)))))
      (seqZ 0 (dateRange + 1))
  /\ map (fun point => point !! "date"%string)
       (AnalyticsChart.chartData_week viewMode selectedHabits dateRange
          endDate habits completions)
     = map (fun i =>
              Some (AnalyticsChart.JSStr
                      (format_yyyyMMdd
                         (subDays (AnalyticsChart.startOfWeek endDate)
                            ((weeks - 1 - i) * 7)))))
         (seqZ 0 weeks).
Proof.
  intros Hids weeks. apply (active_ids _ _) in Hids. split.
  - unfold AnalyticsChart.chartData_day. rewrite push_each. cbn [app].
    rewrite map_map. apply map_ext. intros i. apply dayPoint_date, Hids.
  - unfold AnalyticsChart.chartData_week. rewrite push_each. cbn [app].
    fold weeks. rewrite <- map_rev, rev_seqZ_from_zero, !map_map.
    apply map_ext. intros i.
    rewrite weekPoint_date by exact Hids.
    rewrite startOfWeek_weeks_back. reflexivity.
Qed.

Lemma chart_points_in_time_order_witness :
  map (fun point => point !! "date"%string)
    (AnalyticsChart.chartData_week AnalyticsChart.PerHabit {[ "h2"%string ]}
       14 (Sample.monday + 3 * msPerDay) Sample.habits Sample.completions)
  = [Some (AnalyticsChart.JSStr "2024-01-08");
     Some (AnalyticsChart.JSStr "2024-01-15")].
Proof.
  destruct (chart_points_in_time_order AnalyticsChart.PerHabit
              {[ "h2"%string ]} 14 (Sample.monday + 3 * msPerDay)
              Sample.habits Sample.completions) as [_ Hweek].
  - intros Hin. cbn in Hin.
    repeat (destruct Hin as [Hin | Hin]; [discriminate |]). exact Hin.
  - rewrite Hweek. vm_compute. reflexivity.
Defined.

(** ** The exported table *)

Lemma NoDup_map_eq {A B : Type} (f : A -> B) (l : list A) (x y : A) :
  NoDup (map f l) -> In x l -> In y l -> f x = f y -> x = y.
Proof.
  induction l as [| a l IH]; intros Hnd Hx Hy Hxy; [destruct Hx |].
  cbn [map] in Hnd. apply NoDup_cons in Hnd. destruct Hnd as [Ha Hnd].
  destruct Hx as [-> | Hx], Hy as [-> | Hy].
  - reflexivity.
  - exfalso. apply Ha, list_elem_of_In. rewrite Hxy. apply in_map, Hy.
  - exfalso. apply Ha, list_elem_of_In. rewrite <- Hxy. apply in_map, Hx.
  - apply IH; assumption.
Qed.

Lemma round_percent (q : Q) :
  (0 <= q /\ q <= 100)%Q -> 0 <= JSMath.round q <= 100.
Proof.
  intros [Hlo Hhi]. unfold JSMath.round. split.
  - change 0 with (Qfloor (0 + (1 # 2))). apply Qfloor_resp_le.
    apply Qplus_le_l. exact Hlo.
  - change 100 with (Qfloor (100 + (1 # 2))). apply Qfloor_resp_le.
    apply Qplus_le_l. exact Hhi.
Qed.

Section ExportRow.

Variables (habits : list Habit) (completions : list HabitCompletion)
  (date : Date).

Let row := ExportAnalytics.dataRow habits completions date.

Lemma dataRow_length : length row = (4 + 2 * length habits)%nat.
Proof.
  subst row. unfold ExportAnalytics.dataRow.
  cbn [app length]. rewrite length_app, !length_map. lia.
Qed.

Lemma dataRow_planned (k : nat) (h : Habit) :
  nth_error habits k = Some h ->
  nth_error row (4 + k)
  = Some (ExportAnalytics.Number
            (if shouldShowHabitOnDate h date then 1 else 0)).
Proof.
  intros Hk. subst row. unfold ExportAnalytics.dataRow.
  cbn [app Nat.add nth_error].
  rewrite nth_error_app1
    by (rewrite length_map; apply nth_error_Some; congruence).
  rewrite nth_error_map, Hk. reflexivity.
Qed.

Lemma dataRow_completed (k : nat) (h : Habit) :
  NoDup (map id habits) ->
  nth_error habits k = Some h ->
  nth_error row (4 + length habits + k) = Some (ExportAnalytics.Number 1) ->
  shouldShowHabitOnDate h date = true /\ is_active h = true.
Proof.
  intros Hnd Hk. subst row. unfold ExportAnalytics.dataRow.
  cbn [app Nat.add nth_error].
  rewrite nth_error_app2 by (rewrite length_map; lia).
  rewrite length_map.
  replace (length habits + k - length habits)%nat with k by lia.
  rewrite nth_error_map, Hk. cbn [option_map].
  match goal with
  | |- context [if ?b then 1 else 0] => destruct b eqn:Hsome
  end; [| discriminate].
  intros _. unfold JS.some in Hsome. apply existsb_exists in Hsome.
  destruct Hsome as (c & Hc & Hid). apply String.eqb_eq in Hid.
  apply ofDay_In in Hc. destruct Hc as (_ & _ & Hin).
  apply in_map_iff in Hin. destruct Hin as (h' & Hh' & Hin).
  apply filter_In in Hin. destruct Hin as [Hin Hdue].
  assert (h' = h) as ->.
  { apply (NoDup_map_eq id habits); [exact Hnd | exact Hin | | congruence].
    apply nth_error_In with (n := k). exact Hk. }
  apply andb_true_iff in Hdue. tauto.
Qed.

Lemma dataRow_totals :
  oneCompletionPerDay completions ->
  exists p c r,
    nth_error row 1 = Some (ExportAnalytics.Number p)
    /\ nth_error row 2 = Some (ExportAnalytics.Number c)
    /\ nth_error row 3 = Some (ExportAnalytics.Number r)
    /\ 0 <= c <= p /\ 0 <= r <= 100.
Proof.
  intros Hone. subst row. unfold ExportAnalytics.dataRow.
  cbn [app nth_error].
  pose proof (ofDay_length (format_yyyyMMdd date)
                (List.filter
                   (fun h => is_active h && shouldShowHabitOnDate h date)
                   habits)
                completions Hone) as Hlen.
  do 3 eexists. split; [reflexivity |]. split; [reflexivity |].
  split; [reflexivity |]. cbv beta in Hlen. split; [lia |].
  match goal with
  | |- context [0 <? Z.of_nat (length ?l)] =>
      destruct (Z.ltb_spec 0 (Z.of_nat (length l))) as [Hpos | Hzero]
  end; [| lia].
  apply round_percent.
  match goal with
  | |- context [(inject_Z (Z.of_nat (length ?part))
                 / inject_Z (Z.of_nat (length ?whole)))%Q] =>
      pose proof (percent_of_lengths (length part) (length whole) Hlen)
        as Hrate
  end.
  cbv zeta in Hrate.
  match type of Hrate with
  | context [(0 <? ?n)%nat] =>
      destruct (Nat.ltb_spec 0 n) as [_ | Hz]; [exact Hrate | lia]
  end.
Qed.

End ExportRow.

(** X26.  The exported table is rectangular and oldest day first: a
    header and 90 rows of [4 + 2 * habits.length] fields, the last row
    being today's.  In a row the completed total is at most the planned
    total and the rate is a whole number from 0 to 100, when there is at
    most one completion for a habit and a day; and a habit's "Completed"
    column holds 1 only where its "Planned" column does and the habit is
    active, when the identifiers are distinct. *)
Theorem export_table_shape (names : list string) (habits : list Habit)
    (completions : list HabitCompletion) (endDate : Date) :
  length names = length habits ->
  NoDup (map id habits) ->
  oneCompletionPerDay completions ->
  let table := ExportAnalytics.csvData names habits completions endDate in
  length table = 91%nat
  /\ Forall (fun row => length row = (4 + 2 * length habits)%nat) table
  /\ tl table
     = map (fun i =>
              ExportAnalytics.dataRow habits completions
                (subDays endDate (89 - i)))
         (seqZ 0 90)
  /\ forall date,
       let row := ExportAnalytics.dataRow habits completions date in
       (exists p c r,
          nth_error row 1 = Some (ExportAnalytics.Number p)
          /\ nth_error row 2 = Some (ExportAnalytics.Number c)
          /\ nth_error row 3 = Some (ExportAnalytics.Number r)
          /\ 0 <= c <= p /\ 0 <= r <= 100)
       /\ forall k h,
            nth_error habits k = Some h ->
            nth_error row (4 + length habits + k)
            = Some (ExportAnalytics.Number 1) ->
            nth_error row (4 + k) = Some (ExportAnalytics.Number 1)
            /\ is_active h = true.
Proof.
  intros Hnames Hnd Hone table. subst table.
  unfold ExportAnalytics.csvData.
  refine (conj _ (conj _ (conj _ _))).
  - cbn [length]. rewrite length_map, length_rev, length_seqZ. reflexivity.
  - apply Forall_cons. split.
    + unfold ExportAnalytics.header. cbn [app length].
      rewrite length_app, !length_map. lia.
    + apply Forall_forall. intros row Hrow.
      apply list_elem_of_In, in_map_iff in Hrow.
      destruct Hrow as (i & <- & _). apply dataRow_length.
  - cbn [tl]. rewrite (rev_seqZ_from_zero 90), map_map. reflexivity.
  - intros date. cbv zeta. split.
    + apply dataRow_totals, Hone.
    + intros k h Hk Hdone.
      destruct (dataRow_completed habits completions date k h Hnd Hk Hdone)
        as [Hdue Hactive].
      split; [| exact Hactive].
      rewrite (dataRow_planned habits completions date k h Hk), Hdue.
      reflexivity.
Qed.

Lemma export_table_shape_witness :
  length
    (ExportAnalytics.csvData ["Read"; "Run"; "Rest"]%string Sample.habits
       Sample.completions Sample.monday)
  = 91%nat.
Proof.
  apply (export_table_shape ["Read"; "Run"; "Rest"]%string Sample.habits
           Sample.completions Sample.monday).
  - reflexivity.
  - apply (bool_decide_unpack (NoDup (map id Sample.habits))).
    vm_compute. exact I.
  - apply (bool_decide_unpack (oneCompletionPerDay Sample.completions)).
    vm_compute. exact I.
Defined.

(** ** The summary of the dashboard and the header of the shared page *)

Lemma streak_cap_range (cap : Z) (fuel : nat) (h : Habit)
    (cs : list HabitCompletion) (today : Date) (v : Z) :
  0 <= cap ->
  calculateCurrentStreak_cap cap fuel h cs today = Some v ->
  0 <= v <= cap + 1.
Proof.
  intros Hcap E. rewrite streak_cap_eq in E.
  destruct (ofHabit h cs); [injection E as <-; lia |].
  apply streakLoop_range in E; lia.
Qed.

Lemma streaksOf_facts (fuel : nat) (completions : list HabitCompletion)
    (today : Date) (habits : list Habit) (all : list (Habit * Z)) :
  DashboardStats.streaksOf fuel habits completions today = Some all ->
  map fst all = habits
  /\ Forall (fun s => Dashboard.calculateCurrentStreak fuel (fst s)
                        completions today = Some (snd s)) all.
Proof.
  revert all. induction habits as [| h hs IH]; intros all Hall.
  - injection Hall as <-. split; [reflexivity | constructor].
  - cbn [DashboardStats.streaksOf] in Hall.
    destruct (Dashboard.calculateCurrentStreak fuel h completions today)
      as [v |] eqn:Hv; [| discriminate].
    destruct (DashboardStats.streaksOf fuel hs completions today)
      as [rest |]; [| discriminate].
    injection Hall as <-. destruct (IH rest eq_refl) as [Hfst Hrest].
    split; [cbn [map fst]; rewrite Hfst; reflexivity |].
    constructor; [exact Hv | exact Hrest].
Qed.

Lemma max0_bounds (xs : list Z) :
  0 <= JSMath.max0 xs /\ Forall (fun x => x <= JSMath.max0 xs) xs.
Proof.
  unfold JSMath.max0. induction xs as [| x xs [IH0 IH]]; cbn [fold_right].
  - split; [lia | constructor].
  - split; [lia |]. constructor; [lia |].
    eapply Forall_impl; [exact IH |]. cbv beta. intros y Hy. lia.
Qed.

Lemma max0_of_sorted (top : Z) (rest : list Z) :
  0 <= top -> Forall (fun x => x <= top) rest ->
  JSMath.max0 (top :: rest) = top.
Proof.
  intros Htop Hrest. unfold JSMath.max0. cbn [fold_right].
  fold (JSMath.max0 rest).
  assert (JSMath.max0 rest <= top); [| lia].
  unfold JSMath.max0. induction Hrest as [| x xs Hx _ IH]; cbn [fold_right]; lia.
Qed.

Lemma max0_perm (xs ys : list Z) :
  Permutation xs ys -> JSMath.max0 xs = JSMath.max0 ys.
Proof.
  unfold JSMath.max0.
  induction 1 as [| x l l' _ IH | x y l | l l' l'' _ IH1 _ IH2];
    cbn [fold_right]; lia.
Qed.

Lemma byStreakDesc_sorted (l : list (Habit * Z)) :
  StronglySorted (fun a b => snd b <= snd a)
    (JS.sort DashboardStats.byStreakDesc l).
Proof.
  apply sort_sorted.
  - unfold DashboardStats.byStreakDesc. intros x y Hc.
    apply Z.compare_gt_iff in Hc. lia.
  - unfold DashboardStats.byStreakDesc. intros x y Hc.
    apply Z.compare_ngt_iff in Hc. lia.
  - cbv beta. intros x y z Hxy Hyz. lia.
Qed.

Lemma In_firstn {A : Type} (n : nat) (l : list A) (x : A) :
  In x (firstn n l) -> In x l.
Proof.
  revert n. induction l as [| y l IH]; intros n Hx.
  - rewrite firstn_nil in Hx. exact Hx.
  - destruct n; [destruct Hx |]. cbn [firstn] in Hx.
    destruct Hx as [-> | Hx]; [left; reflexivity | right; exact (IH n Hx)].
Qed.

Lemma StronglySorted_firstn {A : Type} (R : A -> A -> Prop) (n : nat)
    (l : list A) :
  StronglySorted R l -> StronglySorted R (firstn n l).
Proof.
  intros Hl. revert n. induction Hl as [| x l Hl IH Hx]; intros n.
  - destruct n; constructor.
  - destruct n; cbn [firstn]; [constructor |].
    constructor; [apply IH |].
    apply Forall_forall. intros y Hy. apply list_elem_of_In in Hy.
    apply In_firstn in Hy.
    rewrite Forall_forall in Hx. apply Hx, list_elem_of_In, Hy.
Qed.

(** X27.  When [calculateStats] returns, the streaks it shows are at
    most three, longest first, each the positive streak of an active
    habit of the list; the longest streak is the first of them, or 0
    when none is shown, it is at most 366, and no active habit has a
    longer streak. *)
Theorem dashboard_summary_streaks (fuel : nat) (habits : list Habit)
    (completions : list HabitCompletion) (today : Date)
    (s : DashboardStats.HabitStats) :
  DashboardStats.calculateStats fuel habits completions today = Some s ->
  (length (DashboardStats.currentStreaks s) <= 3)%nat
  /\ StronglySorted (fun a b => snd b <= snd a)
       (DashboardStats.currentStreaks s)
  /\ Forall
       (fun shown =>
          In (fst shown) habits /\ is_active (fst shown) = true
          /\ Dashboard.calculateCurrentStreak fuel (fst shown) completions
               today = Some (snd shown)
          /\ 0 < snd shown)
       (DashboardStats.currentStreaks s)
  /\ DashboardStats.longestStreak s
     = match DashboardStats.currentStreaks s with
       | [] => 0
       | top :: _ => snd top
       end
  /\ 0 <= DashboardStats.longestStreak s <= 366
  /\ (forall h, In h habits -> is_active h = true ->
        exists v,
          Dashboard.calculateCurrentStreak fuel h completions today = Some v
          /\ v <= DashboardStats.longestStreak s).
Proof.
  intros Hs. unfold DashboardStats.calculateStats in Hs.
  destruct (DashboardStats.streaksOf fuel (List.filter is_active habits)
              completions today) as [all |] eqn:Hall; [| discriminate].
  apply streaksOf_facts in Hall. destruct Hall as [Hfst Hall].
  injection Hs as <-.
  cbn [DashboardStats.currentStreaks DashboardStats.longestStreak].
  set (streaks := List.filter (fun s => 0 <? snd s) all).
  pose proof (sort_perm DashboardStats.byStreakDesc streaks) as Hperm.
  pose proof (byStreakDesc_sorted streaks) as Hsorted.
  assert (Hin : forall shown, In shown streaks ->
            In (fst shown) habits /\ is_active (fst shown) = true
            /\ Dashboard.calculateCurrentStreak fuel (fst shown) completions
                 today = Some (snd shown)
            /\ 0 < snd shown).
  { intros shown Hshown. subst streaks. apply filter_In in Hshown.
    destruct Hshown as [Hshown Hpos]. apply Z.ltb_lt in Hpos.
    assert (Hact : In (fst shown) (List.filter is_active habits))
      by (rewrite <- Hfst; apply in_map, Hshown).
    apply filter_In in Hact. destruct Hact as [Hh Hact].
    rewrite Forall_forall in Hall.
    repeat split; try assumption. apply Hall, list_elem_of_In, Hshown. }
  assert (Hlongest : JSMath.max0 (map snd streaks)
                     = match JS.sort DashboardStats.byStreakDesc streaks with
                       | [] => 0
                       | top :: _ => snd top
                       end).
  { rewrite (max0_perm _ (map snd (JS.sort DashboardStats.byStreakDesc streaks)))
      by (apply Permutation_map, Permutation_sym, Hperm).
    destruct (JS.sort DashboardStats.byStreakDesc streaks) as [| top rest]
      eqn:Hsort; [reflexivity |].
    cbn [map]. apply max0_of_sorted.
    - assert (Htop : In top streaks)
        by (apply (Permutation_in _ Hperm); left; reflexivity).
      apply Hin in Htop. lia.
    - apply StronglySorted_inv in Hsorted. destruct Hsorted as [_ Hrest].
      rewrite Forall_forall in Hrest. apply Forall_forall.
      intros v Hv. apply list_elem_of_In, in_map_iff in Hv.
      destruct Hv as (shown & <- & Hshown).
      apply (Hrest shown), list_elem_of_In, Hshown. }
  refine (conj _ (conj _ (conj _ (conj _ (conj _ _))))).
  - apply firstn_le_length.
  - apply StronglySorted_firstn, Hsorted.
  - apply Forall_forall. intros shown Hshown. apply list_elem_of_In in Hshown.
    apply In_firstn in Hshown. apply (Permutation_in _ Hperm) in Hshown.
    apply Hin, Hshown.
  - rewrite Hlongest.
    destruct (JS.sort DashboardStats.byStreakDesc streaks); reflexivity.
  - destruct (max0_bounds (map snd streaks)) as [Hnn _]. split; [exact Hnn |].
    rewrite Hlongest.
    destruct (JS.sort DashboardStats.byStreakDesc streaks) as [| top rest]
      eqn:Hsort; [lia |].
    assert (Htop : In top streaks)
      by (apply (Permutation_in _ Hperm); left; reflexivity).
    apply Hin in Htop. destruct Htop as (_ & _ & Hv & _).
    apply streak_cap_range in Hv; lia.
  - intros h Hh Hact.
    assert (Hact' : In h (map fst all))
      by (rewrite Hfst; apply filter_In; auto).
    apply in_map_iff in Hact'. destruct Hact' as (shown & <- & Hshown).
    exists (snd shown). rewrite Forall_forall in Hall.
    split; [apply Hall, list_elem_of_In, Hshown |].
    destruct (max0_bounds (map snd streaks)) as [Hnn Hmax].
    destruct (Z.ltb_spec 0 (snd shown)) as [Hpos | Hnpos]; [| lia].
    rewrite Forall_forall in Hmax. apply Hmax, list_elem_of_In.
    apply in_map. subst streaks. apply filter_In.
    split; [exact Hshown | apply Z.ltb_lt, Hpos].
Qed.

Lemma dashboard_summary_streaks_witness :
  exists s,
    DashboardStats.calculateStats 10 Sample.habits Sample.completions
      (Sample.monday + msPerDay) = Some s
    /\ DashboardStats.longestStreak s
       = match DashboardStats.currentStreaks s with
         | [] => 0
         | top :: _ => snd top
         end.
Proof.
  eexists. split; [vm_compute; reflexivity |].
  eapply (dashboard_summary_streaks 10 Sample.habits Sample.completions
            (Sample.monday + msPerDay)).
  vm_compute. reflexivity.
Defined.

Lemma substring_length_le (n : nat) (s : string) :
  (String.length (substring 0 n s) <= n)%nat.
Proof.
  revert s. induction n as [| n IH]; intros s.
  - destruct s; cbn; lia.
  - destruct s as [| c s]; cbn [substring String.length]; [lia |].
    specialize (IH s). lia.
Qed.



Lemma streaks_facts (fuel : nat) (completions : list HabitCompletion)
    (today : Date) (habits : list Habit) (all : list Z) :
  SharedHeader.streaks fuel habits completions today = Some all ->
  Forall2 (fun h v => SharedPage.calculateCurrentStreak fuel h completions
                        today = Some v) habits all.
Proof.
  revert all. induction habits as [| h hs IH]; intros all Hall.
  - injection Hall as <-. constructor.
  - cbn [SharedHeader.streaks] in Hall.
    destruct (SharedPage.calculateCurrentStreak fuel h completions today)
      as [v |] eqn:Hv; [| discriminate].
    destruct (SharedHeader.streaks fuel hs completions today)
      as [rest |]; [| discriminate].
    injection Hall as <-. constructor; [exact Hv | apply IH; reflexivity].
Qed.

Lemma Forall2_In_l {A B : Type} (R : A -> B -> Prop) (l : list A)
    (l' : list B) (x : A) :
  Forall2 R l l' -> In x l -> exists y, In y l' /\ R x y.
Proof.
  induction 1 as [| a b l l' Hab _ IH]; intros Hx; [destruct Hx |].
  destruct Hx as [-> | Hx].
  - exists b. split; [left; reflexivity | exact Hab].
  - destruct (IH Hx) as (y & Hy & Hxy). exists y. split; [right |]; assumption.
Qed.

Lemma Forall2_In_r {A B : Type} (R : A -> B -> Prop) (l : list A)
    (l' : list B) (y : B) :
  Forall2 R l l' -> In y l' -> exists x, In x l /\ R x y.
Proof.
  induction 1 as [| a b l l' Hab _ IH]; intros Hy; [destruct Hy |].
  destruct Hy as [-> | Hy].
  - exists a. split; [left; reflexivity | exact Hab].
  - destruct (IH Hy) as (x & Hx & Hxy). exists x. split; [right |]; assumption.
Qed.

Lemma max0_attained (xs : list Z) :
  JSMath.max0 xs = 0 \/ In (JSMath.max0 xs) xs.
Proof.
  unfold JSMath.max0. induction xs as [| x xs IH]; cbn [fold_right].
  - left. reflexivity.
  - destruct (Z.max_spec x (fold_right Z.max 0 xs)) as [[_ ->] | [_ ->]].
    + destruct IH as [IH | IH]; [left; exact IH | right; right; exact IH].
    + right. left. reflexivity.
Qed.

(** X29.  The longest streak in the header of the shared page is
    computed only when the walk of every active habit ends; it is then
    between 0 and 101, no active habit has a longer streak, and it is 0
    or the streak of one of the active habits. *)
Theorem shared_page_longest_streak (fuel : nat) (habits : list Habit)
    (completions : list HabitCompletion) (today : Date) (longest : Z) :
  SharedHeader.longestStreak fuel habits completions today = Some longest ->
  0 <= longest <= 101
  /\ (forall h, In h habits -> is_active h = true ->
        exists v,
          SharedPage.calculateCurrentStreak fuel h completions today = Some v
          /\ v <= longest)
  /\ (longest = 0
      \/ exists h, In h habits /\ is_active h = true
                   /\ SharedPage.calculateCurrentStreak fuel h completions
                        today = Some longest).
Proof.
  intros Hlongest. unfold SharedHeader.longestStreak in Hlongest.
  destruct (SharedHeader.streaks fuel (List.filter is_active habits)
              completions today) as [all |] eqn:Hall; [| discriminate].
  injection Hlongest as <-. apply streaks_facts in Hall.
  destruct (max0_bounds all) as [Hnn Hmax].
  assert (Hone : JSMath.max0 all = 0
                 \/ exists h, In h habits /\ is_active h = true
                      /\ SharedPage.calculateCurrentStreak fuel h completions
                           today = Some (JSMath.max0 all)).
  { destruct (max0_attained all) as [Hz | Hin]; [left; exact Hz | right].
    destruct (Forall2_In_r _ _ _ _ Hall Hin) as (h & Hh & Hv).
    apply filter_In in Hh. exists h. tauto. }
  split; [| split; [| exact Hone]].
  - split; [exact Hnn |].
    destruct Hone as [-> | (h & _ & _ & Hv)]; [lia |].
    apply streak_cap_range in Hv; lia.
  - intros h Hh Hact.
    assert (Hin : In h (List.filter is_active habits))
      by (apply filter_In; auto).
    destruct (Forall2_In_l _ _ _ _ Hall Hin) as (v & Hv & Hstreak).
    exists v. split; [exact Hstreak |].
    rewrite Forall_forall in Hmax. apply Hmax, list_elem_of_In, Hv.
Qed.

Lemma shared_page_longest_streak_witness :
  exists longest,
    SharedHeader.longestStreak 10 Sample.habits Sample.completions
      (Sample.monday + msPerDay) = Some longest
    /\ 0 <= longest <= 101.
Proof.
  eexists. split; [vm_compute; reflexivity |].
  eapply (shared_page_longest_streak 10 Sample.habits Sample.completions
            (Sample.monday + msPerDay)).
  vm_compute. reflexivity.
Defined.

(** ** One question, three places *)

(** X30.  Whether a habit is done on a day is looked up in three places
    and they agree: the tick of the habit card, which [App.tsx] gives
    the completions of its habit only, is the tick of the cell of the
    weekly grid, and the counters count the day as completed exactly
    when the cell is both due and ticked. *)
Theorem completion_lookups_agree (h : Habit)
    (completions : list HabitCompletion) (day : Date) :
  let shown := WeeklyCalendar.cell h completions day in
  HabitCardToday.isCompleted (ofHabit h completions) day = snd shown
  /\ completed (dayDelta completions day h)
     = (if fst shown && snd shown then 1 else 0)
  /\ planned (dayDelta completions day h) = (if fst shown then 1 else 0).
Proof.
  intros shown. subst shown. unfold WeeklyCalendar.cell. cbn [fst snd].
  rewrite find_some_iff. split; [| split].
  - unfold HabitCardToday.isCompleted, ofHabit.
    rewrite find_some_iff, some_filter. reflexivity.
  - unfold dayDelta, countHabit.
    destruct (shouldShowHabitOnDate h day); [| reflexivity].
    destruct (JS.some _ completions); reflexivity.
  - unfold dayDelta, countHabit.
    destruct (shouldShowHabitOnDate h day); [| reflexivity].
    destruct (JS.some _ completions); reflexivity.
Qed.
